(** * L5, M10 and VMC: a shallow embedding of [codigos/L5_M10.py] and of the
      VMC part of [codigos/feature_calculator.py]

    The Python code works on pandas objects.  The embedding keeps the
    structure of the source (same function names, same loops, same guards)
    and fixes the following reading of the library calls it makes:

    - a timestamp is an integer number of microseconds on the local wall
      clock (the resolution of [datetime]); time zones and daylight saving
      changes are not modelled;
    - a [pandas.Series] is the list of its (index, value) pairs, in order;
    - label slicing [s[a:b]] keeps the entries whose label lies in the
      CLOSED interval from [a] to [b]: this is what pandas does on an index
      whose labels increase.  On an index that is out of order pandas raises
      [KeyError] when a bound is not one of the labels; the embedding does
      not, and what is stated of a function that takes slices is stated of
      series with increasing timestamps;
    - [Series.mean()] counts the missing values (NaN) as zero in the sum and
      divides by the number of the others.  The sum is the field [fsum] of
      the arithmetic, so that no general statement depends on the order in
      which the numbers are added; on binary64 it is numpy's pairwise
      summation ([Numpy.sum]), which pandas calls when the bottleneck
      package is not installed;
    - the mean of the timestamps of a bucket ([numpy.mean] of a column of
      timestamps) is computed by pandas in float64 on the epoch values in
      nanoseconds.  It is the field [stamp_mean] of the arithmetic; on
      binary64 it is [Numpy.stamp_mean64], which follows pandas step by step
      and gives the microsecond of the result;
    - the mean of the daily results of [get_L5] and [get_M10]
      ([pandas.Series(L5s).mean()]) goes through float64 in the same way; the
      embedding takes the exact mean of the epoch values instead
      ([mean_stamp]), which the float64 mean can miss by a microsecond.
      What is stated of it holds of both: bounds that the daily results
      clear by hours, and never an exact value;
    - a [dict] is the list of its items in insertion order; assigning to a key
      that is present replaces the value and keeps the position;
    - an exception is an explicit outcome [Raise]; a [while] loop runs on a
      counter computed from its bounds, and running out of it is a third
      outcome, [OutOfFuel], which the termination theorem excludes. *)

From Stdlib Require Import ZArith List Bool Lia.
From Stdlib Require Import PrimFloat Uint63.
From Stdlib Require Ascii String.
Import ListNotations.
Open Scope Z_scope.

(** ** Python outcomes *)

Module Py.

Inductive exn : Type :=
| ValueError   (* min() or max() of an empty dict *)
| IndexError   (* index[0] or index[-1] of an empty index *)
| KeyError.    (* a column that the frame does not have *)

Inductive outcome (A : Type) : Type :=
| Return (a : A)
| Raise (e : exn)
| OutOfFuel.

Arguments Return {A} a.
Arguments Raise {A} e.
Arguments OutOfFuel {A}.

Definition bind {A B : Type} (m : outcome A) (k : A -> outcome B) : outcome B :=
  match m with
  | Return a => k a
  | Raise e => Raise e
  | OutOfFuel => OutOfFuel
  end.

(** A function applied to every element of a list in turn, stopping at the
    first one that does not return. *)
Fixpoint for_each {A B : Type} (f : A -> outcome B) (l : list A)
    : outcome (list B) :=
  match l with
  | [] => Return []
  | a :: rest =>
      bind (f a) (fun b => bind (for_each f rest) (fun bs => Return (b :: bs)))
  end.

(** A state handed from one turn of a loop to the next, over the list of
    what the turns work on, stopping at the first turn that does not
    return. *)
Fixpoint fold_outcome {A B : Type} (f : B -> A -> outcome B) (l : list A)
    (b : B) : outcome B :=
  match l with
  | [] => Return b
  | a :: rest => bind (f b a) (fold_outcome f rest)
  end.

Definition returns {A : Type} (m : outcome A) : bool :=
  match m with Return _ => true | _ => false end.

Definition raises {A : Type} (m : outcome A) : bool :=
  match m with Raise _ => true | _ => false end.

(** What the functions of [L5_M10.py] hand back: [False], a timestamp, or
    the missing timestamp [NaT] (the mean of no timestamp at all). *)
Inductive value : Type :=
| PyFalse
| PyTimestamp (t : Z)
| PyNaT.

End Py.

Import Py.

Declare Scope py_scope.
Delimit Scope py_scope with py.
Notation "x <- m ;; k" := (bind m (fun x => k))
  (at level 61, m at next level, right associativity) : py_scope.
Open Scope py_scope.

(** ** Wall-clock time *)

Module Clock.

Definition Timestamp : Type := Z.

(** [datetime.timedelta(seconds=n)], [(minutes=n)], [(hours=n)] and
    [(days=n)] *)
Definition seconds (n : Z) : Z := n * 1000000.
Definition minutes (n : Z) : Z := n * 60000000.
Definition hours (n : Z) : Z := n * 3600000000.
Definition days (n : Z) : Z := n * 86400000000.

Arguments minutes : simpl never.
Arguments hours : simpl never.
Arguments days : simpl never.

(** [datetime.timedelta(hours=2.5)] *)
Definition hours_2_5 : Z := minutes 150.

(** [t.replace(hour=0, minute=0, second=0, microsecond=0)] *)
Definition replace_hms0 (t : Timestamp) : Timestamp := t - t mod days 1.

(** [t.replace(second=0, microsecond=0)] *)
Definition replace_s0 (t : Timestamp) : Timestamp := t - t mod minutes 1.

(** The three cursor moves of the source, each followed by its
    "do not overflow the recording" test:
    [(c + timedelta(days=1)).replace(hour=0, minute=0, second=0, microsecond=0)],
    [c + timedelta(hours=1)] and
    [(c + timedelta(minutes=1)).replace(second=0, microsecond=0)]. *)
Definition end_of_day (end_timestamp beg_day : Timestamp) : Timestamp :=
  let end_day := replace_hms0 (beg_day + days 1) in
  if end_day >? end_timestamp then end_timestamp else end_day.

Definition end_of_hour (day_end hour_beg : Timestamp) : Timestamp :=
  let hour_end := hour_beg + hours 1 in
  if hour_end >? day_end then day_end else hour_end.

Definition end_of_minute (last_stamp minute : Timestamp) : Timestamp :=
  let next_minute := replace_s0 (minute + minutes 1) in
  if next_minute >? last_stamp then last_stamp else next_minute.

(** The number of turns each [while] loop is given. *)
Definition day_fuel (beg_timestamp end_timestamp : Timestamp) : nat :=
  Z.to_nat ((end_timestamp - 1 - replace_hms0 beg_timestamp) / days 1 + 1).

Definition hour_fuel (hour_beg day_end : Timestamp) : nat :=
  Z.to_nat ((day_end - 1 - hour_beg) / hours 1 + 1).

Definition minute_fuel (minute last_stamp : Timestamp) : nat :=
  Z.to_nat ((last_stamp - 1 - replace_s0 minute) / minutes 1 + 1).

(** The exact mean of the epoch values of a column of timestamps, cut to
    the resolution of a timestamp: what [pandas.Series(stamps).mean()]
    computes up to the rounding of float64. *)
Definition mean_stamp (stamps : list Timestamp) : Timestamp :=
  fold_right Z.add 0 stamps / Z.of_nat (length stamps).

(** [pandas.Series(stamps).mean()]; [None] is [NaT]. *)
Definition timestamp_mean (stamps : list Timestamp) : option Timestamp :=
  match stamps with
  | [] => None
  | _ :: _ => Some (mean_stamp stamps)
  end.

End Clock.

Import Clock.

(** ** Floating-point values

    The sensor values are [float64].  The embedding is written over the
    operations it needs, so that every statement holds for the arithmetic of
    the machine, and is run on Rocq's binary64 numbers. *)

Class FloatOps (F : Type) : Type := {
  fzero : F;
  fnan : F;
  fadd : F -> F -> F;
  fsub : F -> F -> F;
  fmul : F -> F -> F;
  fdiv : F -> F -> F;
  fabs : F -> F;
  fsqrt : F -> F;
  flt : F -> F -> bool;
  fisnan : F -> bool;
  of_count : nat -> F;
  (** [a.sum()] of a float64 array, in numpy's own order *)
  fsum : list F -> F;
  (** [numpy.mean] of a column of timestamps *)
  stamp_mean : list Timestamp -> Timestamp
}.

(** ** numpy's sum of an array, for the arithmetic of the machine

    [pairwise_sum] of numpy: fewer than 8 numbers are added from left to
    right; up to 128 numbers are added in 8 lanes, the lanes are added as a
    balanced tree and the numbers left over after the last full block of 8
    are added one by one; longer arrays are cut in two. *)

Module Numpy.
Section Numpy.
Context {F : Type} (add : F -> F -> F) (zero : F).

Fixpoint add_lanes (r block : list F) : list F :=
  match r, block with
  | x :: r', y :: block' => add x y :: add_lanes r' block'
  | _, _ => r
  end.

Fixpoint unrolled (turns : nat) (r rest : list F) : list F * list F :=
  match turns with
  | O => (r, rest)
  | S turns' =>
      if (8 <=? length rest)%nat
      then unrolled turns' (add_lanes r (firstn 8 rest)) (skipn 8 rest)
      else (r, rest)
  end.

Definition lanes_total (r : list F) : F :=
  match r with
  | [r0; r1; r2; r3; r4; r5; r6; r7] =>
      add (add (add r0 r1) (add r2 r3)) (add (add r4 r5) (add r6 r7))
  | _ => zero
  end.

Definition block_sum (a : list F) : F :=
  if (length a <? 8)%nat then fold_left add a zero
  else
    let (r, rest) := unrolled (length a) (firstn 8 a) (skipn 8 a) in
    fold_left add rest (lanes_total r).

Fixpoint pairwise_sum (depth : nat) (a : list F) : F :=
  let n := length a in
  if (n <=? 128)%nat then block_sum a
  else
    match depth with
    | O => block_sum a
    | S depth' =>
        let n2 := (n / 2 - (n / 2) mod 8)%nat in
        add (pairwise_sum depth' (firstn n2 a))
          (pairwise_sum depth' (skipn n2 a))
    end.

Definition sum (a : list F) : F := pairwise_sum (length a) a.

End Numpy.

(** A float64 cut to a whole number, towards zero, as the conversion to
    [int64] does; a whole number between -2^63 and 2^63, as the nearest
    float64. *)
Definition float_to_Z (f : float) : Z :=
  let (m, e) := PrimFloat.frshiftexp (PrimFloat.abs f) in
  let mantissa := Uint63.to_Z (PrimFloat.normfr_mantissa m) in
  let exponent := Uint63.to_Z e - 2101 - 53 in
  let magnitude :=
    if exponent <? 0 then mantissa / 2 ^ (- exponent)
    else mantissa * 2 ^ exponent in
  if PrimFloat.ltb f 0%float then - magnitude else magnitude.

Definition float_of_Z (z : Z) : float :=
  if z <? 0 then PrimFloat.opp (PrimFloat.of_uint63 (Uint63.of_Z (- z)))
  else PrimFloat.of_uint63 (Uint63.of_Z z).

(** The sum of an array of whole numbers asked for as float64: numpy
    converts and adds the array by buffers of 8192 numbers. *)
Definition buffer_size : nat := Z.to_nat 8192.

Fixpoint buffered_sum (buffers : nat) (total : float) (a : list Z) : float :=
  match buffers, a with
  | S buffers', _ :: _ =>
      buffered_sum buffers'
        (PrimFloat.add total
           (sum PrimFloat.add 0%float
              (map float_of_Z (firstn buffer_size a))))
        (skipn buffer_size a)
  | _, _ => total
  end.

(** The mean of a column of timestamps as pandas computes it: the epoch
    values, which pandas keeps in nanoseconds, are added as float64, the sum
    is divided by their number, and the quotient is cut to a whole number of
    nanoseconds; the microseconds of that instant are the result here. *)
Definition nanoseconds (t : Z) : Z := t * 1000.

Definition stamp_mean64 (stamps : list Z) : Z :=
  float_to_Z
    (PrimFloat.div
       (buffered_sum (length stamps) 0%float (map nanoseconds stamps))
       (float_of_Z (Z.of_nat (length stamps))))
  / 1000.

End Numpy.

#[export] Instance binary64 : FloatOps float := {
  fzero := 0%float;
  fnan := PrimFloat.nan;
  fadd := PrimFloat.add;
  fsub := PrimFloat.sub;
  fmul := PrimFloat.mul;
  fdiv := PrimFloat.div;
  fabs := PrimFloat.abs;
  fsqrt := PrimFloat.sqrt;
  flt := PrimFloat.ltb;
  fisnan := PrimFloat.is_nan;
  of_count := fun n => PrimFloat.of_uint63 (Uint63.of_Z (Z.of_nat n));
  fsum := Numpy.sum PrimFloat.add 0%float;
  stamp_mean := Numpy.stamp_mean64
}.

(** ** The pandas objects the code uses *)

Module Pandas.

Definition Series (F : Type) : Type := list (Timestamp * F).

Section Pandas.
Context {F : Type} {ops : FloatOps F}.

Definition index (s : Series F) : list Timestamp := map fst s.
Definition values (s : Series F) : list F := map snd s.

(** [s.index[0]] *)
Definition index_first (s : Series F) : outcome Timestamp :=
  match s with
  | [] => Raise IndexError
  | (t, _) :: _ => Return t
  end.

(** [s.index[-1]] *)
Definition index_last (s : Series F) : outcome Timestamp :=
  match s with
  | [] => Raise IndexError
  | p :: rest => Return (fst (last rest p))
  end.

Definition in_closed (a b t : Timestamp) : bool := (a <=? t) && (t <=? b).

(** [s[a:b]], both labels included, on an index whose labels increase *)
Definition slice (s : Series F) (a b : Timestamp) : Series F :=
  filter (fun p => in_closed a b (fst p)) s.

(** [s.mean()]: the missing values count as zero in the sum, and the sum is
    divided by the number of the values that are not missing. *)
Definition fill_zero (xs : list F) : list F :=
  map (fun x => if fisnan x then fzero else x) xs.

Definition count_valid (xs : list F) : nat :=
  length (filter (fun x => negb (fisnan x)) xs).

Definition mean (s : Series F) : F :=
  fdiv (fsum (fill_zero (values s))) (of_count (count_valid (values s))).

(** [s - c] and [s.abs()] *)
Definition sub_scalar (s : Series F) (c : F) : Series F :=
  map (fun p => (fst p, fsub (snd p) c)) s.
Definition abs (s : Series F) : Series F :=
  map (fun p => (fst p, fabs (snd p))) s.

(** A Python [dict] with timestamps as keys. *)
Definition dict (V : Type) : Type := list (Timestamp * V).

Fixpoint dict_set {V : Type} (d : dict V) (k : Timestamp) (v : V) : dict V :=
  match d with
  | [] => [(k, v)]
  | (k', v') :: rest =>
      if k' =? k then (k, v) :: rest else (k', v') :: dict_set rest k v
  end.

Fixpoint dict_get {V : Type} (d : dict V) (k : Timestamp) : option V :=
  match d with
  | [] => None
  | (k', v') :: rest => if k' =? k then Some v' else dict_get rest k
  end.

(** [d.update(e)] *)
Definition dict_update {V : Type} (d e : dict V) : dict V :=
  fold_left (fun acc kv => dict_set acc (fst kv) (snd kv)) e d.

(** [min(d, key=d.get)] and [max(d, key=d.get)]: the keys are visited in
    insertion order and the candidate changes only for a strictly smaller
    (greater) value, so the first extremum wins. *)
Fixpoint first_best (better : F -> F -> bool) (k : Timestamp) (v : F)
    (rest : dict F) : Timestamp :=
  match rest with
  | [] => k
  | (k', v') :: rest' =>
      if better v' v then first_best better k' v' rest'
      else first_best better k v rest'
  end.

Definition min_by_value (d : dict F) : outcome Timestamp :=
  match d with
  | [] => Raise ValueError
  | (k, v) :: rest => Return (first_best flt k v rest)
  end.

Definition max_by_value (d : dict F) : outcome Timestamp :=
  match d with
  | [] => Raise ValueError
  | (k, v) :: rest => Return (first_best (fun a b => flt b a) k v rest)
  end.

End Pandas.
End Pandas.

Import Pandas.

(** ** [codigos/L5_M10.py] *)

Module L5_M10.
Section L5_M10.
Context {F : Type} {ops : FloatOps F}.

(** The [for beg_window in short_data.index] loop shared by
    [get_L5_short_period] ([duration] 5 h, [half] 2.5 h) and
    [get_M10_short_period] (10 h, 5 h).  [last_stamp] is
    [short_data.index[-1]]. *)
Fixpoint window_loop (duration half : Z) (short_data : Series F)
    (last_stamp : Timestamp) (anchors : list Timestamp) (averages : dict F)
    : dict F :=
  match anchors with
  | [] => averages
  | beg_window :: rest =>
      let end_window := beg_window + duration in
      if end_window >? last_stamp then averages
      else
        let mean := mean (slice short_data beg_window end_window) in
        window_loop duration half short_data last_stamp rest
          (dict_set averages (beg_window + half) mean)
  end.

(** The dict the loop leaves behind; on a series with no sample the body of
    the loop, and with it [short_data.index[-1]], is never run. *)
Definition window_averages (duration half : Z) (short_data : Series F)
    : dict F :=
  match index_last short_data with
  | Return last_stamp =>
      window_loop duration half short_data last_stamp (index short_data) []
  | _ => []
  end.

Definition averages_5h (short_data : Series F) : dict F :=
  window_averages (hours 5) hours_2_5 short_data.

Definition averages_10h (short_data : Series F) : dict F :=
  window_averages (hours 10) (hours 5) short_data.

Definition get_L5_short_period (short_data : Series F) : outcome Timestamp :=
  min_by_value (averages_5h short_data).

Definition get_M10_short_period (short_data : Series F) : outcome Timestamp :=
  max_by_value (averages_10h short_data).

(** [while beg_day < end_timestamp: ...], the same in [get_L5] and
    [get_M10] up to the function applied to each day. *)
Fixpoint day_loop (short_period : Series F -> outcome Timestamp) (fuel : nat)
    (data : Series F) (end_timestamp beg_day : Timestamp)
    (found : list Timestamp) : outcome (list Timestamp) :=
  if beg_day <? end_timestamp then
    match fuel with
    | O => OutOfFuel
    | S fuel' =>
        let end_day := end_of_day end_timestamp beg_day in
        of_day <- short_period (slice data beg_day end_day) ;;
        day_loop short_period fuel' data end_timestamp end_day
          (found ++ [of_day])
    end
  else Return found.

(** [pd.Series(L5s).mean()]: the mean of the daily results, taken exactly
    where pandas goes through float64, and [NaT] when there is none. *)
Definition mean_of_days (found : list Timestamp) : value :=
  match timestamp_mean found with
  | Some t => PyTimestamp t
  | None => PyNaT
  end.

Definition get_L5 (data : Series F) : outcome value :=
  beg_timestamp <- index_first data ;;
  end_timestamp <- index_last data ;;
  if end_timestamp - beg_timestamp <? hours 5 then Return PyFalse
  else if beg_timestamp + days 1 <? end_timestamp then
    L5s <- day_loop get_L5_short_period
             (day_fuel beg_timestamp end_timestamp)
             data end_timestamp beg_timestamp [] ;;
    Return (mean_of_days L5s)
  else
    L5 <- get_L5_short_period data ;;
    Return (PyTimestamp L5).

Definition get_M10 (data : Series F) : outcome value :=
  beg_timestamp <- index_first data ;;
  end_timestamp <- index_last data ;;
  if beg_timestamp + days 1 <? end_timestamp then
    M10s <- day_loop get_M10_short_period
              (day_fuel beg_timestamp end_timestamp)
              data end_timestamp beg_timestamp [] ;;
    Return (mean_of_days M10s)
  else
    M10 <- get_M10_short_period data ;;
    Return (PyTimestamp M10).

(** The day segments the loop cuts, as (first label, last label) pairs and as
    slices of the data. *)
Definition segments_of (data : Series F)
    (bounds : list (Timestamp * Timestamp)) : list (Series F) :=
  map (fun be => slice data (fst be) (snd be)) bounds.

Fixpoint day_bounds (fuel : nat) (end_timestamp beg_day : Timestamp)
    : list (Timestamp * Timestamp) :=
  if beg_day <? end_timestamp then
    match fuel with
    | O => []
    | S fuel' =>
        let end_day := end_of_day end_timestamp beg_day in
        (beg_day, end_day) :: day_bounds fuel' end_timestamp end_day
    end
  else [].

Definition day_segments (data : Series F) : list (Series F) :=
  match index_first data, index_last data with
  | Return beg_timestamp, Return end_timestamp =>
      segments_of data
        (day_bounds (day_fuel beg_timestamp end_timestamp)
           end_timestamp beg_timestamp)
  | _, _ => []
  end.

End L5_M10.
End L5_M10.

Import L5_M10.

(** ** [codigos/feature_calculator.py]: the VMC index *)

Module FeatureCalculator.

Inductive column : Type := lateral | longitudinal | vertical.

Definition column_eqb (a b : column) : bool :=
  match a, b with
  | lateral, lateral | longitudinal, longitudinal | vertical, vertical => true
  | _, _ => false
  end.

(** A [pandas.DataFrame]: its index and its named columns, each as long as
    the index. *)
Record DataFrame (F : Type) : Type := mkDataFrame {
  df_index : list Timestamp;
  df_columns : list (column * list F)
}.
Arguments mkDataFrame {F} _ _.
Arguments df_index {F} _.
Arguments df_columns {F} _.

(** The records of one query response: (timestamp, value) rows. *)
Definition response (F : Type) : Type := list (Timestamp * F).

Section FeatureCalculator.
Context {F : Type} {ops : FloatOps F}.

(** [response2dataframe], for a response whose first column is the
    timestamp: no record gives the empty frame [pd.DataFrame()]. *)
Definition response2dataframe (name : column) (data : response F)
    : DataFrame F :=
  match data with
  | [] => mkDataFrame [] []
  | _ :: _ => mkDataFrame (map fst data) [(name, map snd data)]
  end.

(** [pd.concat(frames, axis=1)]: the outer join on the index, for frames
    that each hold a label at most once, as the records of a channel do.
    The new index holds every label once, in order of first appearance; a
    column has NaN at the labels its frame does not have. *)
Definition has_label (idx : list Timestamp) (t : Timestamp) : bool :=
  existsb (Z.eqb t) idx.

Definition union_index (a b : list Timestamp) : list Timestamp :=
  a ++ filter (fun t => negb (has_label a t)) b.

Fixpoint value_at (idx : list Timestamp) (col : list F) (t : Timestamp) : F :=
  match idx, col with
  | i :: idx', x :: col' => if i =? t then x else value_at idx' col' t
  | _, _ => fnan
  end.

Definition reindex (new_index : list Timestamp) (df : DataFrame F)
    : list (column * list F) :=
  map (fun nc => (fst nc, map (value_at (df_index df) (snd nc)) new_index))
    (df_columns df).

Definition concat_axis1 (frames : list (DataFrame F)) : DataFrame F :=
  let idx := fold_left union_index (map df_index frames) [] in
  mkDataFrame idx (flat_map (reindex idx) frames).

(** The frame with the right columns, one row at [lower_limit] and no value. *)
Definition empty_df (lower_limit : Timestamp) : DataFrame F :=
  mkDataFrame [lower_limit]
    [(lateral, [fnan]); (longitudinal, [fnan]); (vertical, [fnan])].

(** The data base: [ServerHandler.query_acc_data] for one participant, [None]
    when it returns [False]. *)
Variable query_acc_data :
  Timestamp -> Timestamp -> option (response F * response F * response F).

Definition get_acc_data (lower_limit upper_limit : Timestamp) : DataFrame F :=
  match query_acc_data lower_limit upper_limit with
  | None => empty_df lower_limit
  | Some (response_lat, response_lon, response_ver) =>
      let df_lat := response2dataframe lateral response_lat in
      let df_lon := response2dataframe longitudinal response_lon in
      let df_ver := response2dataframe vertical response_ver in
      let df_acc := concat_axis1 [df_lat; df_lon; df_ver] in
      match df_columns df_acc with
      | [] => empty_df lower_limit
      | _ :: _ => df_acc
      end
  end.

(** [acc[name]] *)
Fixpoint getitem (cols : list (column * list F)) (name : column)
    : outcome (list F) :=
  match cols with
  | [] => Raise KeyError
  | (n, c) :: rest => if column_eqb n name then Return c else getitem rest name
  end.

(** [(x**2 + y**2 + z**2) ** 0.5] on one row *)
Definition norm3 (x y z : F) : F :=
  fsqrt (fadd (fadd (fmul x x) (fmul y y)) (fmul z z)).

Fixpoint norm_rows (xs ys zs : list F) : list F :=
  match xs, ys, zs with
  | x :: xs', y :: ys', z :: zs' => norm3 x y z :: norm_rows xs' ys' zs'
  | _, _, _ => []
  end.

Definition get_r (acc : DataFrame F) : outcome (Series F) :=
  lat <- getitem (df_columns acc) lateral ;;
  lon <- getitem (df_columns acc) longitudinal ;;
  ver <- getitem (df_columns acc) vertical ;;
  Return (combine (df_index acc) (norm_rows lat lon ver)).

(** The result of [get_VMC]: a [dict] with one item, whose value is [None]
    or a float. *)
Definition get_VMC (r : Series F) (first_timestamp : Timestamp)
    : dict (option F) :=
  match r with
  | [] => [(first_timestamp, None)]
  | _ :: _ =>
      let VMC_value := mean (abs (sub_scalar r (mean r))) in
      let avg_timestamp := stamp_mean (index r) in
      [(avg_timestamp, Some VMC_value)]
  end.

(** [while minute < r_1hour.index[-1]: ...] *)
Fixpoint minute_loop (fuel : nat) (r_1hour : Series F)
    (last_stamp minute : Timestamp) (vmc_serie : dict (option F))
    : outcome (dict (option F)) :=
  if minute <? last_stamp then
    match fuel with
    | O => OutOfFuel
    | S fuel' =>
        let next_minute := end_of_minute last_stamp minute in
        let vmc := get_VMC (slice r_1hour minute next_minute) minute in
        minute_loop fuel' r_1hour last_stamp next_minute
          (dict_update vmc_serie vmc)
    end
  else Return vmc_serie.

(** One turn of the hour loop, from the query of the hour to the end of
    its minute loop. *)
Definition hour_body (hour_beg hour_end : Timestamp)
    (vmc_serie : dict (option F)) : outcome (dict (option F)) :=
  let acc_1hour := get_acc_data hour_beg hour_end in
  r_1hour <- get_r acc_1hour ;;
  last_stamp <- index_last r_1hour ;;
  minute_loop (minute_fuel hour_beg last_stamp) r_1hour last_stamp hour_beg
    vmc_serie.

(** [while hour_beg < day_end: ...] *)
Fixpoint hour_loop (fuel : nat) (day_end hour_beg : Timestamp)
    (vmc_serie : dict (option F)) : outcome (dict (option F)) :=
  if hour_beg <? day_end then
    match fuel with
    | O => OutOfFuel
    | S fuel' =>
        let hour_end := end_of_hour day_end hour_beg in
        vmc_serie' <- hour_body hour_beg hour_end vmc_serie ;;
        hour_loop fuel' day_end hour_end vmc_serie'
    end
  else Return vmc_serie.

(** [for day_beg in days: ...] *)
Fixpoint days_loop (date_end : Timestamp) (days : list Timestamp)
    (vmc_serie : dict (option F)) : outcome (dict (option F)) :=
  match days with
  | [] => Return vmc_serie
  | day_beg :: rest =>
      let day_end := end_of_day date_end day_beg in
      vmc_serie' <- hour_loop (hour_fuel day_beg day_end) day_end day_beg
                      vmc_serie ;;
      days_loop date_end rest vmc_serie'
  end.

(** [pd.Series(vmc_serie, dtype=float)]: [None] becomes NaN. *)
Definition to_float_series (d : dict (option F)) : Series F :=
  map (fun kv => (fst kv, match snd kv with Some x => x | None => fnan end)) d.

(** [get_VMC_serie], from the point where the participant's [date_end] and
    the list [days] of day starts are known; [None] is the bare [return] taken
    when no day is selected. *)
Definition get_VMC_serie (date_end : Timestamp) (days : list Timestamp)
    : outcome (option (Series F)) :=
  match days with
  | [] => Return None
  | _ :: _ =>
      vmc_serie <- days_loop date_end days [] ;;
      Return (Some (to_float_series vmc_serie))
  end.

(** The minute buckets cut out of one hour of data, as pairs of labels. *)
Fixpoint minute_bounds (fuel : nat) (last_stamp minute : Timestamp)
    : list (Timestamp * Timestamp) :=
  if minute <? last_stamp then
    match fuel with
    | O => []
    | S fuel' =>
        let next_minute := end_of_minute last_stamp minute in
        (minute, next_minute) :: minute_bounds fuel' last_stamp next_minute
    end
  else [].

Definition minute_buckets (r_1hour : Series F) (hour_beg : Timestamp)
    : list (Series F) :=
  match index_last r_1hour with
  | Return last_stamp =>
      segments_of r_1hour
        (minute_bounds (minute_fuel hour_beg last_stamp) last_stamp hour_beg)
  | _ => []
  end.

End FeatureCalculator.
End FeatureCalculator.

Import FeatureCalculator.

(** ** [codigos/feature_calculator.py]: days, bounds of a query, heart rate *)

Module Participants.
Section Participants.

(** What [listSaturdays] and [listSundays] hold is decided by the data base;
    the code only asks whether [current.date()] is equal to one of the
    entries.  [same_date d entry] is that test, for the date with day number
    [d]. *)
Context {Entry : Type} (same_date : Z -> Entry -> bool).

(** [t.date()], as a number of days *)
Definition date (t : Timestamp) : Z := t / days 1.

(** One row of the frame of [get_participants_dates]. *)
Record dates_row : Type := mkDates {
  timestampStart : Timestamp;
  timestampEnd : Timestamp;
  listSaturdays : list Entry;
  listSundays : list Entry
}.

(** [current.date() not in weekends] *)
Definition not_in_weekends (weekends : list Entry) (current : Timestamp)
    : bool :=
  negb (existsb (same_date (date current)) weekends).

Definition weekdays_fuel (date_start date_end : Timestamp) : nat :=
  Z.to_nat (date date_end - date date_start).

(** [while current.date() < date_end.date(): ...] *)
Fixpoint weekdays_loop (fuel : nat) (date_end : Timestamp)
    (weekends : list Entry) (current : Timestamp) (weekdays : list Timestamp)
    : outcome (list Timestamp) :=
  if date current <? date date_end then
    match fuel with
    | O => OutOfFuel
    | S fuel' =>
        let weekdays' :=
          if not_in_weekends weekends current then weekdays ++ [current]
          else weekdays in
        weekdays_loop fuel' date_end weekends (current + days 1) weekdays'
    end
  else Return weekdays.

(** The body of the [for id in dates.index.values] loop: the two lists
    stored under one participant. *)
Definition days_of_row (row : dates_row)
    : outcome (list Timestamp * list Entry) :=
  let date_start := timestampStart row in
  let date_end := timestampEnd row in
  let weekends := listSaturdays row ++ listSundays row in
  weekdays <- weekdays_loop (weekdays_fuel date_start date_end) date_end
                weekends date_start [] ;;
  Return (weekdays, weekends).

(** [get_days_by_weekday_weekend], on the rows of the frame, each with the
    id of its participant. *)
Definition get_days_by_weekday_weekend (dates : list (Z * dates_row))
    : outcome (list (Z * (list Timestamp * list Entry))) :=
  for_each
    (fun id_row =>
       found <- days_of_row (snd id_row) ;; Return (fst id_row, found))
    dates.

End Participants.
End Participants.

Import Participants.

Module QueryText.

(** [str(limit)], as its characters. *)
Definition text : Type := list Ascii.ascii.

(** The double quote put around a bound. *)
Definition quote_mark : Ascii.ascii := Ascii.ascii_of_nat 34.

(** The two bound strings that [get_acc_data] sends: the longer of the two
    texts lends its tail, from [min_len] on, to the shorter. *)
Definition acc_limit_strings (lower_limit upper_limit : text) : text * text :=
  let min_len := Nat.min (length lower_limit) (length upper_limit) in
  let last_chunk_lower :=
    if (min_len <? length lower_limit)%nat then skipn min_len lower_limit
    else [] in
  let last_chunk_upper :=
    if (min_len <? length lower_limit)%nat then []
    else if (min_len <? length upper_limit)%nat
         then skipn min_len upper_limit
         else [] in
  (quote_mark :: lower_limit ++ last_chunk_upper ++ [quote_mark],
   quote_mark :: upper_limit ++ last_chunk_lower ++ [quote_mark]).

(** The two bound strings that [get_HR_data] sends: both texts cut to
    [min_len] characters. *)
Definition hr_limit_strings (lower_limit upper_limit : text) : text * text :=
  let min_len := Nat.min (length lower_limit) (length upper_limit) in
  (quote_mark :: firstn min_len lower_limit ++ [quote_mark],
   quote_mark :: firstn min_len upper_limit ++ [quote_mark]).

End QueryText.

Import QueryText.

Module HeartRate.

(** What [DataFrame.squeeze()] gives on a frame with the one column [HR]:
    the single value when there is one row, the column otherwise. *)
Inductive squeezed (F : Type) : Type :=
| Scalar (x : F)
| AsSeries (s : Series F).
Arguments Scalar {F} x.
Arguments AsSeries {F} s.

Section HeartRate.
Context {F : Type} {ops : FloatOps F}.

(** The data base: [ServerHandler.query_HR_data] for one participant, [None]
    when it returns [False]. *)
Variable query_HR_data : Timestamp -> Timestamp -> option (response F).

(** [get_HR_data].  A frame with the single column [HR] is the series of
    that column; [response2dataframe] gives it no column at all when the
    response has no record. *)
Definition get_HR_data (lower_limit upper_limit : Timestamp) : Series F :=
  match query_HR_data lower_limit upper_limit with
  | None => [(lower_limit, fnan)]
  | Some [] => [(lower_limit, fnan)]
  | Some (record :: records) => record :: records
  end.

(** [for day_beg in days: ...] *)
Fixpoint hr_days_loop (date_end : Timestamp) (days : list Timestamp)
    (hr_serie : Series F) : Series F :=
  match days with
  | [] => hr_serie
  | day_beg :: rest =>
      let day_end := end_of_day date_end day_beg in
      let hr_day := get_HR_data day_beg day_end in
      hr_days_loop date_end rest (hr_serie ++ hr_day)
  end.

Definition squeeze (frame : Series F) : squeezed F :=
  match frame with
  | [(_, x)] => Scalar x
  | _ => AsSeries frame
  end.

(** [get_HR_serie], from the point where [date_end] and the list [days] are
    known; [None] is the bare [return] taken when no day is selected. *)
Definition get_HR_serie (date_end : Timestamp) (days : list Timestamp)
    : option (squeezed F) :=
  match days with
  | [] => None
  | _ :: _ => Some (squeeze (hr_days_loop date_end days []))
  end.

End HeartRate.
End HeartRate.

Import HeartRate.

(** ** Vocabulary of the statements *)

Module Spec.
Section Spec.
Context {F : Type} {ops : FloatOps F}.

(** Strictly increasing timestamps. *)
Fixpoint increasing (stamps : list Timestamp) : bool :=
  match stamps with
  | a :: (b :: _) as rest => (a <? b) && increasing rest
  | _ => true
  end.

(** Consecutive intervals that lead from [a] to [e]: each one starts where
    the one before ends, and none is empty. *)
Fixpoint chained (a e : Timestamp) (bounds : list (Timestamp * Timestamp))
    : Prop :=
  match bounds with
  | [] => a = e
  | (x, y) :: rest => x = a /\ a < y /\ chained y e rest
  end.

(** No sample in two of the parts. *)
Definition overlap_free (parts : list (Series F)) : Prop :=
  forall (i j : nat) (p : Timestamp * F),
    (i < j)%nat -> In p (nth i parts []) -> In p (nth j parts []) -> False.

(** The samples of the half-open window that starts at [t]. *)
Definition half_open (s : Series F) (t duration : Z) : Series F :=
  filter (fun p => (t <=? fst p) && (fst p <? t + duration)) s.



(** The same series [d] microseconds later. *)
Definition shift (d : Z) (s : Series F) : Series F :=
  map (fun p : Timestamp * F => (fst p + d, snd p)) s.

(** A segment followed by itself one day later and two days later. *)
Definition three_times (segment : Series F) : Series F :=
  segment ++ shift (days 1) segment ++ shift (days 2) segment.

(** The index of a series after [pd.concat(..., axis=1)] of three channels. *)
Definition joined_index (lat lon ver : response F) : list Timestamp :=
  union_index (union_index (map fst lat) (map fst lon)) (map fst ver).

(** The value of a channel at a label, NaN where the channel has none. *)
Definition channel_at (ch : response F) (t : Timestamp) : F :=
  value_at (map fst ch) (map snd ch) t.

(** A segment in which no window of the given duration fits: it has no
    sample, or its last timestamp is less than [duration] after its first. *)
Definition too_short (duration : Z) (segment : Series F) : bool :=
  match index_first segment, index_last segment with
  | Return first_stamp, Return last_stamp =>
      last_stamp - first_stamp <? duration
  | _, _ => true
  end.

(** The answer of the data base holds a channel with no record and a channel
    with records. *)
Definition is_empty (ch : response F) : bool :=
  match ch with [] => true | _ :: _ => false end.

Definition partial_answer
    (answer : option (response F * response F * response F)) : bool :=
  match answer with
  | None => false
  | Some (lat, lon, ver) =>
      (is_empty lat || is_empty lon || is_empty ver)
      && negb (is_empty lat && is_empty lon && is_empty ver)
  end.

(** The answer of the data base has its records in the order of their
    timestamps, in each channel and once the channels are joined. *)
Definition sorted_answer
    (answer : option (response F * response F * response F)) : bool :=
  match answer with
  | None => true
  | Some (lat, lon, ver) =>
      increasing (map fst lat) && increasing (map fst lon)
      && increasing (map fst ver) && increasing (joined_index lat lon ver)
  end.

(** The comparison [<] puts the numbers of a list in an order in which some
    may be equal: of two numbers at most one is below the other, and a
    number below another is below every third number or has it below the
    other.  This is so of any list of float64 numbers without NaN. *)
Definition orderly (xs : list F) : bool :=
  forallb (fun a =>
    forallb (fun b =>
      implb (flt a b) (negb (flt b a))
      && forallb (fun c => implb (flt a b) (flt a c || flt c b)) xs) xs) xs.

(** What a result of [get_L5] or [get_M10] becomes [d] microseconds later. *)
Definition shift_value (d : Z) (v : value) : value :=
  match v with
  | PyTimestamp t => PyTimestamp (t + d)
  | other => other
  end.

Definition shift_outcome (d : Z) (m : outcome value) : outcome value :=
  match m with
  | Return v => Return (shift_value d v)
  | other => other
  end.

(** A pair of bounds, and the timestamp of one day, [d] microseconds
    later. *)
Definition move (d : Z) (be : Timestamp * Timestamp)
    : Timestamp * Timestamp := (fst be + d, snd be + d).

Definition later (d : Z) (m : outcome Timestamp) : outcome Timestamp :=
  match m with Return t => Return (t + d) | other => other end.

(** The day starts from [date_start] on, one per calendar day before the
    date of [date_end]. *)
Definition day_starts (date_start date_end : Timestamp) : list Timestamp :=
  map (fun i => date_start + days (Z.of_nat i))
    (seq 0 (Z.to_nat (date date_end - date date_start))).

End Spec.
End Spec.

Import Spec.

(** ** Recordings used as examples, on binary64 numbers *)

Module Examples.

(** 2024-01-01T00:00, as microseconds since 1970-01-01T00:00. *)
Definition new_year_2024 : Timestamp := days 19723.

(** One sample per hour from [start] on. *)
Definition hourly (start : Timestamp) (vs : list float) : Series float :=
  combine (map (fun i => start + hours (Z.of_nat i)) (seq 0 (length vs))) vs.

(** Six hourly samples 10, 10, 10, 1, 1, 1 from 00:00 to 05:00. *)
Definition scenario : Series float :=
  hourly new_year_2024 [10; 10; 10; 1; 1; 1]%float.

(** Two samples five hours apart. *)
Definition five_hours_apart : Series float :=
  [(new_year_2024, 10%float); (new_year_2024 + hours 5, 0%float)].

(** Two samples one hour apart. *)
Definition one_hour : Series float := hourly new_year_2024 [1; 2]%float.

(** 27 hourly samples, from 00:00 of one day to 02:00 of the next. *)
Definition day_and_two_hours : Series float :=
  hourly new_year_2024 (repeat 1%float 27).

(** 31 hourly samples, from 00:00 of one day to 06:00 of the next. *)
Definition day_and_six_hours : Series float :=
  hourly new_year_2024 (repeat 1%float 31).

(** Four samples, thirty seconds apart, the second and the fourth on a
    minute mark. *)
Definition two_minutes : Series float :=
  [(new_year_2024 + seconds 30, 1%float);
   (new_year_2024 + seconds 60, 2%float);
   (new_year_2024 + seconds 90, 3%float);
   (new_year_2024 + seconds 120, 4%float)].

(** One day of hourly samples from 01:00 to 23:00, quiet from 03:00 to
    08:00, and the same day three times in a row. *)
Definition one_day : Series float :=
  hourly (new_year_2024 + hours 1)
    [5; 5; 1; 1; 1; 1; 1; 1; 5; 5; 5; 5; 9; 9; 9; 9; 9; 9; 9; 9; 5; 5; 5]%float.

Definition three_days : Series float := three_times one_day.

(** Eight hourly samples of the same value, from 00:00 to 07:00: three
    windows of five hours, of the same mean. *)
Definition eight_equal : Series float :=
  hourly new_year_2024 (repeat 1%float 8).




(** Three channels of which the second has a sample the others lack. *)
Definition lat_channel : response float := [(new_year_2024 + seconds 1, 3%float)].
Definition lon_channel : response float :=
  [(new_year_2024 + seconds 1, 4%float); (new_year_2024 + seconds 2, 1%float)].
Definition ver_channel : response float := [(new_year_2024 + seconds 1, 0%float)].

Definition mismatched_query (lower_limit upper_limit : Timestamp)
    : option (response float * response float * response float) :=
  Some (lat_channel, lon_channel, ver_channel).

End Examples.

Import Examples.

(** ** More examples *)

Module MoreExamples.

(** A data base that fails on every query, one that has no record, and one
    that has lost the lateral channel. *)
Definition failing_query (lower_limit upper_limit : Timestamp)
    : option (response float * response float * response float) := None.

Definition silent_query (lower_limit upper_limit : Timestamp)
    : option (response float * response float * response float) :=
  Some ([], [], []).

Definition partial_query (lower_limit upper_limit : Timestamp)
    : option (response float * response float * response float) :=
  Some ([], lon_channel, ver_channel).

(** A participant recorded from Thursday 2024-01-04 10:00 to Tuesday
    2024-01-09 09:00, with the Saturday and the Sunday in between given as
    dates. *)
Definition thursday_to_tuesday : dates_row (Entry := Z) :=
  mkDates (days 19726 + hours 10) (days 19731 + hours 9) [19728] [19729].

(** Two bounds as printed, the second with a time zone. *)
Import String.
Definition printed_lower : text :=
  list_ascii_of_string "2019-06-10T19:00:00.000000000"%string.
Definition printed_upper : text :=
  list_ascii_of_string "2019-06-10T20:00:00.000000000-04:00"%string.

(** A heart rate data base with one record per hour of the queried span. *)
Definition one_record_query (lower_limit upper_limit : Timestamp)
    : option (response float) :=
  Some [(lower_limit + hours 1, 60%float)].

Definition failing_hr_query (lower_limit upper_limit : Timestamp)
    : option (response float) := None.

End MoreExamples.

Import MoreExamples.

(** * Properties *)

(** ** The cursors of the three [while] loops *)

Ltac clock :=
  unfold end_of_day, end_of_hour, end_of_minute, day_fuel, hour_fuel,
    minute_fuel, replace_hms0, replace_s0, hours_2_5 in *;
  change (days 1) with 86400000000 in *;
  change (hours 1) with 3600000000 in *;
  change (hours 5) with 18000000000 in *;
  change (hours 10) with 36000000000 in *;
  change (minutes 1) with 60000000 in *;
  change (minutes 150) with 9000000000 in *.

Ltac clock_lia := Z.to_euclidean_division_equations; lia.

Section Cursors.

Lemma end_of_day_advances (end_timestamp beg_day : Timestamp) :
  beg_day < end_timestamp ->
  beg_day < end_of_day end_timestamp beg_day <= end_timestamp.
Proof.
  clock. intros H.
  destruct (Z.gtb_spec (beg_day + 86400000000
                        - (beg_day + 86400000000) mod 86400000000)
              end_timestamp); clock_lia.
Qed.

Lemma end_of_hour_advances (day_end hour_beg : Timestamp) :
  hour_beg < day_end ->
  hour_beg < end_of_hour day_end hour_beg <= day_end.
Proof.
  clock. intros H.
  destruct (Z.gtb_spec (hour_beg + 3600000000) day_end); clock_lia.
Qed.

Lemma end_of_minute_advances (last_stamp minute : Timestamp) :
  minute < last_stamp ->
  minute < end_of_minute last_stamp minute <= last_stamp.
Proof.
  clock. intros H.
  destruct (Z.gtb_spec (minute + 60000000
                        - (minute + 60000000) mod 60000000)
              last_stamp); clock_lia.
Qed.

(** What is left of the counter after one turn. *)
Lemma day_fuel_step (end_timestamp beg_day : Timestamp) (fuel : nat) :
  beg_day < end_timestamp ->
  (day_fuel beg_day end_timestamp <= S fuel)%nat ->
  end_of_day end_timestamp beg_day < end_timestamp ->
  (day_fuel (end_of_day end_timestamp beg_day) end_timestamp <= fuel)%nat.
Proof.
  clock. intros H Hf.
  destruct (Z.gtb_spec (beg_day + 86400000000
                        - (beg_day + 86400000000) mod 86400000000)
              end_timestamp); intros Hlt; clock_lia.
Qed.

Lemma hour_fuel_step (day_end hour_beg : Timestamp) (fuel : nat) :
  hour_beg < day_end ->
  (hour_fuel hour_beg day_end <= S fuel)%nat ->
  end_of_hour day_end hour_beg < day_end ->
  (hour_fuel (end_of_hour day_end hour_beg) day_end <= fuel)%nat.
Proof.
  clock. intros H Hf.
  destruct (Z.gtb_spec (hour_beg + 3600000000) day_end); intros Hlt; clock_lia.
Qed.

Lemma minute_fuel_step (last_stamp minute : Timestamp) (fuel : nat) :
  minute < last_stamp ->
  (minute_fuel minute last_stamp <= S fuel)%nat ->
  end_of_minute last_stamp minute < last_stamp ->
  (minute_fuel (end_of_minute last_stamp minute) last_stamp <= fuel)%nat.
Proof.
  clock. intros H Hf.
  destruct (Z.gtb_spec (minute + 60000000
                        - (minute + 60000000) mod 60000000)
              last_stamp); intros Hlt; clock_lia.
Qed.

Lemma day_fuel_pos (end_timestamp beg_day : Timestamp) :
  beg_day < end_timestamp -> (0 < day_fuel beg_day end_timestamp)%nat.
Proof. clock. clock_lia. Qed.

Lemma hour_fuel_pos (day_end hour_beg : Timestamp) :
  hour_beg < day_end -> (0 < hour_fuel hour_beg day_end)%nat.
Proof. clock. clock_lia. Qed.

Lemma minute_fuel_pos (last_stamp minute : Timestamp) :
  minute < last_stamp -> (0 < minute_fuel minute last_stamp)%nat.
Proof. clock. clock_lia. Qed.

End Cursors.

(** ** The loops run to their end *)

Section Loops.
Context {F : Type} {ops : FloatOps F}.

Lemma for_each_fuel {A B : Type} (f : A -> outcome B) (l : list A) :
  (forall a, f a <> OutOfFuel) -> for_each f l <> OutOfFuel.
Proof.
  intros Hf. induction l as [|a l IH]; simpl; [discriminate|].
  specialize (Hf a). destruct (f a); simpl; try congruence.
  destruct (for_each f l); simpl; congruence.
Qed.

(** The day loop applies the per-day function to the day segments, in
    order. *)
Lemma day_loop_segments (short_period : Series F -> outcome Timestamp)
    (data : Series F) (end_timestamp : Timestamp) (fuel : nat) :
  forall (beg_day : Timestamp) (found : list Timestamp),
    (beg_day < end_timestamp ->
     (day_fuel beg_day end_timestamp <= fuel)%nat) ->
    day_loop short_period fuel data end_timestamp beg_day found =
    (days <- for_each short_period
               (segments_of data (day_bounds fuel end_timestamp beg_day)) ;;
     Return (found ++ days)).
Proof.
  induction fuel as [|fuel IH]; intros beg_day found Hfuel.
  - simpl. destruct (Z.ltb_spec beg_day end_timestamp) as [Hlt|Hge].
    + pose proof (day_fuel_pos _ _ Hlt). specialize (Hfuel Hlt). lia.
    + simpl. now rewrite app_nil_r.
  - simpl. destruct (Z.ltb_spec beg_day end_timestamp) as [Hlt|Hge].
    + simpl. destruct (short_period _) as [t| |]; simpl; try reflexivity.
      rewrite IH.
      * destruct (for_each _ _); simpl; try reflexivity.
        now rewrite <- app_assoc.
      * intros Hnext. apply day_fuel_step; auto.
    + simpl. now rewrite app_nil_r.
Qed.

Lemma day_loop_fuel (short_period : Series F -> outcome Timestamp)
    (data : Series F) (beg_timestamp end_timestamp : Timestamp) :
  (forall s, short_period s <> OutOfFuel) ->
  day_loop short_period (day_fuel beg_timestamp end_timestamp) data
    end_timestamp beg_timestamp [] <> OutOfFuel.
Proof.
  intros Hsp. rewrite day_loop_segments by auto.
  pose proof (for_each_fuel short_period
                (segments_of data
                   (day_bounds (day_fuel beg_timestamp end_timestamp)
                      end_timestamp beg_timestamp)) Hsp) as H.
  destruct (for_each _ _); simpl; congruence.
Qed.

Lemma get_L5_short_period_fuel (s : Series F) :
  get_L5_short_period s <> OutOfFuel.
Proof.
  unfold get_L5_short_period, min_by_value.
  destruct (averages_5h s) as [|[k v] rest]; discriminate.
Qed.

Lemma get_M10_short_period_fuel (s : Series F) :
  get_M10_short_period s <> OutOfFuel.
Proof.
  unfold get_M10_short_period, max_by_value.
  destruct (averages_10h s) as [|[k v] rest]; discriminate.
Qed.

Lemma get_L5_fuel (data : Series F) : get_L5 data <> OutOfFuel.
Proof.
  unfold get_L5.
  destruct (index_first data) as [b| |] eqn:Hb; simpl; try discriminate.
  - destruct (index_last data) as [e| |] eqn:He; simpl; try discriminate.
    + destruct (e - b <? hours 5); [discriminate|].
      destruct (b + days 1 <? e).
      * pose proof (day_loop_fuel get_L5_short_period data b e
                      get_L5_short_period_fuel) as H.
        destruct (day_loop _ _ _ _ _ _); simpl; congruence.
      * pose proof (get_L5_short_period_fuel data) as H.
        destruct (get_L5_short_period data); simpl; congruence.
    + destruct data as [|[t v] rest]; discriminate He.
  - destruct data as [|[t v] rest]; discriminate Hb.
Qed.

Lemma get_M10_fuel (data : Series F) : get_M10 data <> OutOfFuel.
Proof.
  unfold get_M10.
  destruct (index_first data) as [b| |] eqn:Hb; simpl; try discriminate.
  - destruct (index_last data) as [e| |] eqn:He; simpl; try discriminate.
    + destruct (b + days 1 <? e).
      * pose proof (day_loop_fuel get_M10_short_period data b e
                      get_M10_short_period_fuel) as H.
        destruct (day_loop _ _ _ _ _ _); simpl; congruence.
      * pose proof (get_M10_short_period_fuel data) as H.
        destruct (get_M10_short_period data); simpl; congruence.
    + destruct data as [|[t v] rest]; discriminate He.
  - destruct data as [|[t v] rest]; discriminate Hb.
Qed.

Variable query_acc_data :
  Timestamp -> Timestamp -> option (response F * response F * response F).

Lemma minute_loop_fuel (r_1hour : Series F) (last_stamp : Timestamp)
    (fuel : nat) :
  forall (minute : Timestamp) (vmc_serie : dict (option F)),
    (minute < last_stamp -> (minute_fuel minute last_stamp <= fuel)%nat) ->
    minute_loop fuel r_1hour last_stamp minute vmc_serie <> OutOfFuel.
Proof.
  induction fuel as [|fuel IH]; intros minute vmc_serie Hfuel; simpl;
    destruct (Z.ltb_spec minute last_stamp) as [Hlt|Hge]; try discriminate.
  - pose proof (minute_fuel_pos _ _ Hlt). specialize (Hfuel Hlt). lia.
  - apply IH. intros Hnext. apply minute_fuel_step; auto.
Qed.

(** The minute loop feeds [get_VMC] with the minute buckets, in order, each
    with the start of the bucket as its nominal timestamp. *)
Lemma minute_loop_buckets (r_1hour : Series F) (last_stamp : Timestamp)
    (fuel : nat) :
  forall (minute : Timestamp) (vmc_serie : dict (option F)),
    (minute < last_stamp -> (minute_fuel minute last_stamp <= fuel)%nat) ->
    minute_loop fuel r_1hour last_stamp minute vmc_serie =
    Return
      (fold_left
         (fun acc be =>
            dict_update acc
              (get_VMC (slice r_1hour (fst be) (snd be)) (fst be)))
         (minute_bounds fuel last_stamp minute) vmc_serie).
Proof.
  induction fuel as [|fuel IH]; intros minute vmc_serie Hfuel; simpl;
    destruct (Z.ltb_spec minute last_stamp) as [Hlt|Hge]; try reflexivity.
  - pose proof (minute_fuel_pos _ _ Hlt). specialize (Hfuel Hlt). lia.
  - rewrite IH; [reflexivity|].
    intros Hnext. apply minute_fuel_step; auto.
Qed.

Lemma get_r_fuel (acc : DataFrame F) : get_r acc <> OutOfFuel.
Proof.
  unfold get_r.
  assert (Hg : forall cols name, getitem cols name <> OutOfFuel (A := list F)).
  { induction cols as [|[n c] cols IH]; intros name; simpl; [discriminate|].
    destruct (column_eqb n name); [discriminate|apply IH]. }
  pose proof (Hg (df_columns acc) lateral).
  pose proof (Hg (df_columns acc) longitudinal).
  pose proof (Hg (df_columns acc) vertical).
  destruct (getitem (df_columns acc) lateral); simpl; try congruence.
  destruct (getitem (df_columns acc) longitudinal); simpl; try congruence.
  destruct (getitem (df_columns acc) vertical); simpl; congruence.
Qed.

Lemma hour_loop_fuel (day_end : Timestamp) (fuel : nat) :
  forall (hour_beg : Timestamp) (vmc_serie : dict (option F)),
    (hour_beg < day_end -> (hour_fuel hour_beg day_end <= fuel)%nat) ->
    hour_loop query_acc_data fuel day_end hour_beg vmc_serie <> OutOfFuel.
Proof.
  induction fuel as [|fuel IH]; intros hour_beg vmc_serie Hfuel; simpl;
    destruct (Z.ltb_spec hour_beg day_end) as [Hlt|Hge]; try discriminate.
  - pose proof (hour_fuel_pos _ _ Hlt). specialize (Hfuel Hlt). lia.
  - unfold hour_body.
    pose proof (get_r_fuel
                  (get_acc_data query_acc_data hour_beg
                     (end_of_hour day_end hour_beg))) as Hr.
    destruct (get_r _) as [r| |]; simpl; try congruence.
    destruct (index_last r) as [l| |] eqn:Hl; simpl; try discriminate.
    + pose proof (minute_loop_fuel r l (minute_fuel hour_beg l) hour_beg
                    vmc_serie (fun _ => le_n _)) as Hm.
      destruct (minute_loop _ _ _ _ _); simpl; try congruence.
      apply IH. intros Hnext. apply hour_fuel_step; auto.
    + destruct r as [|[t v] rest]; discriminate Hl.
Qed.

Lemma days_loop_fuel (date_end : Timestamp) (days : list Timestamp) :
  forall vmc_serie : dict (option F),
    days_loop query_acc_data date_end days vmc_serie <> OutOfFuel.
Proof.
  induction days as [|day_beg days IH]; intros vmc_serie; simpl;
    [discriminate|].
  pose proof (hour_loop_fuel (end_of_day date_end day_beg)
                (hour_fuel day_beg (end_of_day date_end day_beg)) day_beg
                vmc_serie (fun _ => le_n _)) as Hh.
  destruct (hour_loop _ _ _ _ _); simpl; [apply IH|congruence..].
Qed.

Lemma get_VMC_serie_fuel (date_end : Timestamp) (days : list Timestamp) :
  get_VMC_serie query_acc_data date_end days <> OutOfFuel.
Proof.
  unfold get_VMC_serie. destruct days as [|d days]; [discriminate|].
  pose proof (days_loop_fuel date_end (d :: days) []) as H.
  destruct (days_loop _ _ _ _); simpl; congruence.
Qed.

End Loops.

(** ** Sorted indexes *)

Section Sorted.
Context {F : Type}.

Lemma increasing_cons (a : Timestamp) (l : list Timestamp) :
  increasing (a :: l) = true ->
  increasing l = true /\ (forall x, In x l -> a < x).
Proof.
  revert a. induction l as [|b l IH]; intros a H.
  - split; [reflexivity|intros x []].
  - simpl in H. apply andb_true_iff in H as [Hab Hl].
    apply Z.ltb_lt in Hab. split; [exact Hl|].
    destruct (IH b Hl) as [_ Hb].
    intros x [<-|Hx]; [exact Hab|]. specialize (Hb x Hx). lia.
Qed.

Lemma index_first_least (s : Series F) (b : Timestamp) :
  increasing (index s) = true -> index_first s = Return b ->
  forall p, In p s -> b <= fst p.
Proof.
  destruct s as [|[t v] rest]; [discriminate|].
  intros Hinc Hb p Hp. injection Hb as <-.
  destruct (increasing_cons _ _ Hinc) as [_ Hlt].
  destruct Hp as [<-|Hp]; [simpl; lia|].
  specialize (Hlt (fst p) (in_map fst _ _ Hp)). simpl in Hlt. lia.
Qed.

Lemma last_cons_default {A : Type} (rest : list A) :
  forall p q : A, last (q :: rest) p = last rest q.
Proof.
  induction rest as [|r rest IH]; intros p q; [reflexivity|].
  change (last (q :: r :: rest) p) with (last (r :: rest) p).
  now rewrite !IH.
Qed.

Lemma last_in_cons {A : Type} (rest : list A) :
  forall p : A, In (last rest p) (p :: rest).
Proof.
  induction rest as [|q rest IH]; intros p; [now left|].
  rewrite last_cons_default. right. apply IH.
Qed.

Lemma index_last_cons (p q : Timestamp * F) (s : Series F) :
  index_last (p :: q :: s) = index_last (q :: s).
Proof. unfold index_last. now rewrite last_cons_default. Qed.

Lemma index_last_greatest (s : Series F) (e : Timestamp) :
  increasing (index s) = true -> index_last s = Return e ->
  forall p, In p s -> fst p <= e.
Proof.
  induction s as [|q s IH]; [discriminate|].
  intros Hinc He p Hp. destruct s as [|q' s].
  - injection He as <-. destruct Hp as [<-|[]]. simpl. lia.
  - assert (He' : index_last (q' :: s) = Return e)
      by (now rewrite <- (index_last_cons q)).
    destruct (increasing_cons _ _ Hinc) as [Hinc' Hlt].
    destruct Hp as [<-|Hp]; [|now apply IH].
    assert (Hq' : fst q < fst q') by (apply Hlt; now left).
    specialize (IH Hinc' He' q' (or_introl eq_refl)). lia.
Qed.

Lemma index_last_in (s : Series F) (e : Timestamp) :
  index_last s = Return e -> In e (index s).
Proof.
  destruct s as [|p rest]; [discriminate|]. intros H. injection H as <-.
  apply in_map. apply last_in_cons.
Qed.

Lemma index_last_app (s1 s2 : Series F) (e : Timestamp) :
  index_last s2 = Return e -> index_last (s1 ++ s2) = Return e.
Proof.
  intros H. induction s1 as [|p s1 IH]; [exact H|].
  destruct (s1 ++ s2) as [|q s] eqn:E; [discriminate IH|].
  simpl app. rewrite E, index_last_cons. exact IH.
Qed.

End Sorted.

(** ** Chains of intervals *)

Section Chains.

Lemma chained_starts (bounds : list (Timestamp * Timestamp)) :
  forall (a e : Timestamp) (k : nat) (x y : Timestamp),
    chained a e bounds -> nth_error bounds k = Some (x, y) -> a <= x < y.
Proof.
  induction bounds as [|[x0 y0] rest IH]; intros a e k x y Hc Hk.
  - destruct k; discriminate.
  - destruct Hc as (-> & Hlt & Hrest). destruct k as [|k].
    + injection Hk as <- <-. lia.
    + specialize (IH _ _ _ _ _ Hrest Hk). lia.
Qed.

Lemma chained_le (bounds : list (Timestamp * Timestamp)) :
  forall a e : Timestamp, chained a e bounds -> a <= e.
Proof.
  induction bounds as [|[x0 y0] rest IH]; intros a e Hc.
  - simpl in Hc. lia.
  - destruct Hc as (-> & Hlt & Hrest). specialize (IH _ _ Hrest). lia.
Qed.

(** Every instant between the two ends is in one of the intervals. *)
Lemma chained_cover (bounds : list (Timestamp * Timestamp)) :
  forall a e t : Timestamp,
    chained a e bounds -> a < e -> a <= t <= e ->
    exists b, In b bounds /\ fst b <= t <= snd b.
Proof.
  induction bounds as [|[x0 y0] rest IH]; intros a e t Hc Hae Ht.
  - simpl in Hc. lia.
  - destruct Hc as (-> & Hlt & Hrest).
    destruct (Z_le_gt_dec t y0) as [Hle|Hgt].
    + exists (a, y0). split; [now left|simpl; lia].
    + pose proof (chained_le _ _ _ Hrest).
      destruct (IH y0 e t Hrest) as (b & Hb & Hin); try lia.
      exists b. split; [now right|exact Hin].
Qed.

(** An instant in two of the intervals is the end of the first, and the
    second is the next one. *)
Lemma chained_overlap (bounds : list (Timestamp * Timestamp)) :
  forall (a e : Timestamp) (i j : nat) (x1 y1 x2 y2 t : Timestamp),
    chained a e bounds -> (i < j)%nat ->
    nth_error bounds i = Some (x1, y1) ->
    nth_error bounds j = Some (x2, y2) ->
    x1 <= t <= y1 -> x2 <= t <= y2 ->
    j = S i /\ t = y1 /\ t = x2.
Proof.
  induction bounds as [|[x0 y0] rest IH];
    intros a e i j x1 y1 x2 y2 t Hc Hij Hi Hj H1 H2.
  - destruct i; discriminate.
  - destruct Hc as (-> & Hlt & Hrest).
    destruct j as [|j]; [lia|]. destruct i as [|i].
    + injection Hi as <- <-. simpl in Hj.
      pose proof (chained_starts _ _ _ _ _ _ Hrest Hj) as Hx2.
      destruct j as [|j]; [repeat split; lia|exfalso].
      destruct rest as [|[x3 y3] rest']; [discriminate|].
      destruct Hrest as (-> & Hlt' & Hrest'). simpl in Hj.
      pose proof (chained_starts _ _ _ _ _ _ Hrest' Hj). lia.
    + simpl in Hi, Hj.
      destruct (IH _ _ i j _ _ _ _ t Hrest ltac:(lia) Hi Hj H1 H2)
        as (-> & Ht).
      split; [reflexivity|exact Ht].
Qed.

Lemma day_bounds_chained (end_timestamp : Timestamp) (fuel : nat) :
  forall beg_day : Timestamp,
    (beg_day < end_timestamp ->
     (day_fuel beg_day end_timestamp <= fuel)%nat) ->
    beg_day <= end_timestamp ->
    chained beg_day end_timestamp (day_bounds fuel end_timestamp beg_day).
Proof.
  induction fuel as [|fuel IH]; intros beg_day Hfuel Hle; simpl;
    destruct (Z.ltb_spec beg_day end_timestamp) as [Hlt|Hge];
    try (simpl; lia).
  - pose proof (day_fuel_pos _ _ Hlt). specialize (Hfuel Hlt). lia.
  - pose proof (end_of_day_advances _ _ Hlt) as Hadv.
    simpl. repeat split; try lia.
    apply IH; [|lia]. intros Hnext. apply day_fuel_step; auto.
Qed.

Lemma minute_bounds_chained (last_stamp : Timestamp) (fuel : nat) :
  forall minute : Timestamp,
    (minute < last_stamp -> (minute_fuel minute last_stamp <= fuel)%nat) ->
    minute <= last_stamp ->
    chained minute last_stamp (minute_bounds fuel last_stamp minute).
Proof.
  induction fuel as [|fuel IH]; intros minute Hfuel Hle; simpl;
    destruct (Z.ltb_spec minute last_stamp) as [Hlt|Hge];
    try (simpl; lia).
  - pose proof (minute_fuel_pos _ _ Hlt). specialize (Hfuel Hlt). lia.
  - pose proof (end_of_minute_advances _ _ Hlt) as Hadv.
    simpl. repeat split; try lia.
    apply IH; [|lia]. intros Hnext. apply minute_fuel_step; auto.
Qed.

End Chains.

(** ** Slices and parts *)

Section Slices.
Context {F : Type} {ops : FloatOps F}.

Lemma in_slice (s : Series F) (a b : Timestamp) (p : Timestamp * F) :
  In p (slice s a b) <-> In p s /\ a <= fst p <= b.
Proof.
  unfold slice, in_closed. rewrite filter_In, andb_true_iff.
  rewrite Z.leb_le, Z.leb_le. tauto.
Qed.

Lemma nth_segments_of (data : Series F)
    (bounds : list (Timestamp * Timestamp)) (i : nat) (p : Timestamp * F) :
  In p (nth i (segments_of data bounds) []) ->
  exists a b, nth_error bounds i = Some (a, b) /\
              In p data /\ a <= fst p <= b.
Proof.
  unfold segments_of. revert i.
  induction bounds as [|[a b] rest IH]; intros i Hp.
  - destruct i; destruct Hp.
  - destruct i as [|i].
    + simpl in Hp. apply in_slice in Hp. exists a, b. now split.
    + simpl in Hp. apply IH in Hp. exact Hp.
Qed.

(** The parts cut along a chain cover the samples between its ends, and two
    parts share a sample only when they are neighbours and the sample is on
    their common bound. *)
Lemma chained_parts (data : Series F) (a e : Timestamp)
    (bounds : list (Timestamp * Timestamp)) :
  chained a e bounds -> a < e ->
  (forall p, In p data -> a <= fst p <= e ->
             exists part, In part (segments_of data bounds) /\ In p part) /\
  (forall i j p, (i < j)%nat ->
     In p (nth i (segments_of data bounds) []) ->
     In p (nth j (segments_of data bounds) []) ->
     j = S i /\
     exists x y, nth_error bounds i = Some (x, fst p) /\
                 nth_error bounds j = Some (fst p, y)).
Proof.
  intros Hc Hae. split.
  - intros p Hp Hin.
    destruct (chained_cover _ _ _ _ Hc Hae Hin) as (b & Hb & Hr).
    exists (slice data (fst b) (snd b)). split.
    + unfold segments_of.
      exact (in_map (fun be => slice data (fst be) (snd be)) _ _ Hb).
    + apply in_slice. now split.
  - intros i j p Hij Hi Hj.
    apply nth_segments_of in Hi as (x1 & y1 & Hi & _ & H1).
    apply nth_segments_of in Hj as (x2 & y2 & Hj & _ & H2).
    destruct (chained_overlap _ _ _ _ _ _ _ _ _ _ Hc Hij Hi Hj H1 H2)
      as (-> & Hy & Hx).
    split; [reflexivity|]. exists x1, y2. now rewrite Hy at 1; rewrite Hx.
Qed.

Lemma chained_next (bounds : list (Timestamp * Timestamp)) :
  forall (a e : Timestamp) (i : nat) (x y : Timestamp),
    chained a e bounds -> nth_error bounds i = Some (x, y) ->
    (S i < length bounds)%nat ->
    exists z, nth_error bounds (S i) = Some (y, z) /\ x < y < z.
Proof.
  induction bounds as [|[x0 y0] rest IH]; intros a e i x y Hc Hi Hlen.
  - destruct i; discriminate.
  - destruct Hc as (-> & Hlt & Hrest). destruct i as [|i].
    + injection Hi as <- <-.
      destruct rest as [|[x1 y1] rest']; [simpl in Hlen; lia|].
      destruct Hrest as (-> & Hlt' & _). exists y1. split; [reflexivity|lia].
    + simpl in Hi, Hlen. apply (IH _ _ _ _ _ Hrest Hi). lia.
Qed.

Lemma nth_segments_of_slice (data : Series F)
    (bounds : list (Timestamp * Timestamp)) :
  forall (i : nat) (a b : Timestamp),
    nth_error bounds i = Some (a, b) ->
    nth i (segments_of data bounds) [] = slice data a b.
Proof.
  unfold segments_of.
  induction bounds as [|[a0 b0] rest IH]; intros i a b Hi.
  - destruct i; discriminate.
  - destruct i as [|i]; [injection Hi as <- <-; reflexivity|].
    simpl in *. now apply IH.
Qed.

(** A sample on the bound where one part ends and the next one starts is
    in both. *)
Lemma chained_shared (data : Series F) (a e : Timestamp)
    (bounds : list (Timestamp * Timestamp)) :
  chained a e bounds ->
  forall (i : nat) (x y : Timestamp) (p : Timestamp * F),
    nth_error bounds i = Some (x, y) -> (S i < length bounds)%nat ->
    In p data -> fst p = y ->
    In p (nth i (segments_of data bounds) []) /\
    In p (nth (S i) (segments_of data bounds) []).
Proof.
  intros Hc i x y p Hi Hlen Hp Hy.
  destruct (chained_next _ _ _ _ _ _ Hc Hi Hlen) as (z & Hn & Hxyz).
  rewrite (nth_segments_of_slice data bounds _ _ _ Hi).
  rewrite (nth_segments_of_slice data bounds _ _ _ Hn).
  split; apply in_slice; (split; [exact Hp|lia]).
Qed.

End Slices.

(** ** The window loop *)

Section Windows.
Context {F : Type} {ops : FloatOps F}.

Lemma dict_get_set_same {V : Type} (d : dict V) (k : Timestamp) (v : V) :
  dict_get (dict_set d k v) k = Some v.
Proof.
  induction d as [|[k' v'] d IH]; simpl.
  - now rewrite Z.eqb_refl.
  - destruct (Z.eqb_spec k' k) as [->|Hne]; simpl.
    + now rewrite Z.eqb_refl.
    + destruct (Z.eqb_spec k' k); [contradiction|exact IH].
Qed.

Lemma dict_get_set_other {V : Type} (d : dict V) (k k' : Timestamp) (v : V) :
  k <> k' -> dict_get (dict_set d k v) k' = dict_get d k'.
Proof.
  intros Hne. induction d as [|[k0 v0] d IH]; simpl.
  - destruct (Z.eqb_spec k k'); [contradiction|reflexivity].
  - destruct (Z.eqb_spec k0 k) as [->|Hk0]; simpl.
    + destruct (Z.eqb_spec k k'); [contradiction|reflexivity].
    + destruct (Z.eqb_spec k0 k'); [reflexivity|exact IH].
Qed.

Lemma dict_set_not_empty {V : Type} (d : dict V) (k : Timestamp) (v : V) :
  dict_set d k v <> [].
Proof.
  destruct d as [|[k' v'] d]; simpl; [discriminate|].
  destruct (k' =? k); discriminate.
Qed.

Variables (duration half : Z) (short_data : Series F) (last_stamp : Timestamp).

(** The anchors that come later leave the other keys alone. *)
Lemma window_loop_keeps (anchors : list Timestamp) :
  forall (averages : dict F) (k : Timestamp),
    (forall a, In a anchors -> a + half <> k) ->
    dict_get (window_loop duration half short_data last_stamp anchors averages)
      k = dict_get averages k.
Proof.
  induction anchors as [|a anchors IH]; intros averages k Hk; simpl;
    [reflexivity|].
  destruct (a + duration >? last_stamp); [reflexivity|].
  rewrite IH by (intros a' Ha'; apply Hk; now right).
  apply dict_get_set_other. apply Hk. now left.
Qed.

(** On increasing anchors the loop reaches every anchor whose window fits,
    and records the mean of the slice from the anchor to the end of its
    window. *)
Lemma window_loop_get (anchors : list Timestamp) :
  forall (averages : dict F) (t : Timestamp),
    increasing anchors = true -> In t anchors ->
    t + duration <= last_stamp ->
    dict_get (window_loop duration half short_data last_stamp anchors averages)
      (t + half)
    = Some (mean (slice short_data t (t + duration))).
Proof.
  induction anchors as [|a anchors IH]; intros averages t Hinc Hin Hfit;
    [destruct Hin|].
  destruct (increasing_cons _ _ Hinc) as [Hinc' Hlt]. simpl.
  destruct Hin as [->|Hin].
  - destruct (Z.gtb_spec (t + duration) last_stamp) as [Hgt|_]; [lia|].
    rewrite window_loop_keeps.
    + apply dict_get_set_same.
    + intros a' Ha'. specialize (Hlt a' Ha'). lia.
  - specialize (Hlt t Hin).
    destruct (Z.gtb_spec (a + duration) last_stamp) as [Hgt|_]; [lia|].
    now apply IH.
Qed.

Lemma window_loop_not_empty (anchors : list Timestamp) :
  forall averages : dict F,
    averages <> [] ->
    window_loop duration half short_data last_stamp anchors averages <> [].
Proof.
  induction anchors as [|a anchors IH]; intros averages Hne; simpl;
    [exact Hne|].
  destruct (a + duration >? last_stamp); [exact Hne|].
  apply IH. apply dict_set_not_empty.
Qed.

End Windows.

Section WindowAverages.
Context {F : Type} {ops : FloatOps F}.

Lemma window_averages_get (duration half : Z) (s : Series F)
    (t last_stamp : Timestamp) :
  increasing (index s) = true -> In t (index s) ->
  index_last s = Return last_stamp -> t + duration <= last_stamp ->
  dict_get (window_averages duration half s) (t + half)
  = Some (mean (slice s t (t + duration))).
Proof.
  intros Hinc Hin Hlast Hfit. unfold window_averages. rewrite Hlast.
  now apply window_loop_get.
Qed.

(** A first window that fits is enough for the scan to record something. *)
Lemma window_averages_not_empty (duration half : Z) (s : Series F)
    (first_stamp last_stamp : Timestamp) :
  index_first s = Return first_stamp -> index_last s = Return last_stamp ->
  first_stamp + duration <= last_stamp ->
  window_averages duration half s <> [].
Proof.
  intros Hfirst Hlast Hfit. unfold window_averages. rewrite Hlast.
  destruct s as [|[t v] rest]; [discriminate|]. injection Hfirst as ->.
  change (index ((first_stamp, v) :: rest)) with (first_stamp :: index rest).
  cbn [window_loop].
  destruct (Z.gtb_spec (first_stamp + duration) last_stamp); [lia|].
  apply window_loop_not_empty. apply dict_set_not_empty.
Qed.

(** A first window that does not fit stops the scan at once. *)
Lemma window_averages_empty (duration half : Z) (s : Series F)
    (first_stamp last_stamp : Timestamp) :
  index_first s = Return first_stamp -> index_last s = Return last_stamp ->
  last_stamp < first_stamp + duration ->
  window_averages duration half s = [].
Proof.
  intros Hfirst Hlast Hfit. unfold window_averages. rewrite Hlast.
  destruct s as [|[t v] rest]; [discriminate|]. injection Hfirst as ->.
  change (index ((first_stamp, v) :: rest)) with (first_stamp :: index rest).
  cbn [window_loop].
  destruct (Z.gtb_spec (first_stamp + duration) last_stamp); [reflexivity|lia].
Qed.

End WindowAverages.

(** ** The sliding windows of L5 and M10 *)

(** C1, as amended.  On a series with increasing timestamps, for every
    anchor [t] of the index whose window ends at or before the last
    timestamp, the scan of [get_L5_short_period] (5 hours, keyed by
    [t + 2.5 h]) and the scan of [get_M10_short_period] (10 hours, keyed by
    [t + 5 h]) record the mean of the samples whose timestamp lies in the
    CLOSED interval from [t] to [t + duration]; a sample at exactly
    [t + duration] is one of them. *)
Theorem window_mean_closed_interval {F : Type} {ops : FloatOps F}
    (s : Series F) (t last_stamp : Timestamp) :
  increasing (index s) = true ->
  In t (index s) ->
  index_last s = Return last_stamp ->
  (t + hours 5 <= last_stamp ->
   dict_get (averages_5h s) (t + hours_2_5) =
   Some (mean (filter (fun p => (t <=? fst p) && (fst p <=? t + hours 5)) s))
   /\ forall v, In (t + hours 5, v) s ->
        In (t + hours 5, v)
          (filter (fun p => (t <=? fst p) && (fst p <=? t + hours 5)) s))
  /\
  (t + hours 10 <= last_stamp ->
   dict_get (averages_10h s) (t + hours 5) =
   Some (mean (filter (fun p => (t <=? fst p) && (fst p <=? t + hours 10)) s))
   /\ forall v, In (t + hours 10, v) s ->
        In (t + hours 10, v)
          (filter (fun p => (t <=? fst p) && (fst p <=? t + hours 10)) s)).
Proof.
  intros Hinc Hin Hlast. split; intros Hfit; split.
  - exact (window_averages_get (hours 5) hours_2_5 s t last_stamp
             Hinc Hin Hlast Hfit).
  - intros v Hv. apply filter_In. split; [exact Hv|]. simpl fst.
    apply andb_true_iff. split; apply Z.leb_le; clock; lia.
  - exact (window_averages_get (hours 10) (hours 5) s t last_stamp
             Hinc Hin Hlast Hfit).
  - intros v Hv. apply filter_In. split; [exact Hv|]. simpl fst.
    apply andb_true_iff. split; apply Z.leb_le; clock; lia.
Qed.

Lemma window_mean_closed_interval_witness :
  dict_get (averages_5h day_and_two_hours) (new_year_2024 + hours_2_5)
  = Some 1%float /\
  dict_get (averages_10h day_and_two_hours) (new_year_2024 + hours 5)
  = Some 1%float.
Proof.
  destruct (window_mean_closed_interval day_and_two_hours new_year_2024
              (new_year_2024 + hours 26) eq_refl (or_introl eq_refl) eq_refl)
    as [H5 H10].
  split.
  - refine (proj1 (H5 _)). vm_compute. discriminate.
  - refine (proj1 (H10 _)). vm_compute. discriminate.
Defined.

(** C1, as stated, fails: with two samples five hours apart, the window
    anchored at the first one fits, the sample at its very end is counted,
    and the recorded mean (5) is not the mean of the half-open window (10). *)
Lemma window_mean_half_open_counterexample :
  increasing (index five_hours_apart) = true /\
  In new_year_2024 (index five_hours_apart) /\
  index_last five_hours_apart = Return (new_year_2024 + hours 5) /\
  dict_get (averages_5h five_hours_apart) (new_year_2024 + hours_2_5)
  = Some 5%float /\
  mean (half_open five_hours_apart new_year_2024 (hours 5)) = 10%float /\
  dict_get (averages_5h five_hours_apart) (new_year_2024 + hours_2_5)
  <> Some (mean (half_open five_hours_apart new_year_2024 (hours 5))).
Proof.
  repeat split; try reflexivity; try (now left).
  intros H.
  apply (f_equal (fun o => match o with
                           | Some x => PrimFloat.eqb x 5
                           | None => false
                           end)) in H.
  vm_compute in H. discriminate H.
Qed.

(** C4, as amended.  On the six hourly samples 10, 10, 10, 1, 1, 1 from
    2024-01-01T00:00 the scan records one window only, the one anchored at
    00:00 (it ends at 05:00, the last timestamp, and holds all six samples,
    mean 5.5); the window anchored at 01:00 would end after the last sample
    and is not evaluated; [get_L5] returns 2024-01-01T02:30. *)
Theorem scenario_L5_is_0230 :
  averages_5h scenario = [(new_year_2024 + hours 2 + minutes 30, 5.5%float)] /\
  dict_get (averages_5h scenario) (new_year_2024 + hours 1 + hours_2_5) = None /\
  get_L5 scenario = Return (PyTimestamp (new_year_2024 + hours 2 + minutes 30)).
Proof. repeat split; vm_compute; reflexivity. Qed.

(** C4, as stated, fails: the result is not 2024-01-01T03:30. *)
Lemma scenario_L5_is_not_0330 :
  get_L5 scenario
  <> Return (PyTimestamp (new_year_2024 + hours 3 + minutes 30)).
Proof. vm_compute. discriminate. Qed.

(** ** Series that are too short *)

(** C10.  On a series whose span is at most one day and less than ten
    hours, [get_M10] checks nothing, scans no window, and raises the
    [ValueError] of [max] on an empty dict: it returns neither a timestamp
    nor a sentinel. *)
Theorem get_M10_short_span_raises {F : Type} {ops : FloatOps F}
    (data : Series F) (beg_timestamp end_timestamp : Timestamp) :
  index_first data = Return beg_timestamp ->
  index_last data = Return end_timestamp ->
  end_timestamp - beg_timestamp <= days 1 ->
  end_timestamp - beg_timestamp < hours 10 ->
  averages_10h data = [] /\ get_M10 data = Raise ValueError.
Proof.
  intros Hfirst Hlast Hday Hspan.
  assert (Hempty : averages_10h data = []).
  { apply (window_averages_empty _ _ _ _ _ Hfirst Hlast). lia. }
  split; [exact Hempty|].
  unfold get_M10. rewrite Hfirst, Hlast. cbn [bind].
  destruct (Z.ltb_spec (beg_timestamp + days 1) end_timestamp); [lia|].
  unfold get_M10_short_period. rewrite Hempty. reflexivity.
Qed.

Lemma get_M10_short_span_raises_witness :
  averages_10h one_hour = [] /\ get_M10 one_hour = Raise ValueError.
Proof.
  apply (get_M10_short_span_raises one_hour new_year_2024
           (new_year_2024 + hours 1)).
  - reflexivity.
  - reflexivity.
  - vm_compute. discriminate.
  - vm_compute. reflexivity.
Defined.

(** C3: what the code does on two samples one hour apart.  [get_L5] returns
    [False]; [get_M10], which has no such test, raises [ValueError]. *)
Theorem get_M10_raises_where_get_L5_returns :
  get_L5 one_hour = Return PyFalse /\ get_M10 one_hour = Raise ValueError.
Proof. split; vm_compute; reflexivity. Qed.

(** C2: what the code does on 27 hourly samples that start at midnight.  The
    span is 26 hours, the second day segment holds the three samples from
    00:00 to 02:00, no window of five hours fits in it, and [get_L5] raises
    the [ValueError] of [min] on an empty dict. *)
Theorem get_L5_raises_on_short_last_day :
  index_first day_and_two_hours = Return new_year_2024 /\
  index_last day_and_two_hours = Return (new_year_2024 + hours 26) /\
  hours 5 <= (new_year_2024 + hours 26) - new_year_2024 /\
  map index (day_segments day_and_two_hours)
  = [map (fun h => new_year_2024 + hours h)
       [0; 1; 2; 3; 4; 5; 6; 7; 8; 9; 10; 11; 12; 13; 14; 15; 16; 17; 18;
        19; 20; 21; 22; 23; 24];
     map (fun h => new_year_2024 + hours h) [24; 25; 26]] /\
  get_L5 day_and_two_hours = Raise ValueError.
Proof.
  repeat split; try (vm_compute; reflexivity). vm_compute. discriminate.
Qed.

(** ** One minute bucket *)


(** ** Termination *)

(** A cursor that moves strictly forward and never past its bound, on a
    counter that goes down with it, walks a chain of intervals that ends at
    the bound. *)
Section Walks.
Variable next : Timestamp -> Timestamp -> Timestamp.
Variable turns : Timestamp -> Timestamp -> nat.
Hypothesis advances :
  forall bound cursor, cursor < bound -> cursor < next bound cursor <= bound.
Hypothesis turns_pos :
  forall bound cursor, cursor < bound -> (0 < turns cursor bound)%nat.
Hypothesis turns_step :
  forall bound cursor n,
    cursor < bound -> (turns cursor bound <= S n)%nat ->
    next bound cursor < bound ->
    (turns (next bound cursor) bound <= n)%nat.

Lemma walk_exists (bound : Timestamp) :
  forall (n : nat) (cursor : Timestamp),
    (cursor < bound -> (turns cursor bound <= n)%nat) ->
    cursor <= bound ->
    exists bounds,
      chained cursor bound bounds /\
      (forall x y, In (x, y) bounds -> y = next bound x) /\
      (length bounds <= n)%nat.
Proof.
  induction n as [|n IH]; intros cursor Hn Hle;
    destruct (Z_lt_ge_dec cursor bound) as [Hlt|Hge];
    try (exists []; simpl; repeat split; [lia|intros x y []|lia]).
  - pose proof (turns_pos _ _ Hlt). specialize (Hn Hlt). lia.
  - destruct (advances _ _ Hlt) as [Hadv Hin].
    destruct (IH (next bound cursor)) as (bounds & Hc & Hs & Hl);
      [intros Hnext; apply turns_step; auto|exact Hin|].
    exists ((cursor, next bound cursor) :: bounds). split; [|split].
    + simpl. auto.
    + intros x y [Heq|Hxy]; [now injection Heq as <- <-|now apply Hs].
    + simpl. lia.
Qed.

End Walks.

Section Passes.
Context {F : Type} {ops : FloatOps F}.

(** With turns enough for the chain, the day loop applies the per-day
    function once to the segment of each interval, in order. *)
Lemma day_loop_pass (short_period : Series F -> outcome Timestamp)
    (data : Series F) (end_timestamp : Timestamp)
    (bounds : list (Timestamp * Timestamp)) :
  forall (beg_day : Timestamp) (found : list Timestamp) (fuel : nat),
    chained beg_day end_timestamp bounds ->
    (forall x y, In (x, y) bounds -> y = end_of_day end_timestamp x) ->
    (length bounds <= fuel)%nat ->
    day_loop short_period fuel data end_timestamp beg_day found
    = (days <- for_each short_period (segments_of data bounds) ;;
       Return (found ++ days)).
Proof.
  induction bounds as [|[x y] rest IH]; intros beg_day found fuel Hc Hs Hlen.
  - simpl in Hc. subst beg_day.
    destruct fuel; simpl; rewrite Z.ltb_irrefl; now rewrite app_nil_r.
  - destruct Hc as (-> & Hlt & Hrest).
    pose proof (chained_le _ _ _ Hrest) as Hye.
    destruct fuel as [|fuel]; [simpl in Hlen; lia|].
    pose proof (Hs _ _ (or_introl eq_refl)) as Hy.
    cbn [day_loop]. destruct (Z.ltb_spec beg_day end_timestamp); [|lia].
    rewrite <- Hy. unfold segments_of. cbn [map for_each fst snd].
    destruct (short_period (slice data beg_day y)) as [t| |]; cbn [bind];
      try reflexivity.
    rewrite (IH y (found ++ [t]) fuel Hrest);
      [|intros x' y' Hin; apply Hs; now right|simpl in Hlen; lia].
    unfold segments_of.
    destruct (for_each short_period _); cbn [bind]; try reflexivity.
    now rewrite <- app_assoc.
Qed.

(** The minute loop gives [get_VMC] the bucket of each interval once, in
    order, with the start of the interval as nominal timestamp. *)
Lemma minute_loop_pass (r_1hour : Series F) (last_stamp : Timestamp)
    (bounds : list (Timestamp * Timestamp)) :
  forall (minute : Timestamp) (vmc_serie : dict (option F)) (fuel : nat),
    chained minute last_stamp bounds ->
    (forall x y, In (x, y) bounds -> y = end_of_minute last_stamp x) ->
    (length bounds <= fuel)%nat ->
    minute_loop fuel r_1hour last_stamp minute vmc_serie
    = Return
        (fold_left
           (fun acc be =>
              dict_update acc
                (get_VMC (slice r_1hour (fst be) (snd be)) (fst be)))
           bounds vmc_serie).
Proof.
  induction bounds as [|[x y] rest IH];
    intros minute vmc_serie fuel Hc Hs Hlen.
  - simpl in Hc. subst minute.
    destruct fuel; simpl; now rewrite Z.ltb_irrefl.
  - destruct Hc as (-> & Hlt & Hrest).
    pose proof (chained_le _ _ _ Hrest) as Hye.
    destruct fuel as [|fuel]; [simpl in Hlen; lia|].
    pose proof (Hs _ _ (or_introl eq_refl)) as Hy.
    cbn [minute_loop]. destruct (Z.ltb_spec minute last_stamp); [|lia].
    rewrite <- Hy. cbn [fold_left fst snd].
    apply IH; [exact Hrest|intros x' y' Hin; apply Hs; now right|].
    simpl in Hlen. lia.
Qed.

(** The hour loop runs its body once on each interval, in order, and stops
    at the first one that raises. *)
Lemma hour_loop_pass
    (query_acc_data : Timestamp -> Timestamp ->
       option (response F * response F * response F))
    (day_end : Timestamp) (bounds : list (Timestamp * Timestamp)) :
  forall (hour_beg : Timestamp) (vmc_serie : dict (option F)) (fuel : nat),
    chained hour_beg day_end bounds ->
    (forall x y, In (x, y) bounds -> y = end_of_hour day_end x) ->
    (length bounds <= fuel)%nat ->
    hour_loop query_acc_data fuel day_end hour_beg vmc_serie
    = fold_outcome
        (fun acc be => hour_body query_acc_data (fst be) (snd be) acc)
        bounds vmc_serie.
Proof.
  induction bounds as [|[x y] rest IH];
    intros hour_beg vmc_serie fuel Hc Hs Hlen.
  - simpl in Hc. subst hour_beg.
    destruct fuel; simpl; now rewrite Z.ltb_irrefl.
  - destruct Hc as (-> & Hlt & Hrest).
    pose proof (chained_le _ _ _ Hrest) as Hye.
    destruct fuel as [|fuel]; [simpl in Hlen; lia|].
    pose proof (Hs _ _ (or_introl eq_refl)) as Hy.
    cbn [hour_loop]. destruct (Z.ltb_spec hour_beg day_end); [|lia].
    rewrite <- Hy. cbn [fold_outcome fst snd].
    destruct (hour_body query_acc_data hour_beg y vmc_serie) as [found| |];
      cbn [bind]; try reflexivity.
    apply IH; [exact Hrest|intros x' y' Hin; apply Hs; now right|].
    simpl in Hlen. lia.
Qed.

End Passes.

(** C9.  Each of the three [while] loops makes a single pass that ends.
    From a cursor at or before its bound there is a chain of intervals, each
    starting where the one before ends and ending strictly later, at the
    next midnight, hour or minute mark or at the bound when that comes
    first, and the last one ending at the bound; it has no more intervals
    than the loop is given turns; and with that many turns or more the day
    loop applies the per-day function once to the segment of each interval,
    the minute loop gives [get_VMC] the bucket of each interval once, and
    the hour loop runs its body once on each interval, in order, up to the
    first call that raises.  So [get_L5], [get_M10] and [get_VMC_serie]
    return or raise on every series with increasing timestamps and every
    data base whose answers are in the order of their timestamps. *)
Theorem loops_terminate {F : Type} {ops : FloatOps F} :
  (forall (short_period : Series F -> outcome Timestamp) (data : Series F)
          (end_timestamp beg_day : Timestamp) (found : list Timestamp),
     increasing (index data) = true ->
     beg_day <= end_timestamp ->
     exists bounds,
       chained beg_day end_timestamp bounds /\
       (forall x y, In (x, y) bounds -> y = end_of_day end_timestamp x) /\
       (length bounds <= day_fuel beg_day end_timestamp)%nat /\
       forall fuel, (length bounds <= fuel)%nat ->
         day_loop short_period fuel data end_timestamp beg_day found
         = (days <- for_each short_period (segments_of data bounds) ;;
            Return (found ++ days))) /\
  (forall (r_1hour : Series F) (last_stamp minute : Timestamp)
          (vmc_serie : dict (option F)),
     increasing (index r_1hour) = true ->
     minute <= last_stamp ->
     exists bounds,
       chained minute last_stamp bounds /\
       (forall x y, In (x, y) bounds -> y = end_of_minute last_stamp x) /\
       (length bounds <= minute_fuel minute last_stamp)%nat /\
       forall fuel, (length bounds <= fuel)%nat ->
         minute_loop fuel r_1hour last_stamp minute vmc_serie
         = Return
             (fold_left
                (fun acc be =>
                   dict_update acc
                     (get_VMC (slice r_1hour (fst be) (snd be)) (fst be)))
                bounds vmc_serie)) /\
  (forall (query_acc_data : Timestamp -> Timestamp ->
             option (response F * response F * response F))
          (day_end hour_beg : Timestamp) (vmc_serie : dict (option F)),
     (forall lower_limit upper_limit,
        sorted_answer (query_acc_data lower_limit upper_limit) = true) ->
     hour_beg <= day_end ->
     exists bounds,
       chained hour_beg day_end bounds /\
       (forall x y, In (x, y) bounds -> y = end_of_hour day_end x) /\
       (length bounds <= hour_fuel hour_beg day_end)%nat /\
       forall fuel, (length bounds <= fuel)%nat ->
         hour_loop query_acc_data fuel day_end hour_beg vmc_serie
         = fold_outcome
             (fun acc be => hour_body query_acc_data (fst be) (snd be) acc)
             bounds vmc_serie) /\
  (forall data : Series F,
     increasing (index data) = true ->
     get_L5 data <> OutOfFuel /\ get_M10 data <> OutOfFuel) /\
  (forall (query_acc_data : Timestamp -> Timestamp ->
             option (response F * response F * response F))
          (date_end : Timestamp) (days : list Timestamp),
     (forall lower_limit upper_limit,
        sorted_answer (query_acc_data lower_limit upper_limit) = true) ->
     get_VMC_serie query_acc_data date_end days <> OutOfFuel).
Proof.
  split; [|split; [|split; [|split]]].
  - intros short_period data end_timestamp beg_day found _ Hle.
    destruct (walk_exists end_of_day day_fuel end_of_day_advances
                day_fuel_pos day_fuel_step end_timestamp
                (day_fuel beg_day end_timestamp) beg_day
                (fun _ => le_n _) Hle) as (bounds & Hc & Hs & Hl).
    exists bounds. repeat split; try assumption.
    intros fuel Hf. now apply day_loop_pass.
  - intros r_1hour last_stamp minute vmc_serie _ Hle.
    destruct (walk_exists end_of_minute minute_fuel end_of_minute_advances
                minute_fuel_pos minute_fuel_step last_stamp
                (minute_fuel minute last_stamp) minute
                (fun _ => le_n _) Hle) as (bounds & Hc & Hs & Hl).
    exists bounds. repeat split; try assumption.
    intros fuel Hf. now apply minute_loop_pass.
  - intros query_acc_data day_end hour_beg vmc_serie _ Hle.
    destruct (walk_exists end_of_hour hour_fuel end_of_hour_advances
                hour_fuel_pos hour_fuel_step day_end
                (hour_fuel hour_beg day_end) hour_beg
                (fun _ => le_n _) Hle) as (bounds & Hc & Hs & Hl).
    exists bounds. repeat split; try assumption.
    intros fuel Hf. now apply hour_loop_pass.
  - intros data _. split; [apply get_L5_fuel|apply get_M10_fuel].
  - intros query_acc_data date_end days _. apply get_VMC_serie_fuel.
Qed.

Lemma loops_terminate_witness :
  (exists bounds,
     chained new_year_2024 (new_year_2024 + hours 30) bounds /\
     (forall x y,
        In (x, y) bounds -> y = end_of_day (new_year_2024 + hours 30) x) /\
     (length bounds
      <= day_fuel new_year_2024 (new_year_2024 + hours 30)%Z)%nat /\
     forall fuel, (length bounds <= fuel)%nat ->
       day_loop get_L5_short_period fuel day_and_six_hours
         (new_year_2024 + hours 30) new_year_2024 []
       = (days <- for_each get_L5_short_period
                    (segments_of day_and_six_hours bounds) ;;
          Return ([] ++ days))) /\
  (get_L5 day_and_six_hours <> OutOfFuel /\
   get_M10 day_and_six_hours <> OutOfFuel) /\
  get_VMC_serie mismatched_query (new_year_2024 + hours 2) [new_year_2024]
  <> OutOfFuel.
Proof.
  split; [|split].
  - apply (proj1 (loops_terminate (F := float)) get_L5_short_period
             day_and_six_hours (new_year_2024 + hours 30) new_year_2024 []).
    + reflexivity.
    + vm_compute. discriminate.
  - apply (proj1 (proj2 (proj2 (proj2 (loops_terminate (F := float)))))
             day_and_six_hours).
    reflexivity.
  - apply (proj2 (proj2 (proj2 (proj2 (loops_terminate (F := float)))))
             mismatched_query).
    intros lower_limit upper_limit. reflexivity.
Defined.

(** ** Day segments and minute buckets *)

(** C5, as amended.  On a series with increasing timestamps whose first
    timestamp is before its last, the bounds of the day segments are a chain
    of closed intervals from the first timestamp to the last, every sample is
    in a segment, a sample is in two segments only when they follow one
    another and its timestamp is their common bound, and a sample whose
    timestamp is the bound between a segment and the next is in both (the
    sample on a midnight that cuts the series is counted twice).  The same
    holds of the minute buckets of one hour of data, for the samples from the
    start of the hour on. *)
Theorem parts_meet_at_their_bounds {F : Type} {ops : FloatOps F}
    (data : Series F) (first_stamp last_stamp : Timestamp) :
  increasing (index data) = true ->
  index_first data = Return first_stamp ->
  index_last data = Return last_stamp ->
  (first_stamp < last_stamp ->
   let bounds :=
     day_bounds (day_fuel first_stamp last_stamp) last_stamp first_stamp in
   chained first_stamp last_stamp bounds /\
   (forall p, In p data ->
      exists part, In part (day_segments data) /\ In p part) /\
   (forall i j p, (i < j)%nat ->
      In p (nth i (day_segments data) []) ->
      In p (nth j (day_segments data) []) ->
      j = S i /\
      exists x y, nth_error bounds i = Some (x, fst p) /\
                  nth_error bounds j = Some (fst p, y)) /\
   (forall i x y p,
      nth_error bounds i = Some (x, y) -> (S i < length bounds)%nat ->
      In p data -> fst p = y ->
      In p (nth i (day_segments data) []) /\
      In p (nth (S i) (day_segments data) [])))
  /\
  (forall hour_beg : Timestamp,
   hour_beg < last_stamp ->
   let bounds :=
     minute_bounds (minute_fuel hour_beg last_stamp) last_stamp hour_beg in
   chained hour_beg last_stamp bounds /\
   (forall p, In p data -> hour_beg <= fst p ->
      exists part, In part (minute_buckets data hour_beg) /\ In p part) /\
   (forall i j p, (i < j)%nat ->
      In p (nth i (minute_buckets data hour_beg) []) ->
      In p (nth j (minute_buckets data hour_beg) []) ->
      j = S i /\
      exists x y, nth_error bounds i = Some (x, fst p) /\
                  nth_error bounds j = Some (fst p, y)) /\
   (forall i x y p,
      nth_error bounds i = Some (x, y) -> (S i < length bounds)%nat ->
      In p data -> fst p = y ->
      In p (nth i (minute_buckets data hour_beg) []) /\
      In p (nth (S i) (minute_buckets data hour_beg) []))).
Proof.
  intros Hinc Hfirst Hlast. split.
  - intros Hlt bounds.
    assert (Hc : chained first_stamp last_stamp bounds)
      by (apply day_bounds_chained; [auto|lia]).
    destruct (chained_parts data _ _ _ Hc Hlt) as [Hcover Hmeet].
    pose proof (chained_shared data _ _ _ Hc) as Hshared.
    unfold day_segments. rewrite Hfirst, Hlast. fold bounds.
    split; [exact Hc|]. split; [|split; [exact Hmeet|exact Hshared]].
    intros p Hp. apply Hcover; [exact Hp|]. split.
    + now apply (index_first_least data).
    + now apply (index_last_greatest data).
  - intros hour_beg Hlt bounds.
    assert (Hc : chained hour_beg last_stamp bounds)
      by (apply minute_bounds_chained; [auto|lia]).
    destruct (chained_parts data _ _ _ Hc Hlt) as [Hcover Hmeet].
    pose proof (chained_shared data _ _ _ Hc) as Hshared.
    unfold minute_buckets. rewrite Hlast. fold bounds.
    split; [exact Hc|]. split; [|split; [exact Hmeet|exact Hshared]].
    intros p Hp Hge. apply Hcover; [exact Hp|]. split; [exact Hge|].
    now apply (index_last_greatest data).
Qed.

Lemma parts_meet_at_their_bounds_witness :
  In (new_year_2024 + days 1, 1%float)
    (nth 0 (day_segments day_and_six_hours) []) /\
  In (new_year_2024 + days 1, 1%float)
    (nth 1 (day_segments day_and_six_hours) []).
Proof.
  refine (proj2 (proj2 (proj2
            (proj1 (parts_meet_at_their_bounds day_and_six_hours
                      new_year_2024 (new_year_2024 + hours 30) _ _ _) _)))
            0%nat new_year_2024 (new_year_2024 + days 1)
            (new_year_2024 + days 1, 1%float) _ _ _ _).
  - reflexivity.
  - reflexivity.
  - reflexivity.
  - vm_compute. reflexivity.
  - vm_compute. reflexivity.
  - vm_compute. apply le_n.
  - vm_compute. do 24 right. left. reflexivity.
  - reflexivity.
Defined.

(** C5, as stated, fails: the sample at the midnight that cuts 31 hourly
    samples is in the first day segment and in the second, and the sample on
    a minute mark is in the bucket that ends there and in the one that starts
    there. *)
Lemma parts_overlap_counterexample :
  In (new_year_2024 + days 1, 1%float)
    (nth 0 (day_segments day_and_six_hours) []) /\
  In (new_year_2024 + days 1, 1%float)
    (nth 1 (day_segments day_and_six_hours) []) /\
  ~ overlap_free (day_segments day_and_six_hours) /\
  In (new_year_2024 + minutes 1, 2%float)
    (nth 0 (minute_buckets two_minutes new_year_2024) []) /\
  In (new_year_2024 + minutes 1, 2%float)
    (nth 1 (minute_buckets two_minutes new_year_2024) []) /\
  ~ overlap_free (minute_buckets two_minutes new_year_2024).
Proof.
  assert (H0 : In (new_year_2024 + days 1, 1%float)
                 (nth 0 (day_segments day_and_six_hours) [])).
  { vm_compute. do 24 right. left. reflexivity. }
  assert (H1 : In (new_year_2024 + days 1, 1%float)
                 (nth 1 (day_segments day_and_six_hours) [])).
  { vm_compute. left. reflexivity. }
  assert (M0 : In (new_year_2024 + minutes 1, 2%float)
                 (nth 0 (minute_buckets two_minutes new_year_2024) [])).
  { vm_compute. right. left. reflexivity. }
  assert (M1 : In (new_year_2024 + minutes 1, 2%float)
                 (nth 1 (minute_buckets two_minutes new_year_2024) [])).
  { vm_compute. left. reflexivity. }
  repeat split; try assumption.
  - intros H. exact (H 0%nat 1%nat _ (Nat.lt_0_1) H0 H1).
  - intros H. exact (H 0%nat 1%nat _ (Nat.lt_0_1) M0 M1).
Qed.

(** ** Channels whose timestamps do not match *)

Section Channels.
Context {F : Type} {ops : FloatOps F}.

Lemma union_index_nil (idx : list Timestamp) : union_index [] idx = idx.
Proof.
  unfold union_index. simpl.
  induction idx as [|t idx IH]; simpl; [reflexivity|now rewrite IH].
Qed.

Lemma value_at_missing (idx : list Timestamp) :
  forall (col : list F) (t : Timestamp),
    has_label idx t = false -> value_at idx col t = fnan.
Proof.
  induction idx as [|i idx IH]; intros col t Hmiss; [reflexivity|].
  destruct col as [|x col]; [reflexivity|].
  simpl in *. apply orb_false_iff in Hmiss as [Hi Hrest].
  rewrite Z.eqb_sym, Hi. now apply IH.
Qed.

Lemma combine_norm_rows (f g h : Timestamp -> F) (idx : list Timestamp) :
  combine idx (norm_rows (map f idx) (map g idx) (map h idx))
  = map (fun t => (t, norm3 (f t) (g t) (h t))) idx.
Proof. induction idx as [|t idx IH]; simpl; [reflexivity|now rewrite IH]. Qed.

End Channels.

(** C8, as amended.  When the data base answers with three channels that
    each hold a sample, [get_r] raises nothing, whether their timestamps
    match or not: it returns one value for every timestamp that any channel
    has, computed as the norm of the three channel values at that timestamp,
    where a channel that has no sample there counts as NaN. *)
Theorem get_r_fills_unmatched_with_nan {F : Type} {ops : FloatOps F}
    (query_acc_data : Timestamp -> Timestamp ->
       option (response F * response F * response F))
    (lower_limit upper_limit : Timestamp)
    (p1 p2 p3 : Timestamp * F) (l1 l2 l3 : response F) :
  query_acc_data lower_limit upper_limit
  = Some (p1 :: l1, p2 :: l2, p3 :: l3) ->
  get_r (get_acc_data query_acc_data lower_limit upper_limit)
  = Return
      (map (fun t => (t, norm3 (channel_at (p1 :: l1) t)
                           (channel_at (p2 :: l2) t)
                           (channel_at (p3 :: l3) t)))
         (joined_index (p1 :: l1) (p2 :: l2) (p3 :: l3)))
  /\
  forall (ch : response F) (t : Timestamp),
    has_label (map fst ch) t = false -> channel_at ch t = fnan.
Proof.
  intros Hq. split.
  - unfold get_acc_data. rewrite Hq.
    unfold concat_axis1, response2dataframe, get_r.
    cbn [map df_index df_columns fold_left flat_map app reindex fst snd
         getitem column_eqb bind].
    rewrite union_index_nil. f_equal.
    apply (combine_norm_rows (channel_at (p1 :: l1)) (channel_at (p2 :: l2))
             (channel_at (p3 :: l3))).
  - intros ch t Hmiss. apply value_at_missing. exact Hmiss.
Qed.

Lemma get_r_fills_unmatched_with_nan_witness :
  get_r (get_acc_data mismatched_query new_year_2024
           (new_year_2024 + hours 1))
  = Return
      (map (fun t => (t, norm3 (channel_at lat_channel t)
                           (channel_at lon_channel t)
                           (channel_at ver_channel t)))
         (joined_index lat_channel lon_channel ver_channel)).
Proof.
  refine (proj1 (get_r_fills_unmatched_with_nan mismatched_query
                   new_year_2024 (new_year_2024 + hours 1)
                   _ _ _ _ _ _ _)).
  reflexivity.
Defined.

(** C8, as stated, fails: the second channel has a sample that the two
    others lack, and [get_r] returns a series all the same, with NaN at that
    timestamp. *)
Lemma get_r_unmatched_counterexample :
  map fst lat_channel <> map fst lon_channel /\
  raises (get_r (get_acc_data mismatched_query new_year_2024
                   (new_year_2024 + hours 1))) = false /\
  get_r (get_acc_data mismatched_query new_year_2024
           (new_year_2024 + hours 1))
  = Return [(new_year_2024 + seconds 1, 5%float);
            (new_year_2024 + seconds 2, PrimFloat.nan)].
Proof.
  split; [vm_compute; discriminate|]. split; vm_compute; reflexivity.
Qed.

(** ** The same day, later *)

Section Shifts.
Context {F : Type} {ops : FloatOps F}.

Lemma index_shift (d : Z) (s : Series F) :
  index (shift d s) = map (fun t => t + d) (index s).
Proof. unfold index, shift. now rewrite !map_map. Qed.

Lemma values_shift (d : Z) (s : Series F) : values (shift d s) = values s.
Proof. unfold values, shift. now rewrite map_map. Qed.

Lemma mean_shift (d : Z) (s : Series F) : mean (shift d s) = mean s.
Proof. unfold mean. now rewrite values_shift. Qed.

Lemma index_first_shift (d : Z) (s : Series F) (b : Timestamp) :
  index_first s = Return b -> index_first (shift d s) = Return (b + d).
Proof.
  destruct s as [|[t v] rest]; [discriminate|]. intros H.
  injection H as ->. reflexivity.
Qed.

Lemma index_last_shift (d : Z) (s : Series F) (e : Timestamp) :
  index_last s = Return e -> index_last (shift d s) = Return (e + d).
Proof.
  induction s as [|p s IH]; [discriminate|]. destruct s as [|q s].
  - intros H. injection H as <-. reflexivity.
  - rewrite index_last_cons. intros H. specialize (IH H).
    change (shift d (p :: q :: s))
      with ((fst p + d, snd p) :: (fst q + d, snd q) :: shift d s).
    rewrite index_last_cons. exact IH.
Qed.

Lemma in_shift (d : Z) (s : Series F) (p : Timestamp * F) :
  In p (shift d s) -> exists q, In q s /\ fst p = fst q + d.
Proof.
  unfold shift. rewrite in_map_iff. intros (q & <- & Hq).
  exists q. now split.
Qed.

Lemma in_closed_shift (a b d t : Timestamp) :
  in_closed (a + d) (b + d) (t + d) = in_closed a b t.
Proof.
  unfold in_closed.
  destruct (Z.leb_spec a t), (Z.leb_spec (a + d) (t + d)),
    (Z.leb_spec t b), (Z.leb_spec (t + d) (b + d));
    try reflexivity; lia.
Qed.

Lemma slice_shift (d : Z) (s : Series F) (a b : Timestamp) :
  slice (shift d s) (a + d) (b + d) = shift d (slice s a b).
Proof.
  unfold slice, shift. induction s as [|p s IH]; [reflexivity|].
  simpl. rewrite IH, in_closed_shift.
  now destruct (in_closed a b (fst p)).
Qed.

Lemma slice_all (s : Series F) (a b : Timestamp) :
  (forall p, In p s -> a <= fst p <= b) -> slice s a b = s.
Proof.
  unfold slice, in_closed. induction s as [|p s IH]; intros H;
    [reflexivity|].
  simpl. pose proof (H p (or_introl eq_refl)) as Hp.
  destruct (Z.leb_spec a (fst p)), (Z.leb_spec (fst p) b); try lia.
  simpl. f_equal. apply IH. intros q Hq. apply H. now right.
Qed.

Lemma slice_none (s : Series F) (a b : Timestamp) :
  (forall p, In p s -> fst p < a \/ b < fst p) -> slice s a b = [].
Proof.
  unfold slice, in_closed. induction s as [|p s IH]; intros H;
    [reflexivity|].
  simpl. pose proof (H p (or_introl eq_refl)) as Hp.
  destruct (Z.leb_spec a (fst p)), (Z.leb_spec (fst p) b); try lia;
    simpl; apply IH; intros q Hq; apply H; now right.
Qed.

Lemma slice_app (s1 s2 : Series F) (a b : Timestamp) :
  slice (s1 ++ s2) a b = slice s1 a b ++ slice s2 a b.
Proof. unfold slice. apply filter_app. Qed.

Lemma dict_set_shift (d : Z) (averages : dict F) (k : Timestamp) (v : F) :
  dict_set (shift d averages) (k + d) v = shift d (dict_set averages k v).
Proof.
  induction averages as [|[k' v'] averages IH]; [reflexivity|].
  simpl. replace (k' + d =? k + d) with (k' =? k).
  - destruct (k' =? k); [reflexivity|]. simpl. now rewrite IH.
  - destruct (Z.eqb_spec k' k), (Z.eqb_spec (k' + d) (k + d));
      try reflexivity; lia.
Qed.

Lemma window_loop_shift (duration half d : Z) (s : Series F)
    (last_stamp : Timestamp) (anchors : list Timestamp) :
  forall averages : dict F,
    window_loop duration half (shift d s) (last_stamp + d)
      (map (fun t => t + d) anchors) (shift d averages)
    = shift d (window_loop duration half s last_stamp anchors averages).
Proof.
  induction anchors as [|a anchors IH]; intros averages; [reflexivity|].
  simpl.
  replace (a + d + duration >? last_stamp + d)
    with (a + duration >? last_stamp)
    by (destruct (Z.gtb_spec (a + duration) last_stamp),
          (Z.gtb_spec (a + d + duration) (last_stamp + d));
        try reflexivity; lia).
  destruct (a + duration >? last_stamp); [reflexivity|].
  replace (a + d + duration) with (a + duration + d) by lia.
  replace (a + d + half) with (a + half + d) by lia.
  rewrite slice_shift, mean_shift, dict_set_shift. apply IH.
Qed.

Lemma window_averages_shift (duration half d : Z) (s : Series F) :
  window_averages duration half (shift d s)
  = shift d (window_averages duration half s).
Proof.
  unfold window_averages.
  destruct (index_last s) as [e| |] eqn:He.
  - rewrite (index_last_shift d s e He), index_shift.
    apply (window_loop_shift duration half d s e (index s) []).
  - destruct s as [|p s]; [reflexivity|discriminate He].
  - destruct s as [|p s]; discriminate He.
Qed.

Lemma first_best_shift (better : F -> F -> bool) (d : Z) (rest : dict F) :
  forall (k : Timestamp) (v : F),
    first_best better (k + d) v (shift d rest)
    = first_best better k v rest + d.
Proof.
  induction rest as [|[k' v'] rest IH]; intros k v; [reflexivity|].
  simpl. destruct (better v' v); apply IH.
Qed.

Lemma get_L5_short_period_shift (d : Z) (s : Series F) (L5 : Timestamp) :
  get_L5_short_period s = Return L5 ->
  get_L5_short_period (shift d s) = Return (L5 + d).
Proof.
  unfold get_L5_short_period, averages_5h. rewrite window_averages_shift.
  destruct (window_averages (hours 5) hours_2_5 s) as [|[k v] rest];
    [discriminate|].
  simpl. intros H. injection H as <-. now rewrite first_best_shift.
Qed.

Lemma get_L5_short_period_returns (s : Series F)
    (first_stamp last_stamp : Timestamp) :
  index_first s = Return first_stamp -> index_last s = Return last_stamp ->
  hours 5 <= last_stamp - first_stamp ->
  exists L5, get_L5_short_period s = Return L5.
Proof.
  intros Hfirst Hlast Hspan.
  pose proof (window_averages_not_empty (hours 5) hours_2_5 s _ _
                Hfirst Hlast ltac:(lia)) as Hne.
  unfold get_L5_short_period, averages_5h.
  destruct (window_averages (hours 5) hours_2_5 s) as [|[k v] rest];
    [contradiction|].
  eexists. reflexivity.
Qed.

(** Past the two guards, [get_L5] is the mean of the per-day results over
    the day segments. *)
Lemma get_L5_by_day (data : Series F) (first_stamp last_stamp : Timestamp) :
  index_first data = Return first_stamp ->
  index_last data = Return last_stamp ->
  hours 5 <= last_stamp - first_stamp ->
  first_stamp + days 1 < last_stamp ->
  get_L5 data =
  (L5s <- for_each get_L5_short_period (day_segments data) ;;
   Return (mean_of_days L5s)).
Proof.
  intros Hfirst Hlast Hspan Hlong.
  unfold get_L5, day_segments. rewrite Hfirst, Hlast. cbn [bind].
  destruct (Z.ltb_spec (last_stamp - first_stamp) (hours 5)); [lia|].
  destruct (Z.ltb_spec (first_stamp + days 1) last_stamp); [|lia].
  rewrite day_loop_segments by auto.
  destruct (for_each _ _); reflexivity.
Qed.

Lemma day_bounds_step (fuel : nat) (end_timestamp beg_day : Timestamp) :
  beg_day < end_timestamp ->
  day_bounds (S fuel) end_timestamp beg_day
  = (beg_day, end_of_day end_timestamp beg_day)
    :: day_bounds fuel end_timestamp (end_of_day end_timestamp beg_day).
Proof.
  intros H. simpl.
  destruct (Z.ltb_spec beg_day end_timestamp); [reflexivity|lia].
Qed.

Lemma day_bounds_done (fuel : nat) (end_timestamp beg_day : Timestamp) :
  end_timestamp <= beg_day -> day_bounds fuel end_timestamp beg_day = [].
Proof.
  intros H. destruct fuel; simpl;
    destruct (Z.ltb_spec beg_day end_timestamp); try reflexivity; lia.
Qed.

End Shifts.

(** ** Where the result of [get_L5] can lie *)

Section Bounds.
Context {F : Type} {ops : FloatOps F}.

Lemma first_best_key (better : F -> F -> bool) (rest : dict F) :
  forall (k : Timestamp) (v : F),
    In (first_best better k v rest) (k :: map fst rest).
Proof.
  induction rest as [|[k' v'] rest IH]; intros k v; simpl; [now left|].
  destruct (better v' v).
  - right. apply IH.
  - destruct (IH k v) as [H|H]; [now left|now right; right].
Qed.

Lemma dict_set_keys {V : Type} (d : dict V) (k k' : Timestamp) (v : V) :
  In k' (map fst (dict_set d k v)) -> k' = k \/ In k' (map fst d).
Proof.
  induction d as [|[k0 v0] d IH]; simpl.
  - intros [H|[]]. now left.
  - destruct (Z.eqb_spec k0 k) as [->|Hne]; simpl.
    + intros [H|H]; [now left|now right; right].
    + intros [H|H]; [now right; left|].
      destruct (IH H); [now left|now right; right].
Qed.

(** Every key of the scan is the midpoint of a window that starts at an
    anchor and fits. *)
Lemma window_loop_keys (duration half : Z) (s : Series F)
    (last_stamp : Timestamp) (anchors : list Timestamp) :
  forall (averages : dict F) (key : Timestamp),
    In key (map fst (window_loop duration half s last_stamp anchors averages))
    -> In key (map fst averages) \/
       exists a, In a anchors /\ a + duration <= last_stamp /\
                 key = a + half.
Proof.
  induction anchors as [|a anchors IH]; intros averages key Hkey; simpl in *;
    [now left|].
  destruct (Z.gtb_spec (a + duration) last_stamp) as [Hgt|Hle]; [now left|].
  destruct (IH _ _ Hkey) as [Hset|(a' & Ha' & Hfit & ->)].
  - destruct (dict_set_keys _ _ _ _ Hset) as [->|Hold]; [|now left].
    right. exists a. repeat split; [now left|lia].
  - right. exists a'. repeat split; [now right|lia].
Qed.

Lemma get_L5_short_period_anchor (s : Series F) (t last_stamp : Timestamp) :
  index_last s = Return last_stamp ->
  get_L5_short_period s = Return t ->
  exists a, In a (index s) /\ a + hours 5 <= last_stamp /\
            t = a + hours_2_5.
Proof.
  intros Hlast. unfold get_L5_short_period, averages_5h, window_averages.
  rewrite Hlast.
  destruct (window_loop _ _ _ _ _ _) as [|[k v] rest] eqn:E; [discriminate|].
  intros H. injection H as <-.
  pose proof (first_best_key flt rest k v) as Hkey.
  change (k :: map fst rest) with (map fst ((k, v) :: rest)) in Hkey.
  rewrite <- E in Hkey.
  destruct (window_loop_keys _ _ _ _ _ _ _ Hkey) as [[]|Hanchor].
  exact Hanchor.
Qed.

Lemma for_each_all {A B : Type} (f : A -> outcome B) (P : B -> Prop)
    (l : list A) :
  (forall a b, In a l -> f a = Return b -> P b) ->
  forall bs, for_each f l = Return bs -> Forall P bs.
Proof.
  induction l as [|a l IH]; intros Hf bs; simpl.
  - intros H. injection H as <-. constructor.
  - destruct (f a) as [b| |] eqn:Ea; simpl; try discriminate.
    destruct (for_each f l) as [bs'| |]; simpl; try discriminate.
    intros H. injection H as <-. constructor.
    + apply (Hf a b); [now left|exact Ea].
    + apply IH; [|reflexivity]. intros a' b' Ha'. apply Hf. now right.
Qed.

Lemma mean_stamp_between (lo hi : Timestamp) (stamps : list Timestamp) :
  stamps <> [] -> Forall (fun t => lo <= t <= hi) stamps ->
  lo <= mean_stamp stamps <= hi.
Proof.
  intros Hne Hall. unfold mean_stamp.
  assert (Hsum : Z.of_nat (length stamps) * lo
                 <= fold_right Z.add 0 stamps
                 <= Z.of_nat (length stamps) * hi).
  { clear Hne. induction Hall as [|t l Ht _ IH]; [simpl; lia|].
    cbn [fold_right length]. rewrite Nat2Z.inj_succ, !Z.mul_succ_l. lia. }
  assert (Hn : 0 < Z.of_nat (length stamps))
    by (destruct stamps; [contradiction|simpl; lia]).
  split.
  - apply Z.div_le_lower_bound; lia.
  - apply Z.div_le_upper_bound; lia.
Qed.

(** Whenever [get_L5] returns a timestamp on a series with increasing
    timestamps, the timestamp is at least 2.5 hours after the first sample
    and at least 2.5 hours before the last one. *)
Lemma get_L5_timestamp_between (data : Series F)
    (first_stamp last_stamp t : Timestamp) :
  increasing (index data) = true ->
  index_first data = Return first_stamp ->
  index_last data = Return last_stamp ->
  get_L5 data = Return (PyTimestamp t) ->
  first_stamp + hours_2_5 <= t <= last_stamp - hours_2_5.
Proof.
  intros Hinc Hfirst Hlast.
  assert (Hlo : forall p, In p data -> first_stamp <= fst p)
    by now apply index_first_least.
  assert (Hhi : forall p, In p data -> fst p <= last_stamp)
    by now apply index_last_greatest.
  assert (Hpart : forall a b L5,
            get_L5_short_period (slice data a b) = Return L5 ->
            first_stamp + hours_2_5 <= L5 <= last_stamp - hours_2_5).
  { intros a b L5 HL5.
    destruct (index_last (slice data a b)) as [e| |] eqn:He.
    - destruct (get_L5_short_period_anchor _ _ _ He HL5)
        as (x & Hx & Hfit & ->).
      apply in_map_iff in Hx as (p & <- & Hp). apply in_slice in Hp as [Hp _].
      pose proof (index_last_in _ _ He) as Hin.
      apply in_map_iff in Hin as (q & <- & Hq).
      apply in_slice in Hq as [Hq _].
      specialize (Hlo p Hp). specialize (Hhi q Hq). clock. lia.
    - unfold get_L5_short_period, averages_5h, window_averages in HL5.
      rewrite He in HL5. discriminate HL5.
    - destruct (slice data a b); discriminate He. }
  unfold get_L5. rewrite Hfirst, Hlast. cbn [bind].
  destruct (last_stamp - first_stamp <? hours 5); [discriminate|].
  destruct (Z.ltb_spec (first_stamp + days 1) last_stamp) as [Hlong|Hshort].
  - rewrite day_loop_segments by auto. cbn [app].
    destruct (for_each _ _) as [L5s| |] eqn:E; cbn [bind]; try discriminate.
    unfold mean_of_days, timestamp_mean.
    destruct L5s as [|L5 L5s]; [discriminate|].
    intros H. injection H as <-.
    apply mean_stamp_between; [discriminate|].
    eapply for_each_all; [|exact E].
    intros s L5' Hs HL5. unfold segments_of in Hs.
    apply in_map_iff in Hs as (be & <- & _). exact (Hpart _ _ _ HL5).
  - destruct (get_L5_short_period data) as [L5| |] eqn:E; cbn [bind];
      try discriminate.
    intros H. injection H as <-.
    rewrite <- (slice_all data first_stamp last_stamp) in E
      by (intros p Hp; split; auto).
    exact (Hpart _ _ _ E).
Qed.

End Bounds.

(** ** Three equal days *)

Section ThreeDays.
Context {F : Type} {ops : FloatOps F}.

Lemma in_shift_range (d : Z) (s : Series F) (a b : Timestamp)
    (p : Timestamp * F) :
  (forall q, In q s -> a <= fst q <= b) ->
  In p (shift d s) -> a + d <= fst p <= b + d.
Proof.
  intros Hrange Hp. apply in_shift in Hp as (q & Hq & ->).
  specialize (Hrange q Hq). lia.
Qed.

Variables (segment : Series F) (k : Z) (first_stamp last_stamp : Timestamp).
Hypothesis Hinc : increasing (index segment) = true.
Hypothesis Hfirst : index_first segment = Return first_stamp.
Hypothesis Hlast : index_last segment = Return last_stamp.
Hypothesis Hafter : days k < first_stamp.
Hypothesis Hbefore : last_stamp < days (k + 1).

Lemma segment_range (p : Timestamp * F) :
  In p segment -> first_stamp <= fst p <= last_stamp.
Proof.
  intros Hp. split.
  - now apply (index_first_least segment).
  - now apply (index_last_greatest segment).
Qed.

Lemma three_first : index_first (three_times segment) = Return first_stamp.
Proof.
  unfold three_times. destruct segment as [|[t v] rest]; [discriminate Hfirst|].
  exact Hfirst.
Qed.

Lemma three_last :
  index_last (three_times segment) = Return (last_stamp + days 2).
Proof.
  unfold three_times. apply index_last_app, index_last_app, index_last_shift.
  exact Hlast.
Qed.

Lemma three_bounds :
  day_bounds (day_fuel first_stamp (last_stamp + days 2))
    (last_stamp + days 2) first_stamp
  = [(first_stamp, days (k + 1));
     (days (k + 1), days (k + 2));
     (days (k + 2), last_stamp + days 2)].
Proof.
  assert (Hfl : first_stamp <= last_stamp).
  { pose proof (index_last_in _ _ Hlast) as Hin.
    apply in_map_iff in Hin as (p & Hp & Hin).
    pose proof (segment_range p Hin). lia. }
  assert (Hfuel : day_fuel first_stamp (last_stamp + days 2) = 3%nat).
  { clock. unfold days in *. clock_lia. }
  assert (E1 : end_of_day (last_stamp + days 2) first_stamp = days (k + 1)).
  { clock. unfold days in *.
    destruct (Z.gtb_spec (first_stamp + 86400000000
                          - (first_stamp + 86400000000) mod 86400000000)
                (last_stamp + 2 * 86400000000)); clock_lia. }
  assert (E2 : end_of_day (last_stamp + days 2) (days (k + 1))
               = days (k + 2)).
  { clock. unfold days in *.
    destruct (Z.gtb_spec ((k + 1) * 86400000000 + 86400000000
                          - ((k + 1) * 86400000000 + 86400000000)
                            mod 86400000000)
                (last_stamp + 2 * 86400000000)); clock_lia. }
  assert (E3 : end_of_day (last_stamp + days 2) (days (k + 2))
               = last_stamp + days 2).
  { clock. unfold days in *.
    destruct (Z.gtb_spec ((k + 2) * 86400000000 + 86400000000
                          - ((k + 2) * 86400000000 + 86400000000)
                            mod 86400000000)
                (last_stamp + 2 * 86400000000)); clock_lia. }
  rewrite Hfuel.
  rewrite day_bounds_step, E1 by (unfold days in *; lia).
  rewrite day_bounds_step, E2 by (unfold days in *; lia).
  rewrite day_bounds_step, E3 by (unfold days in *; lia).
  rewrite day_bounds_done by lia. reflexivity.
Qed.

Lemma three_segments :
  day_segments (three_times segment)
  = [segment; shift (days 1) segment; shift (days 2) segment].
Proof.
  unfold day_segments. rewrite three_first, three_last, three_bounds.
  unfold segments_of, three_times. cbn [map fst snd].
  pose proof segment_range as Hr.
  pose proof (fun p => in_shift_range (days 1) segment _ _ p Hr) as Hr1.
  pose proof (fun p => in_shift_range (days 2) segment _ _ p Hr) as Hr2.
  rewrite !slice_app. f_equal; [|f_equal; [|f_equal]].
  - rewrite (slice_all segment), (slice_none (shift (days 1) segment)),
      (slice_none (shift (days 2) segment)).
    + now rewrite app_nil_r.
    + intros p Hp. specialize (Hr2 p Hp). unfold days in *. lia.
    + intros p Hp. specialize (Hr1 p Hp). unfold days in *. lia.
    + intros p Hp. specialize (Hr p Hp). unfold days in *. lia.
  - rewrite (slice_none segment), (slice_all (shift (days 1) segment)),
      (slice_none (shift (days 2) segment)).
    + now rewrite app_nil_r.
    + intros p Hp. specialize (Hr2 p Hp). unfold days in *. lia.
    + intros p Hp. specialize (Hr1 p Hp). unfold days in *. lia.
    + intros p Hp. specialize (Hr p Hp). unfold days in *. lia.
  - rewrite (slice_none segment), (slice_none (shift (days 1) segment)),
      (slice_all (shift (days 2) segment)).
    + reflexivity.
    + intros p Hp. specialize (Hr2 p Hp). unfold days in *. lia.
    + intros p Hp. specialize (Hr1 p Hp). unfold days in *. lia.
    + intros p Hp. specialize (Hr p Hp). unfold days in *. lia.
Qed.

End ThreeDays.

(** C7, as amended.  Take one day of samples, with increasing timestamps
    that all lie strictly between one midnight and the next and span at least
    five hours, and follow it by the same samples one day later and two days
    later.  [get_L5] returns a timestamp L5 on the day alone; on the three
    days its day loop finds L5, L5 one day later and L5 two days later, and
    it returns their mean, a timestamp strictly after L5 and strictly before
    L5 two days later: not the L5 of the day alone. *)
Theorem three_equal_days_L5 {F : Type} {ops : FloatOps F}
    (segment : Series F) (k : Z) (first_stamp last_stamp : Timestamp) :
  increasing (index segment) = true ->
  index_first segment = Return first_stamp ->
  index_last segment = Return last_stamp ->
  days k < first_stamp ->
  last_stamp < days (k + 1) ->
  hours 5 <= last_stamp - first_stamp ->
  exists L5 : Timestamp,
    get_L5 segment = Return (PyTimestamp L5) /\
    day_loop get_L5_short_period
      (day_fuel first_stamp (last_stamp + days 2)) (three_times segment)
      (last_stamp + days 2) first_stamp []
    = Return [L5; L5 + days 1; L5 + days 2] /\
    exists t : Timestamp,
      get_L5 (three_times segment) = Return (PyTimestamp t) /\
      L5 < t < L5 + days 2 /\
      get_L5 (three_times segment) <> get_L5 segment.
Proof.
  intros Hinc Hfirst Hlast Hafter Hbefore Hspan.
  destruct (get_L5_short_period_returns segment _ _ Hfirst Hlast Hspan)
    as [L5 HL5].
  assert (Hone : get_L5 segment = Return (PyTimestamp L5)).
  { unfold get_L5. rewrite Hfirst, Hlast. cbn [bind].
    destruct (Z.ltb_spec (last_stamp - first_stamp) (hours 5)); [lia|].
    destruct (Z.ltb_spec (first_stamp + days 1) last_stamp);
      [unfold days in *; lia|].
    rewrite HL5. reflexivity. }
  assert (Hthree : get_L5 (three_times segment)
                   = Return (PyTimestamp (L5 + days 1))).
  { rewrite (get_L5_by_day _ first_stamp (last_stamp + days 2)).
    + rewrite (three_segments segment k first_stamp last_stamp) by assumption.
      cbn [for_each].
      rewrite HL5, (get_L5_short_period_shift (days 1) _ _ HL5),
        (get_L5_short_period_shift (days 2) _ _ HL5).
      cbn [bind]. unfold mean_of_days, timestamp_mean, mean_stamp.
      cbn [fold_right length]. do 2 f_equal.
      change (Z.of_nat 3) with 3. unfold days. clock_lia.
    + eapply three_first; eassumption.
    + eapply three_last; eassumption.
    + unfold days, hours in *. lia.
    + unfold days, hours in *. lia. }
  exists L5. split; [exact Hone|]. split.
  - rewrite day_loop_segments by auto.
    pose proof (three_segments segment k first_stamp last_stamp
                  Hinc Hfirst Hlast Hafter Hbefore) as Hseg.
    assert (H1 : index_first (three_times segment) = Return first_stamp)
      by (eapply three_first; eassumption).
    assert (H2 : index_last (three_times segment)
                 = Return (last_stamp + days 2))
      by (eapply three_last; eassumption).
    unfold day_segments in Hseg. rewrite H1, H2 in Hseg.
    rewrite Hseg. cbn [for_each].
    rewrite HL5, (get_L5_short_period_shift (days 1) _ _ HL5),
      (get_L5_short_period_shift (days 2) _ _ HL5).
    reflexivity.
  - exists (L5 + days 1). split; [exact Hthree|]. split.
    + unfold days. lia.
    + rewrite Hthree, Hone. intros H. injection H as H. unfold days in H. lia.
Qed.

Lemma three_equal_days_L5_witness :
  exists L5 : Timestamp,
    get_L5 one_day = Return (PyTimestamp L5) /\
    day_loop get_L5_short_period
      (day_fuel (new_year_2024 + hours 1)
         (new_year_2024 + hours 23 + days 2)) three_days
      (new_year_2024 + hours 23 + days 2) (new_year_2024 + hours 1) []
    = Return [L5; L5 + days 1; L5 + days 2] /\
    exists t : Timestamp,
      get_L5 three_days = Return (PyTimestamp t) /\
      L5 < t < L5 + days 2 /\
      get_L5 three_days <> get_L5 one_day.
Proof.
  apply (three_equal_days_L5 one_day 19723 (new_year_2024 + hours 1)
           (new_year_2024 + hours 23)).
  - reflexivity.
  - reflexivity.
  - reflexivity.
  - vm_compute. reflexivity.
  - vm_compute. reflexivity.
  - vm_compute. discriminate.
Defined.

(** C7, as stated, fails: on a day of hourly samples from 01:00 to 23:00
    [get_L5] returns 05:30 of that day, and on the three days in a row it
    returns 05:30 of the second day. *)
Lemma three_equal_days_L5_counterexample :
  get_L5 one_day
  = Return (PyTimestamp (new_year_2024 + hours 5 + minutes 30)) /\
  get_L5 three_days
  = Return (PyTimestamp (new_year_2024 + days 1 + hours 5 + minutes 30)) /\
  get_L5 three_days <> get_L5 one_day.
Proof.
  repeat split; try (vm_compute; reflexivity). vm_compute. discriminate.
Qed.

(** * Further properties of the code *)

(** ** What [get_L5] and [get_M10] can answer *)

Section Answers.
Context {F : Type} {ops : FloatOps F}.

Lemma get_L5_short_period_cases (s : Series F) :
  (too_short (hours 5) s = true /\ get_L5_short_period s = Raise ValueError)
  \/ (too_short (hours 5) s = false /\
      exists t, get_L5_short_period s = Return t).
Proof.
  unfold too_short.
  destruct (index_first s) as [b| |] eqn:Hb;
    try (destruct s as [|[t v] rest]; [|discriminate Hb]; left; split;
         reflexivity).
  destruct (index_last s) as [e| |] eqn:He;
    try (destruct s as [|p rest]; discriminate).
  destruct (Z.ltb_spec (e - b) (hours 5)) as [Hlt|Hge].
  - left. split; [reflexivity|].
    unfold get_L5_short_period, averages_5h.
    rewrite (window_averages_empty _ _ _ _ _ Hb He); [reflexivity|lia].
  - right. split; [reflexivity|].
    apply (get_L5_short_period_returns s b e Hb He Hge).
Qed.

Lemma get_M10_short_period_cases (s : Series F) :
  (too_short (hours 10) s = true /\ get_M10_short_period s = Raise ValueError)
  \/ (too_short (hours 10) s = false /\
      exists t, get_M10_short_period s = Return t).
Proof.
  unfold too_short.
  destruct (index_first s) as [b| |] eqn:Hb;
    try (destruct s as [|[t v] rest]; [|discriminate Hb]; left; split;
         reflexivity).
  destruct (index_last s) as [e| |] eqn:He;
    try (destruct s as [|p rest]; discriminate).
  destruct (Z.ltb_spec (e - b) (hours 10)) as [Hlt|Hge].
  - left. split; [reflexivity|].
    unfold get_M10_short_period, averages_10h.
    rewrite (window_averages_empty _ _ _ _ _ Hb He); [reflexivity|lia].
  - right. split; [reflexivity|].
    pose proof (window_averages_not_empty (hours 10) (hours 5) s _ _
                  Hb He ltac:(lia)) as Hne.
    unfold get_M10_short_period, averages_10h.
    destruct (window_averages (hours 10) (hours 5) s) as [|[k v] rest];
      [contradiction|].
    eexists. reflexivity.
Qed.

(** Over a list of segments, the per-day function fails on the first one
    that is too short, and returns one timestamp per segment when none is. *)
Lemma for_each_short_period (duration : Z)
    (short_period : Series F -> outcome Timestamp) (segments : list (Series F)) :
  (forall s,
     (too_short duration s = true /\ short_period s = Raise ValueError) \/
     (too_short duration s = false /\ exists t, short_period s = Return t)) ->
  (existsb (too_short duration) segments = true /\
   for_each short_period segments = Raise ValueError) \/
  (existsb (too_short duration) segments = false /\
   exists found, for_each short_period segments = Return found /\
                 length found = length segments).
Proof.
  intros Hcases. induction segments as [|s segments IH].
  - right. split; [reflexivity|]. exists []. split; reflexivity.
  - simpl. destruct (Hcases s) as [[Hs Hr]|[Hs [t Hr]]]; rewrite Hs, Hr.
    + left. split; reflexivity.
    + simpl. destruct IH as [[Hex Hf]|[Hex (found & Hf & Hlen)]];
        rewrite Hex, Hf.
      * left. split; reflexivity.
      * right. split; [reflexivity|]. exists (t :: found).
        split; [reflexivity|]. simpl. now rewrite Hlen.
Qed.

Lemma get_M10_by_day (data : Series F) (first_stamp last_stamp : Timestamp) :
  index_first data = Return first_stamp ->
  index_last data = Return last_stamp ->
  first_stamp + days 1 < last_stamp ->
  get_M10 data =
  (M10s <- for_each get_M10_short_period (day_segments data) ;;
   Return (mean_of_days M10s)).
Proof.
  intros Hfirst Hlast Hlong.
  unfold get_M10, day_segments. rewrite Hfirst, Hlast. cbn [bind].
  destruct (Z.ltb_spec (first_stamp + days 1) last_stamp); [|lia].
  rewrite day_loop_segments by auto.
  destruct (for_each _ _); reflexivity.
Qed.

Lemma day_segments_not_nil (data : Series F)
    (first_stamp last_stamp : Timestamp) :
  index_first data = Return first_stamp ->
  index_last data = Return last_stamp ->
  first_stamp < last_stamp ->
  day_segments data <> [].
Proof.
  intros Hfirst Hlast Hlt. unfold day_segments. rewrite Hfirst, Hlast.
  pose proof (day_fuel_pos _ _ Hlt) as Hpos.
  destruct (day_fuel first_stamp last_stamp) as [|fuel]; [lia|].
  rewrite day_bounds_step by exact Hlt. discriminate.
Qed.

End Answers.

(** X1.  On a series with at least one sample, [get_L5] returns [False]
    exactly when the last timestamp is less than five hours after the first;
    and it raises [IndexError] exactly when the series has no sample. *)
Theorem get_L5_guards {F : Type} {ops : FloatOps F} (data : Series F) :
  (get_L5 data = Raise IndexError <-> data = []) /\
  (forall first_stamp last_stamp : Timestamp,
     index_first data = Return first_stamp ->
     index_last data = Return last_stamp ->
     (get_L5 data = Return PyFalse <-> last_stamp - first_stamp < hours 5)).
Proof.
  split.
  - split; [|intros ->; reflexivity].
    destruct data as [|p rest]; [reflexivity|]. intros H. exfalso.
    destruct (index_first (p :: rest)) as [b| |] eqn:Hb;
      [|destruct p; discriminate Hb..].
    destruct (index_last (p :: rest)) as [e| |] eqn:He;
      [|discriminate He..].
    unfold get_L5 in H. rewrite Hb, He in H. cbn [bind] in H.
    destruct (e - b <? hours 5); [discriminate H|].
    destruct (Z.ltb_spec (b + days 1) e) as [Hlong|Hshort].
    + rewrite day_loop_segments in H by auto. cbn [app] in H.
      destruct (for_each_short_period (hours 5) get_L5_short_period
                  (segments_of (p :: rest)
                     (day_bounds (day_fuel b e) e b))
                  get_L5_short_period_cases)
        as [[_ Hf]|[_ (found & Hf & _)]]; rewrite Hf in H; discriminate H.
    + destruct (get_L5_short_period_cases (p :: rest))
        as [[_ Hf]|[_ [t Hf]]]; rewrite Hf in H; discriminate H.
  - intros b e Hb He. unfold get_L5. rewrite Hb, He. cbn [bind].
    destruct (Z.ltb_spec (e - b) (hours 5)) as [Hlt|Hge].
    + split; [intros _; exact Hlt|reflexivity].
    + split; [|lia]. intros H. exfalso.
      destruct (b + days 1 <? e).
      * destruct (day_loop _ _ _ _ _ _) as [found| |]; cbn [bind] in H;
          try discriminate H.
        unfold mean_of_days in H. destruct (timestamp_mean found);
          discriminate H.
      * destruct (get_L5_short_period data); discriminate H.
Qed.

Lemma get_L5_guards_witness : get_L5 one_hour = Return PyFalse.
Proof.
  apply (proj2 (get_L5_guards one_hour) new_year_2024
           (new_year_2024 + hours 1) eq_refl eq_refl).
  vm_compute. reflexivity.
Defined.

(** X2.  On a record with increasing timestamps, of five hours or more,
    that does not reach past one day, [get_L5] raises nothing and returns
    the midpoint of a window that starts at a sample and ends at or before
    the last sample. *)
Theorem get_L5_one_day_returns {F : Type} {ops : FloatOps F}
    (data : Series F) (first_stamp last_stamp : Timestamp) :
  increasing (index data) = true ->
  index_first data = Return first_stamp ->
  index_last data = Return last_stamp ->
  hours 5 <= last_stamp - first_stamp ->
  last_stamp - first_stamp <= days 1 ->
  exists anchor : Timestamp,
    In anchor (index data) /\ anchor + hours 5 <= last_stamp /\
    get_L5 data = Return (PyTimestamp (anchor + hours_2_5)).
Proof.
  intros _ Hb He Hspan Hday.
  destruct (get_L5_short_period_returns data _ _ Hb He Hspan) as [t Ht].
  destruct (get_L5_short_period_anchor data t last_stamp He Ht)
    as (a & Ha & Hfit & ->).
  exists a. split; [exact Ha|]. split; [exact Hfit|].
  unfold get_L5. rewrite Hb, He. cbn [bind].
  destruct (Z.ltb_spec (last_stamp - first_stamp) (hours 5)); [lia|].
  destruct (Z.ltb_spec (first_stamp + days 1) last_stamp); [lia|].
  rewrite Ht. reflexivity.
Qed.

Lemma get_L5_one_day_returns_witness :
  exists anchor : Timestamp,
    In anchor (index scenario) /\
    anchor + hours 5 <= new_year_2024 + hours 5 /\
    get_L5 scenario = Return (PyTimestamp (anchor + hours_2_5)).
Proof.
  apply (get_L5_one_day_returns scenario new_year_2024
           (new_year_2024 + hours 5)).
  - reflexivity.
  - reflexivity.
  - reflexivity.
  - vm_compute. discriminate.
  - vm_compute. discriminate.
Defined.

(** X3.  On a series with increasing timestamps, a timestamp returned by
    [get_L5] is never less than 2.5 hours after the first sample nor less
    than 2.5 hours before the last one, whether the record is cut into days
    or not. *)
Theorem get_L5_result_between {F : Type} {ops : FloatOps F}
    (data : Series F) (first_stamp last_stamp t : Timestamp) :
  increasing (index data) = true ->
  index_first data = Return first_stamp ->
  index_last data = Return last_stamp ->
  get_L5 data = Return (PyTimestamp t) ->
  first_stamp + hours_2_5 <= t <= last_stamp - hours_2_5.
Proof. apply get_L5_timestamp_between. Qed.

Lemma get_L5_result_between_witness :
  new_year_2024 + hours 1 + hours_2_5
  <= new_year_2024 + days 1 + hours 5 + minutes 30
  <= new_year_2024 + days 2 + hours 23 - hours_2_5.
Proof.
  apply (get_L5_result_between three_days (new_year_2024 + hours 1)
           (new_year_2024 + days 2 + hours 23)).
  - reflexivity.
  - reflexivity.
  - reflexivity.
  - vm_compute. reflexivity.
Defined.

(** X4.  On a record with increasing timestamps that reaches past one day,
    [get_L5] raises [ValueError] when one of the day segments has no sample
    or spans less than five hours, and returns a timestamp when none does;
    [get_M10] does the same with ten hours. *)
Theorem long_record_fails_on_a_short_day {F : Type} {ops : FloatOps F}
    (data : Series F) (first_stamp last_stamp : Timestamp) :
  increasing (index data) = true ->
  index_first data = Return first_stamp ->
  index_last data = Return last_stamp ->
  first_stamp + days 1 < last_stamp ->
  (existsb (too_short (hours 5)) (day_segments data) = true ->
   get_L5 data = Raise ValueError) /\
  (existsb (too_short (hours 5)) (day_segments data) = false ->
   exists t, get_L5 data = Return (PyTimestamp t)) /\
  (existsb (too_short (hours 10)) (day_segments data) = true ->
   get_M10 data = Raise ValueError) /\
  (existsb (too_short (hours 10)) (day_segments data) = false ->
   exists t, get_M10 data = Return (PyTimestamp t)).
Proof.
  intros _ Hb He Hlong.
  assert (Hne : day_segments data <> [])
    by (apply (day_segments_not_nil data _ _ Hb He); unfold days in *; lia).
  rewrite (get_L5_by_day data _ _ Hb He) by (unfold days, hours in *; lia).
  rewrite (get_M10_by_day data _ _ Hb He Hlong).
  destruct (for_each_short_period (hours 5) get_L5_short_period
              (day_segments data) get_L5_short_period_cases)
    as [[Hex5 Hf5]|[Hex5 (found5 & Hf5 & Hlen5)]];
  destruct (for_each_short_period (hours 10) get_M10_short_period
              (day_segments data) get_M10_short_period_cases)
    as [[Hex10 Hf10]|[Hex10 (found10 & Hf10 & Hlen10)]];
  rewrite Hex5, Hex10, Hf5, Hf10; cbn [bind];
  repeat split; try discriminate; try reflexivity; intros _;
  unfold mean_of_days, timestamp_mean.
  - destruct found10 as [|t found10]; [|eexists; reflexivity].
    destruct (day_segments data); [contradiction|discriminate Hlen10].
  - destruct found5 as [|t found5]; [|eexists; reflexivity].
    destruct (day_segments data); [contradiction|discriminate Hlen5].
  - destruct found5 as [|t found5]; [|eexists; reflexivity].
    destruct (day_segments data); [contradiction|discriminate Hlen5].
  - destruct found10 as [|t found10]; [|eexists; reflexivity].
    destruct (day_segments data); [contradiction|discriminate Hlen10].
Qed.

Lemma long_record_fails_on_a_short_day_witness :
  get_L5 day_and_two_hours = Raise ValueError /\
  exists t, get_L5 three_days = Return (PyTimestamp t).
Proof.
  split.
  - refine (proj1 (long_record_fails_on_a_short_day day_and_two_hours
                     new_year_2024 (new_year_2024 + hours 26) _ _ _ _) _);
      vm_compute; reflexivity.
  - refine (proj1 (proj2 (long_record_fails_on_a_short_day three_days
                     (new_year_2024 + hours 1)
                     (new_year_2024 + days 2 + hours 23) _ _ _ _)) _);
      vm_compute; reflexivity.
Defined.

(** ** Where the result of [get_M10] can lie *)

Section BoundsM10.
Context {F : Type} {ops : FloatOps F}.

Lemma get_M10_short_period_anchor (s : Series F) (t last_stamp : Timestamp) :
  index_last s = Return last_stamp ->
  get_M10_short_period s = Return t ->
  exists a, In a (index s) /\ a + hours 10 <= last_stamp /\
            t = a + hours 5.
Proof.
  intros Hlast. unfold get_M10_short_period, averages_10h, window_averages.
  rewrite Hlast.
  destruct (window_loop _ _ _ _ _ _) as [|[k v] rest] eqn:E; [discriminate|].
  intros H. injection H as <-.
  pose proof (first_best_key (fun a b => flt b a) rest k v) as Hkey.
  change (k :: map fst rest) with (map fst ((k, v) :: rest)) in Hkey.
  rewrite <- E in Hkey.
  destruct (window_loop_keys _ _ _ _ _ _ _ Hkey) as [[]|Hanchor].
  exact Hanchor.
Qed.

Lemma get_M10_timestamp_between (data : Series F)
    (first_stamp last_stamp t : Timestamp) :
  increasing (index data) = true ->
  index_first data = Return first_stamp ->
  index_last data = Return last_stamp ->
  get_M10 data = Return (PyTimestamp t) ->
  first_stamp + hours 5 <= t <= last_stamp - hours 5.
Proof.
  intros Hinc Hfirst Hlast.
  assert (Hlo : forall p, In p data -> first_stamp <= fst p)
    by now apply index_first_least.
  assert (Hhi : forall p, In p data -> fst p <= last_stamp)
    by now apply index_last_greatest.
  assert (Hpart : forall a b M10,
            get_M10_short_period (slice data a b) = Return M10 ->
            first_stamp + hours 5 <= M10 <= last_stamp - hours 5).
  { intros a b M10 HM10.
    destruct (index_last (slice data a b)) as [e| |] eqn:He.
    - destruct (get_M10_short_period_anchor _ _ _ He HM10)
        as (x & Hx & Hfit & ->).
      apply in_map_iff in Hx as (p & <- & Hp). apply in_slice in Hp as [Hp _].
      pose proof (index_last_in _ _ He) as Hin.
      apply in_map_iff in Hin as (q & <- & Hq).
      apply in_slice in Hq as [Hq _].
      specialize (Hlo p Hp). specialize (Hhi q Hq). clock. lia.
    - unfold get_M10_short_period, averages_10h, window_averages in HM10.
      rewrite He in HM10. discriminate HM10.
    - destruct (slice data a b); discriminate He. }
  unfold get_M10. rewrite Hfirst, Hlast. cbn [bind].
  destruct (Z.ltb_spec (first_stamp + days 1) last_stamp) as [Hlong|Hshort].
  - rewrite day_loop_segments by auto. cbn [app].
    destruct (for_each _ _) as [M10s| |] eqn:E; cbn [bind]; try discriminate.
    unfold mean_of_days, timestamp_mean.
    destruct M10s as [|M10 M10s]; [discriminate|].
    intros H. injection H as <-.
    apply mean_stamp_between; [discriminate|].
    eapply for_each_all; [|exact E].
    intros s M10' Hs HM10. unfold segments_of in Hs.
    apply in_map_iff in Hs as (be & <- & _). exact (Hpart _ _ _ HM10).
  - destruct (get_M10_short_period data) as [M10| |] eqn:E; cbn [bind];
      try discriminate.
    intros H. injection H as <-.
    rewrite <- (slice_all data first_stamp last_stamp) in E
      by (intros p Hp; split; auto).
    exact (Hpart _ _ _ E).
Qed.

End BoundsM10.

(** X5.  On a record with increasing timestamps, of ten hours or more,
    that does not reach past one day, [get_M10] raises nothing and returns a
    timestamp; and on any series with increasing timestamps a timestamp
    returned by [get_M10] is never less than five hours after the first
    sample nor less than five hours before the last one. *)
Theorem get_M10_result {F : Type} {ops : FloatOps F}
    (data : Series F) (first_stamp last_stamp : Timestamp) :
  increasing (index data) = true ->
  index_first data = Return first_stamp ->
  index_last data = Return last_stamp ->
  (hours 10 <= last_stamp - first_stamp ->
   last_stamp - first_stamp <= days 1 ->
   exists t, get_M10 data = Return (PyTimestamp t)) /\
  (forall t, get_M10 data = Return (PyTimestamp t) ->
             first_stamp + hours 5 <= t <= last_stamp - hours 5).
Proof.
  intros Hinc Hb He. split.
  - intros Hspan Hday. unfold get_M10. rewrite Hb, He. cbn [bind].
    destruct (Z.ltb_spec (first_stamp + days 1) last_stamp); [lia|].
    destruct (get_M10_short_period_cases data) as [[Hs _]|[_ [t Ht]]].
    + unfold too_short in Hs. rewrite Hb, He in Hs.
      apply Z.ltb_lt in Hs. lia.
    + exists t. rewrite Ht. reflexivity.
  - intros t Ht.
    exact (get_M10_timestamp_between data _ _ t Hinc Hb He Ht).
Qed.

Lemma get_M10_result_witness :
  exists t,
    get_M10 one_day = Return (PyTimestamp t) /\
    new_year_2024 + hours 1 + hours 5 <= t
    <= new_year_2024 + hours 23 - hours 5.
Proof.
  destruct (get_M10_result one_day (new_year_2024 + hours 1)
              (new_year_2024 + hours 23) eq_refl eq_refl eq_refl)
    as [Hret Hbetween].
  destruct Hret as [t Ht].
  - vm_compute. discriminate.
  - vm_compute. discriminate.
  - exists t. split; [exact Ht|]. apply Hbetween. exact Ht.
Defined.

(** ** Ties, and what the scan records *)

Section Ties.
Context {F : Type} {ops : FloatOps F}.

Lemma orderly_spec (xs : list F) :
  orderly xs = true ->
  forall a b, In a xs -> In b xs -> flt a b = true ->
    flt b a = false /\
    forall c, In c xs -> flt a c = true \/ flt c b = true.
Proof.
  unfold orderly. intros H a b Ha Hb Hab.
  rewrite forallb_forall in H. specialize (H a Ha).
  rewrite forallb_forall in H. specialize (H b Hb).
  apply andb_true_iff in H as [H1 H2]. split.
  - rewrite Hab in H1. now apply negb_true_iff in H1.
  - intros c Hc. rewrite forallb_forall in H2. specialize (H2 c Hc).
    rewrite Hab in H2. now apply orb_true_iff in H2.
Qed.

Variable better : F -> F -> bool.
Variable vals : list F.
Hypothesis better_asym :
  forall a b, In a vals -> In b vals ->
              better a b = true -> better b a = false.
Hypothesis better_between :
  forall a b c, In a vals -> In b vals -> In c vals ->
                better a b = true -> better a c = true \/ better c b = true.

Lemma better_trans (a b c : F) :
  In a vals -> In b vals -> In c vals ->
  better a b = true -> better b c = true -> better a c = true.
Proof.
  intros Ha Hb Hc Hab Hbc.
  destruct (better_between a b c Ha Hb Hc Hab) as [H|H]; [exact H|].
  rewrite (better_asym b c Hb Hc Hbc) in H. discriminate H.
Qed.

(** The chosen item is strictly better than every item before it, and no
    item after it is strictly better. *)
Lemma first_best_earliest (rest : dict F) :
  forall (k : Timestamp) (v : F),
    (forall x, In x (v :: map snd rest) -> In x vals) ->
    exists pre w post,
      (k, v) :: rest = pre ++ (first_best better k v rest, w) :: post /\
      Forall (fun kv => better w (snd kv) = true) pre /\
      Forall (fun kv => better (snd kv) w = false) post.
Proof.
  induction rest as [|[k' v'] rest IH]; intros k v Hin; simpl.
  - exists [], v, []. repeat split; constructor.
  - assert (Hv : In v vals) by (apply Hin; now left).
    assert (Hv' : In v' vals) by (apply Hin; right; now left).
    destruct (better v' v) eqn:Hb.
    + destruct (IH k' v') as (pre & w & post & Heq & Hpre & Hpost).
      { intros x Hx. apply Hin. now right. }
      exists ((k, v) :: pre), w, post.
      split; [simpl; now rewrite Heq|]. split; [|exact Hpost].
      constructor; [|exact Hpre]. simpl.
      destruct pre as [|p pre].
      * simpl in Heq. injection Heq as _ Hw _. now rewrite <- Hw.
      * simpl in Heq. injection Heq as Hp Hrest.
        apply Forall_inv in Hpre. rewrite <- Hp in Hpre. simpl in Hpre.
        apply (better_trans w v' v); auto.
        apply Hin. right. right. rewrite Hrest, map_app. apply in_or_app.
        right. now left.
    + destruct (IH k v) as (pre & w & post & Heq & Hpre & Hpost).
      { intros x [<-|Hx]; apply Hin; [now left|now right; right]. }
      destruct pre as [|p pre].
      * simpl in Heq. injection Heq as Hk Hw Hpost'.
        exists [], w, ((k', v') :: post). split; [|split].
        -- simpl. rewrite <- Hk, <- Hw, <- Hpost'. reflexivity.
        -- constructor.
        -- constructor; [simpl; now rewrite <- Hw|exact Hpost].
      * simpl in Heq. injection Heq as Hp Hrest.
        exists (p :: (k', v') :: pre), w, post. split; [|split].
        -- simpl. rewrite Hp. f_equal. f_equal. exact Hrest.
        -- pose proof (Forall_inv Hpre) as Hwv. rewrite <- Hp in Hwv.
           simpl in Hwv.
           assert (Hw : In w vals).
           { apply Hin. right. right. rewrite Hrest, map_app.
             apply in_or_app. right. now left. }
           constructor; [exact (Forall_inv Hpre)|].
           constructor; [|exact (Forall_inv_tail Hpre)]. simpl.
           destruct (better_between w v v' Hw Hv Hv' Hwv) as [H|H];
             [exact H|]. rewrite Hb in H. discriminate H.
        -- exact Hpost.
Qed.

Lemma dict_get_in {V : Type} (d : dict V) (k : Timestamp) (v : V) :
  dict_get d k = Some v -> In k (map fst d).
Proof.
  induction d as [|[k' v'] d IH]; simpl; [discriminate|].
  destruct (Z.eqb_spec k' k) as [->|Hne]; [now left|].
  intros H. right. now apply IH.
Qed.

End Ties.

(** X6.  When windows tie, the earliest one is kept.  On a series with
    increasing timestamps whose recorded means are put in an order by [<]
    (none is NaN), the window whose midpoint [get_L5_short_period] returns
    is one of the recorded windows, its mean is strictly lower than the mean
    of every window recorded before it, and no window recorded after it has
    a strictly lower mean; for [get_M10_short_period] read higher for
    lower. *)
Theorem ties_keep_the_earliest_window {F : Type} {ops : FloatOps F}
    (s : Series F) (t : Timestamp) :
  increasing (index s) = true ->
  (orderly (map snd (averages_5h s)) = true ->
   get_L5_short_period s = Return t ->
   exists pre mean post,
     averages_5h s = pre ++ (t, mean) :: post /\
     Forall (fun earlier => flt mean (snd earlier) = true) pre /\
     Forall (fun later => flt (snd later) mean = false) post) /\
  (orderly (map snd (averages_10h s)) = true ->
   get_M10_short_period s = Return t ->
   exists pre mean post,
     averages_10h s = pre ++ (t, mean) :: post /\
     Forall (fun earlier => flt (snd earlier) mean = true) pre /\
     Forall (fun later => flt mean (snd later) = false) post).
Proof.
  intros _. split; intros Hord.
  - unfold get_L5_short_period, min_by_value.
    destruct (averages_5h s) as [|[k v] rest]; [discriminate|].
    intros H. injection H as <-.
    apply (first_best_earliest flt (map snd ((k, v) :: rest))).
    + intros a b Ha Hb Hab.
      exact (proj1 (orderly_spec _ Hord a b Ha Hb Hab)).
    + intros a b c Ha Hb Hc Hab.
      exact (proj2 (orderly_spec _ Hord a b Ha Hb Hab) c Hc).
    + intros x Hx. exact Hx.
  - unfold get_M10_short_period, max_by_value.
    destruct (averages_10h s) as [|[k v] rest]; [discriminate|].
    intros H. injection H as <-.
    apply (first_best_earliest (fun a b => flt b a)
             (map snd ((k, v) :: rest))).
    + intros a b Ha Hb Hab.
      exact (proj1 (orderly_spec _ Hord b a Hb Ha Hab)).
    + intros a b c Ha Hb Hc Hab.
      destruct (proj2 (orderly_spec _ Hord b a Hb Ha Hab) c Hc) as [H|H];
        [now right|now left].
    + intros x Hx. exact Hx.
Qed.

Lemma ties_keep_the_earliest_window_witness :
  map snd (averages_5h eight_equal) = [1; 1; 1]%float /\
  exists pre mean post,
    averages_5h eight_equal
    = pre ++ (new_year_2024 + hours_2_5, mean) :: post /\
    Forall (fun earlier => flt mean (snd earlier) = true) pre /\
    Forall (fun later => flt (snd later) mean = false) post.
Proof.
  split; [vm_compute; reflexivity|].
  apply (proj1 (ties_keep_the_earliest_window eight_equal
                  (new_year_2024 + hours_2_5) eq_refl));
    vm_compute; reflexivity.
Defined.

(** X7.  On a series with increasing timestamps the scan records exactly
    the windows that start at a sample and end at or before the last sample:
    a timestamp is a key of [averages_5h] if and only if it is 2.5 hours
    after such a sample, and a key of [averages_10h] if and only if it is
    five hours after a sample whose ten-hour window fits. *)
Theorem recorded_windows_are_the_fitting_ones {F : Type} {ops : FloatOps F}
    (s : Series F) (last_stamp key : Timestamp) :
  increasing (index s) = true ->
  index_last s = Return last_stamp ->
  (In key (map fst (averages_5h s)) <->
   exists t, In t (index s) /\ t + hours 5 <= last_stamp /\
             key = t + hours_2_5) /\
  (In key (map fst (averages_10h s)) <->
   exists t, In t (index s) /\ t + hours 10 <= last_stamp /\
             key = t + hours 5).
Proof.
  intros Hinc Hlast. split; split.
  - unfold averages_5h, window_averages. rewrite Hlast. intros Hkey.
    destruct (window_loop_keys _ _ _ _ _ _ _ Hkey) as [[]|H]. exact H.
  - intros (t & Ht & Hfit & ->).
    apply (dict_get_in _ _ _
             (window_averages_get (hours 5) hours_2_5 s t last_stamp
                Hinc Ht Hlast Hfit)).
  - unfold averages_10h, window_averages. rewrite Hlast. intros Hkey.
    destruct (window_loop_keys _ _ _ _ _ _ _ Hkey) as [[]|H]. exact H.
  - intros (t & Ht & Hfit & ->).
    apply (dict_get_in _ _ _
             (window_averages_get (hours 10) (hours 5) s t last_stamp
                Hinc Ht Hlast Hfit)).
Qed.

Lemma recorded_windows_are_the_fitting_ones_witness :
  In (new_year_2024 + hours 1 + hours_2_5) (map fst (averages_5h one_day)).
Proof.
  apply (proj1 (recorded_windows_are_the_fitting_ones one_day
                  (new_year_2024 + hours 23)
                  (new_year_2024 + hours 1 + hours_2_5)
                  eq_refl eq_refl)).
  exists (new_year_2024 + hours 1). split; [now left|].
  split; [vm_compute; discriminate|reflexivity].
Defined.

(** ** The day segments of a record *)

Section DaySegments.
Context {F : Type} {ops : FloatOps F}.

Lemma day_fuel_last (end_timestamp beg_day : Timestamp) :
  beg_day < end_timestamp ->
  end_timestamp <= end_of_day end_timestamp beg_day ->
  day_fuel beg_day end_timestamp = 1%nat.
Proof.
  clock. intros H.
  destruct (Z.gtb_spec (beg_day + 86400000000
                        - (beg_day + 86400000000) mod 86400000000)
              end_timestamp); intros Hle; clock_lia.
Qed.

Lemma day_fuel_next (end_timestamp beg_day : Timestamp) :
  beg_day < end_timestamp ->
  end_of_day end_timestamp beg_day < end_timestamp ->
  day_fuel beg_day end_timestamp
  = S (day_fuel (end_of_day end_timestamp beg_day) end_timestamp).
Proof.
  clock. intros H.
  destruct (Z.gtb_spec (beg_day + 86400000000
                        - (beg_day + 86400000000) mod 86400000000)
              end_timestamp); intros Hlt; clock_lia.
Qed.

Lemma day_fuel_is_days_touched (end_timestamp beg_day : Timestamp) :
  beg_day < end_timestamp ->
  day_fuel beg_day end_timestamp
  = Z.to_nat (date (end_timestamp - 1) - date beg_day + 1).
Proof. unfold date. clock. intros H. clock_lia. Qed.

Lemma end_of_day_midnight (end_timestamp beg_day : Timestamp) :
  end_of_day end_timestamp beg_day = end_timestamp \/
  end_of_day end_timestamp beg_day mod days 1 = 0.
Proof.
  clock.
  destruct (Z.gtb_spec (beg_day + 86400000000
                        - (beg_day + 86400000000) mod 86400000000)
              end_timestamp); [now left|right; clock_lia].
Qed.

Lemma day_bounds_length (end_timestamp : Timestamp) (fuel : nat) :
  forall beg_day : Timestamp,
    beg_day < end_timestamp ->
    (day_fuel beg_day end_timestamp <= fuel)%nat ->
    length (day_bounds fuel end_timestamp beg_day)
    = day_fuel beg_day end_timestamp.
Proof.
  induction fuel as [|fuel IH]; intros beg_day Hlt Hfuel.
  - pose proof (day_fuel_pos _ _ Hlt). lia.
  - rewrite day_bounds_step by exact Hlt. cbn [length].
    destruct (Z_lt_le_dec (end_of_day end_timestamp beg_day) end_timestamp)
      as [Hnext|Hdone].
    + rewrite IH by (auto using day_fuel_step).
      now rewrite (day_fuel_next _ _ Hlt Hnext).
    + rewrite day_bounds_done by exact Hdone.
      now rewrite (day_fuel_last _ _ Hlt Hdone).
Qed.

Lemma day_bounds_midnights (end_timestamp : Timestamp) (fuel : nat) :
  forall (beg_day x y : Timestamp),
    In (x, y) (day_bounds fuel end_timestamp beg_day) ->
    (x = beg_day \/ x mod days 1 = 0) /\
    (y = end_timestamp \/ y mod days 1 = 0).
Proof.
  induction fuel as [|fuel IH]; intros beg_day x y Hin; simpl in Hin;
    destruct (Z.ltb_spec beg_day end_timestamp) as [Hlt|Hge];
    try destruct Hin.
  - injection H as <- <-. split; [now left|apply end_of_day_midnight].
  - specialize (IH _ _ _ H). destruct IH as [[->|Hx] Hy]; split; auto.
    destruct (end_of_day_midnight end_timestamp beg_day) as [He|Hm];
      [|now right].
    rewrite He in H. rewrite day_bounds_done in H by lia. destruct H.
Qed.

End DaySegments.

(** X8.  A record whose first timestamp is before its last is cut into as
    many day segments as it touches calendar days, from the day of its first
    sample to the day of the instant just before its last; every segment
    starts at the first timestamp or at a midnight, and ends at the last
    timestamp or at a midnight. *)
Theorem day_segments_follow_the_calendar {F : Type} {ops : FloatOps F}
    (data : Series F) (first_stamp last_stamp : Timestamp) :
  index_first data = Return first_stamp ->
  index_last data = Return last_stamp ->
  first_stamp < last_stamp ->
  length (day_segments data)
  = Z.to_nat (date (last_stamp - 1) - date first_stamp + 1) /\
  forall x y,
    In (x, y)
      (day_bounds (day_fuel first_stamp last_stamp) last_stamp first_stamp) ->
    (x = first_stamp \/ x mod days 1 = 0) /\
    (y = last_stamp \/ y mod days 1 = 0).
Proof.
  intros Hb He Hlt. split.
  - unfold day_segments, segments_of. rewrite Hb, He, length_map.
    rewrite day_bounds_length by auto.
    now apply day_fuel_is_days_touched.
  - intros x y. apply day_bounds_midnights.
Qed.

Lemma day_segments_follow_the_calendar_witness :
  length (day_segments three_days) = 3%nat.
Proof.
  apply (proj1 (day_segments_follow_the_calendar three_days
                  (new_year_2024 + hours 1)
                  (new_year_2024 + days 2 + hours 23)
                  eq_refl eq_refl eq_refl)).
Defined.

(** ** A record moved by whole days *)

Section WholeDays.
Context {F : Type} {ops : FloatOps F}.

Lemma end_of_day_shift (n : Z) (end_timestamp beg_day : Timestamp) :
  end_of_day (end_timestamp + days n) (beg_day + days n)
  = end_of_day end_timestamp beg_day + days n.
Proof.
  clock. unfold days.
  destruct (Z.gtb_spec (beg_day + 86400000000
                        - (beg_day + 86400000000) mod 86400000000)
              end_timestamp),
    (Z.gtb_spec (beg_day + n * 86400000000 + 86400000000
                 - (beg_day + n * 86400000000 + 86400000000)
                   mod 86400000000)
       (end_timestamp + n * 86400000000)); clock_lia.
Qed.

Lemma day_fuel_shift (n : Z) (end_timestamp beg_day : Timestamp) :
  day_fuel (beg_day + days n) (end_timestamp + days n)
  = day_fuel beg_day end_timestamp.
Proof. clock. unfold days. f_equal. clock_lia. Qed.

Lemma day_bounds_shift (n : Z) (end_timestamp : Timestamp) (fuel : nat) :
  forall beg_day : Timestamp,
    day_bounds fuel (end_timestamp + days n) (beg_day + days n)
    = map (move (days n)) (day_bounds fuel end_timestamp beg_day).
Proof.
  induction fuel as [|fuel IH]; intros beg_day; simpl;
    replace (beg_day + days n <? end_timestamp + days n)
      with (beg_day <? end_timestamp)
      by (destruct (Z.ltb_spec beg_day end_timestamp),
            (Z.ltb_spec (beg_day + days n) (end_timestamp + days n));
          try reflexivity; lia);
    destruct (beg_day <? end_timestamp); try reflexivity.
  simpl. rewrite end_of_day_shift, IH. reflexivity.
Qed.

Lemma segments_of_shift (d : Z) (data : Series F)
    (bounds : list (Timestamp * Timestamp)) :
  segments_of (shift d data) (map (move d) bounds)
  = map (shift d) (segments_of data bounds).
Proof.
  unfold segments_of. rewrite !map_map. apply map_ext.
  intros [a b]. simpl. apply slice_shift.
Qed.

Lemma get_L5_short_period_later (d : Z) (s : Series F) :
  get_L5_short_period (shift d s) = later d (get_L5_short_period s).
Proof.
  unfold get_L5_short_period, averages_5h. rewrite window_averages_shift.
  destruct (window_averages (hours 5) hours_2_5 s) as [|[k v] rest];
    [reflexivity|].
  simpl. now rewrite first_best_shift.
Qed.

Lemma get_M10_short_period_later (d : Z) (s : Series F) :
  get_M10_short_period (shift d s) = later d (get_M10_short_period s).
Proof.
  unfold get_M10_short_period, averages_10h. rewrite window_averages_shift.
  destruct (window_averages (hours 10) (hours 5) s) as [|[k v] rest];
    [reflexivity|].
  simpl. now rewrite first_best_shift.
Qed.

Lemma for_each_later (d : Z) (short_period : Series F -> outcome Timestamp)
    (segments : list (Series F)) :
  (forall s, short_period (shift d s) = later d (short_period s)) ->
  for_each short_period (map (shift d) segments)
  = match for_each short_period segments with
    | Return found => Return (map (fun t => t + d) found)
    | other => other
    end.
Proof.
  intros Hsp. induction segments as [|s segments IH]; [reflexivity|].
  simpl. rewrite Hsp, IH.
  destruct (short_period s); simpl; try reflexivity.
  destruct (for_each short_period segments); reflexivity.
Qed.

(** The daily results of a record moved by whole days are the daily results
    of the record, moved as much. *)
Lemma day_loop_days_later (n : Z)
    (short_period : Series F -> outcome Timestamp) (data : Series F)
    (first_stamp last_stamp : Timestamp) :
  (forall s, short_period (shift (days n) s)
             = later (days n) (short_period s)) ->
  day_loop short_period
    (day_fuel (first_stamp + days n) (last_stamp + days n))
    (shift (days n) data) (last_stamp + days n) (first_stamp + days n) []
  = match day_loop short_period (day_fuel first_stamp last_stamp)
            data last_stamp first_stamp [] with
    | Return found => Return (map (fun t => t + days n) found)
    | other => other
    end.
Proof.
  intros Hsp. rewrite !day_loop_segments by auto.
  rewrite day_fuel_shift, day_bounds_shift, segments_of_shift.
  rewrite (for_each_later _ _ _ Hsp).
  destruct (for_each short_period _) as [found| |]; reflexivity.
Qed.

Lemma mean_of_days_same_kind (d : Z) (found : list Timestamp) :
  match mean_of_days found with
  | PyTimestamp _ =>
      exists t, mean_of_days (map (fun t => t + d) found) = PyTimestamp t
  | other => mean_of_days (map (fun t => t + d) found) = other
  end.
Proof.
  unfold mean_of_days, timestamp_mean.
  destruct found as [|t found]; [reflexivity|]. eexists. reflexivity.
Qed.

End WholeDays.

(** X9.  A record with increasing timestamps that does not reach past one
    day can be moved by any amount of time: the result of [get_L5] and of
    [get_M10] moves as much, and the same records raise, with the same
    exception, and give [False].  Of a longer record moved by a whole number
    of days, the timestamps that the day loop finds, one per day, move as
    much, and the call raises the same exception, gives [False] or gives a
    timestamp as it does without the move. *)
Theorem whole_days_later {F : Type} {ops : FloatOps F}
    (n d : Z) (data : Series F) (first_stamp last_stamp : Timestamp) :
  increasing (index data) = true ->
  index_first data = Return first_stamp ->
  index_last data = Return last_stamp ->
  (last_stamp <= first_stamp + days 1 ->
   get_L5 (shift d data) = shift_outcome d (get_L5 data) /\
   get_M10 (shift d data) = shift_outcome d (get_M10 data)) /\
  day_loop get_L5_short_period
    (day_fuel (first_stamp + days n) (last_stamp + days n))
    (shift (days n) data) (last_stamp + days n) (first_stamp + days n) []
  = match day_loop get_L5_short_period (day_fuel first_stamp last_stamp)
            data last_stamp first_stamp [] with
    | Return found => Return (map (fun t => t + days n) found)
    | other => other
    end /\
  day_loop get_M10_short_period
    (day_fuel (first_stamp + days n) (last_stamp + days n))
    (shift (days n) data) (last_stamp + days n) (first_stamp + days n) []
  = match day_loop get_M10_short_period (day_fuel first_stamp last_stamp)
            data last_stamp first_stamp [] with
    | Return found => Return (map (fun t => t + days n) found)
    | other => other
    end /\
  match get_L5 data with
  | Return (PyTimestamp _) =>
      exists t, get_L5 (shift (days n) data) = Return (PyTimestamp t)
  | other => get_L5 (shift (days n) data) = other
  end /\
  match get_M10 data with
  | Return (PyTimestamp _) =>
      exists t, get_M10 (shift (days n) data) = Return (PyTimestamp t)
  | other => get_M10 (shift (days n) data) = other
  end.
Proof.
  intros _ Hb He.
  assert (HL : forall s, get_L5_short_period (shift (days n) s)
                         = later (days n) (get_L5_short_period s))
    by (intros s; apply get_L5_short_period_later).
  assert (HM : forall s, get_M10_short_period (shift (days n) s)
                         = later (days n) (get_M10_short_period s))
    by (intros s; apply get_M10_short_period_later).
  split; [|split; [now apply day_loop_days_later|
                   split; [now apply day_loop_days_later|]]].
  - intros Hday. unfold get_L5, get_M10.
    rewrite (index_first_shift d data _ Hb), (index_last_shift d data _ He),
      Hb, He.
    cbn [bind].
    replace (last_stamp + d - (first_stamp + d))
      with (last_stamp - first_stamp) by lia.
    destruct (Z.ltb_spec (first_stamp + d + days 1) (last_stamp + d));
      [lia|].
    destruct (Z.ltb_spec (first_stamp + days 1) last_stamp); [lia|].
    rewrite get_L5_short_period_later, get_M10_short_period_later.
    split.
    + destruct (last_stamp - first_stamp <? hours 5); [reflexivity|].
      destruct (get_L5_short_period data); reflexivity.
    + destruct (get_M10_short_period data); reflexivity.
  - unfold get_L5, get_M10.
    rewrite (index_first_shift (days n) data _ Hb),
      (index_last_shift (days n) data _ He), Hb, He.
    cbn [bind].
    replace (last_stamp + days n - (first_stamp + days n))
      with (last_stamp - first_stamp) by lia.
    replace (first_stamp + days n + days 1 <? last_stamp + days n)
      with (first_stamp + days 1 <? last_stamp)
      by (destruct (Z.ltb_spec (first_stamp + days 1) last_stamp),
            (Z.ltb_spec (first_stamp + days n + days 1)
               (last_stamp + days n));
          try reflexivity; lia).
    rewrite !day_loop_days_later by assumption.
    rewrite HL, HM.
    split.
    + destruct (last_stamp - first_stamp <? hours 5); [reflexivity|].
      destruct (first_stamp + days 1 <? last_stamp).
      * destruct (day_loop get_L5_short_period _ _ _ _ _) as [found| |];
          cbn [bind]; try reflexivity.
        pose proof (mean_of_days_same_kind (days n) found) as H.
        destruct (mean_of_days found) as [|t0|]; [now rewrite H|
          destruct H as [t' H]; exists t'; now rewrite H|now rewrite H].
      * destruct (get_L5_short_period data); cbn [bind later];
          [eexists|..]; reflexivity.
    + destruct (first_stamp + days 1 <? last_stamp).
      * destruct (day_loop get_M10_short_period _ _ _ _ _) as [found| |];
          cbn [bind]; try reflexivity.
        pose proof (mean_of_days_same_kind (days n) found) as H.
        destruct (mean_of_days found) as [|t0|]; [now rewrite H|
          destruct H as [t' H]; exists t'; now rewrite H|now rewrite H].
      * destruct (get_M10_short_period data); cbn [bind later];
          [eexists|..]; reflexivity.
Qed.

Lemma whole_days_later_witness :
  day_loop get_L5_short_period
    (day_fuel (new_year_2024 + hours 1 + days 7)
       (new_year_2024 + days 2 + hours 23 + days 7))
    (shift (days 7) three_days)
    (new_year_2024 + days 2 + hours 23 + days 7)
    (new_year_2024 + hours 1 + days 7) []
  = match day_loop get_L5_short_period
            (day_fuel (new_year_2024 + hours 1)
               (new_year_2024 + days 2 + hours 23))
            three_days (new_year_2024 + days 2 + hours 23)
            (new_year_2024 + hours 1) [] with
    | Return found => Return (map (fun t => t + days 7) found)
    | other => other
    end.
Proof.
  apply (proj1 (proj2 (whole_days_later 7 0 three_days
                         (new_year_2024 + hours 1)
                         (new_year_2024 + days 2 + hours 23)
                         eq_refl eq_refl eq_refl))).
Defined.

(** ** The frame of one hour of acceleration *)

Section OneHour.
Context {F : Type} {ops : FloatOps F}.
Variable query_acc_data :
  Timestamp -> Timestamp -> option (response F * response F * response F).

Lemma norm_rows_length (f g h : Timestamp -> F) (idx : list Timestamp) :
  length (norm_rows (map f idx) (map g idx) (map h idx)) = length idx.
Proof. induction idx as [|t idx IH]; simpl; [reflexivity|now rewrite IH]. Qed.

Lemma union_index_not_nil (a b : list Timestamp) :
  a <> [] -> union_index a b <> [].
Proof. destruct a; [contradiction|discriminate]. Qed.

(** What [get_r] makes of the frame of [get_acc_data], case by case on the
    answer of the data base. *)
Lemma get_r_of_answer (lower_limit upper_limit : Timestamp) :
  match query_acc_data lower_limit upper_limit with
  | None | Some ([], [], []) =>
      get_acc_data query_acc_data lower_limit upper_limit
      = empty_df lower_limit /\
      get_r (get_acc_data query_acc_data lower_limit upper_limit)
      = Return [(lower_limit, norm3 fnan fnan fnan)]
  | Some (p1 :: l1, p2 :: l2, p3 :: l3) =>
      exists row rows,
        get_r (get_acc_data query_acc_data lower_limit upper_limit)
        = Return (row :: rows)
  | Some _ =>
      get_r (get_acc_data query_acc_data lower_limit upper_limit)
      = Raise KeyError
  end.
Proof.
  destruct (query_acc_data lower_limit upper_limit)
    as [[[lat lon] ver]|] eqn:Hq.
  - destruct lat as [|p1 l1], lon as [|p2 l2], ver as [|p3 l3];
      try (unfold get_acc_data; rewrite Hq; reflexivity);
      try (unfold get_acc_data; rewrite Hq; split; reflexivity).
    unfold get_acc_data. rewrite Hq.
    unfold concat_axis1, response2dataframe, get_r.
    cbn [map df_index df_columns fold_left flat_map app reindex fst snd
         getitem column_eqb bind].
    rewrite union_index_nil. eexists. eexists.
    etransitivity;
      [apply (f_equal Return);
       apply (combine_norm_rows (channel_at (p1 :: l1))
                (channel_at (p2 :: l2)) (channel_at (p3 :: l3)))|].
    unfold union_index. cbn [map app]. reflexivity.
  - unfold get_acc_data. rewrite Hq. split; reflexivity.
Qed.

End OneHour.

Section AnswerCases.
Context {F : Type} {ops : FloatOps F}.
Variable query_acc_data :
  Timestamp -> Timestamp -> option (response F * response F * response F).

Lemma get_r_answer_cases (lower_limit upper_limit : Timestamp) :
  (partial_answer (query_acc_data lower_limit upper_limit) = true /\
   get_r (get_acc_data query_acc_data lower_limit upper_limit)
   = Raise KeyError) \/
  (partial_answer (query_acc_data lower_limit upper_limit) = false /\
   exists row rows,
     get_r (get_acc_data query_acc_data lower_limit upper_limit)
     = Return (row :: rows)).
Proof.
  pose proof (get_r_of_answer query_acc_data lower_limit upper_limit) as H.
  destruct (query_acc_data lower_limit upper_limit)
    as [[[[|p1 l1] [|p2 l2]] [|p3 l3]]|]; cbn [partial_answer is_empty
      orb andb negb];
    try (left; split; [reflexivity|exact H]);
    try (right; split; [reflexivity|exact H]);
    right; (split; [reflexivity|]); eexists; eexists; apply H.
Qed.

Lemma get_r_answer_fallback (lower_limit upper_limit : Timestamp) :
  query_acc_data lower_limit upper_limit = None \/
  query_acc_data lower_limit upper_limit = Some ([], [], []) ->
  get_acc_data query_acc_data lower_limit upper_limit
  = empty_df lower_limit /\
  get_r (get_acc_data query_acc_data lower_limit upper_limit)
  = Return [(lower_limit, norm3 fnan fnan fnan)].
Proof.
  pose proof (get_r_of_answer query_acc_data lower_limit upper_limit) as H.
  intros [Hq|Hq]; rewrite Hq in H; exact H.
Qed.

End AnswerCases.

(** X10.  When the query of an hour fails, or answers with three channels
    that have no record, [get_acc_data] gives the frame with one row at the
    lower bound and no value, and [get_r] gives one missing value at that
    timestamp.  When an answer holds both a channel without record and a
    channel with records, [get_r] raises [KeyError]; in every other case it
    returns a series with at least one sample. *)
Theorem get_r_on_each_answer {F : Type} {ops : FloatOps F}
    (query_acc_data : Timestamp -> Timestamp ->
       option (response F * response F * response F))
    (lower_limit upper_limit : Timestamp) :
  (query_acc_data lower_limit upper_limit = None \/
   query_acc_data lower_limit upper_limit = Some ([], [], []) ->
   get_acc_data query_acc_data lower_limit upper_limit
   = empty_df lower_limit /\
   get_r (get_acc_data query_acc_data lower_limit upper_limit)
   = Return [(lower_limit, norm3 fnan fnan fnan)]) /\
  (partial_answer (query_acc_data lower_limit upper_limit) = true ->
   get_r (get_acc_data query_acc_data lower_limit upper_limit)
   = Raise KeyError) /\
  (partial_answer (query_acc_data lower_limit upper_limit) = false ->
   exists row rows,
     get_r (get_acc_data query_acc_data lower_limit upper_limit)
     = Return (row :: rows)).
Proof.
  split; [apply get_r_answer_fallback|].
  destruct (get_r_answer_cases query_acc_data lower_limit
              upper_limit) as [[Hp Hr]|[Hp Hr]]; rewrite Hp;
    split; intros Hq; try discriminate Hq; exact Hr.
Qed.

Lemma get_r_on_each_answer_witness :
  get_r (get_acc_data failing_query new_year_2024 (new_year_2024 + hours 1))
  = Return [(new_year_2024, PrimFloat.nan)] /\
  get_r (get_acc_data partial_query new_year_2024 (new_year_2024 + hours 1))
  = Raise KeyError /\
  exists row rows,
    get_r (get_acc_data mismatched_query new_year_2024
             (new_year_2024 + hours 1))
    = Return (row :: rows).
Proof.
  split; [|split].
  - refine (proj2 (proj1 (get_r_on_each_answer failing_query new_year_2024
                            (new_year_2024 + hours 1)) _)).
    left. reflexivity.
  - refine (proj1 (proj2 (get_r_on_each_answer partial_query new_year_2024
                            (new_year_2024 + hours 1))) _).
    reflexivity.
  - refine (proj2 (proj2 (get_r_on_each_answer mismatched_query new_year_2024
                            (new_year_2024 + hours 1))) _).
    reflexivity.
Defined.

(** ** What [get_VMC_serie] can answer *)

Section SerieAnswers.
Context {F : Type} {ops : FloatOps F}.
Variable query_acc_data :
  Timestamp -> Timestamp -> option (response F * response F * response F).

(** The hour loop returns, unless one of its queries is answered with some
    channels and without others. *)
Lemma hour_loop_outcome (day_end : Timestamp) (fuel : nat) :
  forall (hour_beg : Timestamp) (vmc_serie : dict (option F)),
    (hour_beg < day_end -> (hour_fuel hour_beg day_end <= fuel)%nat) ->
    (exists found,
       hour_loop query_acc_data fuel day_end hour_beg vmc_serie
       = Return found) \/
    (hour_loop query_acc_data fuel day_end hour_beg vmc_serie
     = Raise KeyError /\
     exists lower_limit upper_limit,
       partial_answer (query_acc_data lower_limit upper_limit) = true).
Proof.
  induction fuel as [|fuel IH]; intros hour_beg vmc_serie Hfuel; simpl;
    destruct (Z.ltb_spec hour_beg day_end) as [Hlt|Hge];
    try (left; eexists; reflexivity).
  - pose proof (hour_fuel_pos _ _ Hlt). specialize (Hfuel Hlt). lia.
  - unfold hour_body.
    destruct (get_r_answer_cases query_acc_data hour_beg
                (end_of_hour day_end hour_beg))
      as [[Hp Hr]|[Hp (row & rows & Hr)]]; rewrite Hr; cbn [bind].
    + right. split; [reflexivity|]. eexists. eexists. exact Hp.
    + destruct (index_last (row :: rows)) as [l| |] eqn:Hl;
        try discriminate Hl.
      cbn [bind]. rewrite minute_loop_buckets by auto. cbn [bind].
      apply IH. intros Hnext. apply hour_fuel_step; auto.
Qed.

Lemma days_loop_outcome (date_end : Timestamp) (days : list Timestamp) :
  forall vmc_serie : dict (option F),
    (exists found,
       days_loop query_acc_data date_end days vmc_serie = Return found) \/
    (days_loop query_acc_data date_end days vmc_serie = Raise KeyError /\
     exists lower_limit upper_limit,
       partial_answer (query_acc_data lower_limit upper_limit) = true).
Proof.
  induction days as [|day_beg days IH]; intros vmc_serie; simpl.
  - left. eexists. reflexivity.
  - destruct (hour_loop_outcome (end_of_day date_end day_beg)
                (hour_fuel day_beg (end_of_day date_end day_beg)) day_beg
                vmc_serie (fun _ => le_n _))
      as [[found Hf]|[Hf Hp]]; rewrite Hf; cbn [bind].
    + apply IH.
    + right. split; [reflexivity|exact Hp].
Qed.

(** An hour for which the data base has nothing leaves the dict as it is. *)
Lemma hour_loop_without_data (day_end : Timestamp) (fuel : nat) :
  (forall lower_limit upper_limit,
     query_acc_data lower_limit upper_limit = None \/
     query_acc_data lower_limit upper_limit = Some ([], [], [])) ->
  forall (hour_beg : Timestamp) (vmc_serie : dict (option F)),
    (hour_beg < day_end -> (hour_fuel hour_beg day_end <= fuel)%nat) ->
    hour_loop query_acc_data fuel day_end hour_beg vmc_serie
    = Return vmc_serie.
Proof.
  intros Hq. induction fuel as [|fuel IH]; intros hour_beg vmc_serie Hfuel;
    simpl; destruct (Z.ltb_spec hour_beg day_end) as [Hlt|Hge];
    try reflexivity.
  - pose proof (hour_fuel_pos _ _ Hlt). specialize (Hfuel Hlt). lia.
  - unfold hour_body.
    destruct (get_r_answer_fallback query_acc_data hour_beg
                (end_of_hour day_end hour_beg) (Hq _ _)) as [_ Hr].
    rewrite Hr. cbn [bind index_last last fst].
    destruct (minute_fuel hour_beg hour_beg); simpl;
      rewrite Z.ltb_irrefl; cbn [bind];
      (apply IH; intros Hnext; apply hour_fuel_step; auto).
Qed.

Lemma hour_loop_past_the_end (day_end : Timestamp) (fuel : nat)
    (hour_beg : Timestamp) (vmc_serie : dict (option F)) :
  day_end <= hour_beg ->
  hour_loop query_acc_data fuel day_end hour_beg vmc_serie = Return vmc_serie.
Proof.
  intros Hge. destruct fuel; simpl;
    destruct (Z.ltb_spec hour_beg day_end); try reflexivity; lia.
Qed.

End SerieAnswers.

(** X11.  With a data base whose answers have their records in the order
    of their timestamps, [get_VMC_serie] raises nothing but [KeyError], and
    raises it only when some query is answered with a channel that has
    records and a channel that has none: with a data base that never answers
    so, it returns. *)
Theorem get_VMC_serie_raises_only_KeyError {F : Type} {ops : FloatOps F}
    (query_acc_data : Timestamp -> Timestamp ->
       option (response F * response F * response F))
    (date_end : Timestamp) (days : list Timestamp) :
  (forall lower_limit upper_limit,
     sorted_answer (query_acc_data lower_limit upper_limit) = true) ->
  ((exists result,
      get_VMC_serie query_acc_data date_end days = Return result) \/
   get_VMC_serie query_acc_data date_end days = Raise KeyError) /\
  ((forall lower_limit upper_limit,
      partial_answer (query_acc_data lower_limit upper_limit) = false) ->
   exists result,
     get_VMC_serie query_acc_data date_end days = Return result).
Proof.
  intros _. unfold get_VMC_serie. destruct days as [|d days].
  - split; [left|intros _]; eexists; reflexivity.
  - destruct (days_loop_outcome query_acc_data date_end (d :: days) [])
      as [[found Hf]|[Hf (lo & hi & Hp)]]; rewrite Hf; cbn [bind].
    + split; [left|intros _]; eexists; reflexivity.
    + split; [right; reflexivity|]. intros Hnone.
      rewrite Hnone in Hp. discriminate Hp.
Qed.

Lemma get_VMC_serie_raises_only_KeyError_witness :
  exists result,
    get_VMC_serie mismatched_query (new_year_2024 + hours 2)
      [new_year_2024] = Return result.
Proof.
  apply (proj2 (get_VMC_serie_raises_only_KeyError mismatched_query
                  (new_year_2024 + hours 2) [new_year_2024]
                  (fun _ _ => eq_refl))).
  intros lower_limit upper_limit. reflexivity.
Defined.

Section NothingToReport.
Context {F : Type} {ops : FloatOps F}.
Variable query_acc_data :
  Timestamp -> Timestamp -> option (response F * response F * response F).

Lemma days_loop_without_data (date_end : Timestamp) (days : list Timestamp) :
  (forall lower_limit upper_limit,
     query_acc_data lower_limit upper_limit = None \/
     query_acc_data lower_limit upper_limit = Some ([], [], [])) ->
  forall vmc_serie : dict (option F),
    days_loop query_acc_data date_end days vmc_serie = Return vmc_serie.
Proof.
  intros Hq. induction days as [|day_beg days IH]; intros vmc_serie;
    simpl; [reflexivity|].
  rewrite (hour_loop_without_data query_acc_data _ _ Hq)
    by (intros _; apply le_n).
  apply IH.
Qed.

Lemma days_loop_past_the_end (date_end : Timestamp) (days : list Timestamp) :
  (forall day_beg, In day_beg days -> date_end <= day_beg) ->
  forall vmc_serie : dict (option F),
    days_loop query_acc_data date_end days vmc_serie = Return vmc_serie.
Proof.
  induction days as [|day_beg days IH]; intros Hpast vmc_serie; simpl;
    [reflexivity|].
  rewrite hour_loop_past_the_end.
  - apply IH. intros d Hd. apply Hpast. now right.
  - specialize (Hpast day_beg (or_introl eq_refl)). clock.
    destruct (Z.gtb_spec (day_beg + 86400000000
                          - (day_beg + 86400000000) mod 86400000000)
                date_end); clock_lia.
Qed.

End NothingToReport.

(** X12.  Days that start at or after the end of the recording add nothing
    to the VMC series, whatever the data base holds, and neither do hours for
    which the data base fails or has no record: when every selected day is
    such, or every query, [get_VMC_serie] returns the series without
    entries. *)
Theorem get_VMC_serie_with_nothing_to_report {F : Type} {ops : FloatOps F}
    (query_acc_data : Timestamp -> Timestamp ->
       option (response F * response F * response F))
    (date_end day_beg : Timestamp) (days : list Timestamp) :
  ((forall d, In d (day_beg :: days) -> date_end <= d) ->
   get_VMC_serie query_acc_data date_end (day_beg :: days)
   = Return (Some [])) /\
  ((forall lower_limit upper_limit,
      query_acc_data lower_limit upper_limit = None \/
      query_acc_data lower_limit upper_limit = Some ([], [], [])) ->
   get_VMC_serie query_acc_data date_end (day_beg :: days)
   = Return (Some [])).
Proof.
  unfold get_VMC_serie. split; intros H.
  - now rewrite (days_loop_past_the_end query_acc_data date_end _ H).
  - now rewrite (days_loop_without_data query_acc_data date_end _ H).
Qed.

Lemma get_VMC_serie_with_nothing_to_report_witness :
  get_VMC_serie mismatched_query new_year_2024
    [new_year_2024 + days 1] = Return (Some []) /\
  get_VMC_serie failing_query (new_year_2024 + days 1)
    [new_year_2024] = Return (Some []).
Proof.
  split.
  - apply (proj1 (get_VMC_serie_with_nothing_to_report mismatched_query
                    new_year_2024 (new_year_2024 + days 1) [])).
    intros d [<-|[]]. vm_compute. discriminate.
  - apply (proj2 (get_VMC_serie_with_nothing_to_report failing_query
                    (new_year_2024 + days 1) new_year_2024 [])).
    intros lower_limit upper_limit. left. reflexivity.
Defined.

(** ** The timestamp of a bucket *)

Section BucketKeys.
Context {F : Type} {ops : FloatOps F}.

Lemma dict_update_keys {V : Type} (e : dict V) :
  forall (d : dict V) (k : Timestamp),
    In k (map fst (dict_update d e)) ->
    In k (map fst d) \/ In k (map fst e).
Proof.
  unfold dict_update. induction e as [|[k' v'] e IH]; intros d k Hk; simpl in *;
    [now left|].
  destruct (IH _ _ Hk) as [Hset|He]; [|now right; right].
  destruct (dict_set_keys _ _ _ _ Hset) as [->|Hd];
    [right; now left|now left].
Qed.

Lemma chained_in_range (bounds : list (Timestamp * Timestamp)) :
  forall (a e x y : Timestamp),
    chained a e bounds -> In (x, y) bounds -> a <= x /\ x < y /\ y <= e.
Proof.
  induction bounds as [|[x0 y0] rest IH]; intros a e x y Hc Hin;
    [destruct Hin|].
  destruct Hc as (-> & Hlt & Hrest). pose proof (chained_le _ _ _ Hrest).
  destruct Hin as [Heq|Hin].
  - injection Heq as <- <-. lia.
  - specialize (IH _ _ _ _ Hrest Hin). lia.
Qed.


End BucketKeys.


(** ** Week days and weekend days *)

Lemma date_days_later (t : Timestamp) (n : Z) :
  date (t + days n) = date t + n.
Proof.
  unfold date, days. change (1 * 86400000000) with 86400000000. clock_lia.
Qed.

Lemma date_next_day (t : Timestamp) : date (t + days 1) = date t + 1.
Proof. apply date_days_later. Qed.

Section WeekDays.
Context {Entry : Type} (same_date : Z -> Entry -> bool).

Lemma weekdays_loop_closed_form (date_end : Timestamp) (weekends : list Entry)
    (fuel : nat) :
  forall (current : Timestamp) (weekdays : list Timestamp),
    fuel = Z.to_nat (date date_end - date current) ->
    weekdays_loop same_date fuel date_end weekends current weekdays
    = Return
        (weekdays ++
         filter (not_in_weekends same_date weekends)
           (map (fun i => current + days (Z.of_nat i)) (seq 0 fuel))).
Proof.
  induction fuel as [|fuel IH]; intros current weekdays Hfuel; simpl.
  - destruct (Z.ltb_spec (date current) (date date_end)); [lia|].
    now rewrite app_nil_r.
  - destruct (Z.ltb_spec (date current) (date date_end)); [|lia].
    rewrite IH by (rewrite date_next_day; lia).
    f_equal. replace (current + days 0) with current by (unfold days; lia).
    rewrite <- seq_shift, map_map.
    rewrite (map_ext (fun i => current + days 1 + days (Z.of_nat i))
               (fun i => current + days (Z.of_nat (S i))))
      by (intros i; unfold days; lia).
    destruct (not_in_weekends same_date weekends current);
      [now rewrite <- app_assoc|reflexivity].
Qed.

End WeekDays.

(** X14.  For one participant, [get_days_by_weekday_weekend] returns as
    week days the timestamps [date_start], [date_start] + 1 day, ... for
    every calendar day from the start date up to, and not including, the end
    date, in order, leaving out those whose date is equal to a listed
    Saturday or Sunday; as weekend days it returns the listed Saturdays
    followed by the listed Sundays, unfiltered.  Every week day returned
    keeps the time of day of [date_start], and none is on or after the end
    date. *)
Theorem week_days_of_a_participant {Entry : Type}
    (same_date : Z -> Entry -> bool) (row : dates_row (Entry := Entry)) :
  days_of_row same_date row
  = Return
      (filter
         (not_in_weekends same_date (listSaturdays row ++ listSundays row))
         (day_starts (timestampStart row) (timestampEnd row)),
       listSaturdays row ++ listSundays row) /\
  forall t,
    In t (day_starts (timestampStart row) (timestampEnd row)) ->
    date (timestampStart row) <= date t < date (timestampEnd row) /\
    (t - timestampStart row) mod days 1 = 0.
Proof.
  split.
  - unfold days_of_row, weekdays_fuel, day_starts.
    rewrite (weekdays_loop_closed_form same_date) by reflexivity.
    reflexivity.
  - intros t Ht. unfold day_starts in Ht.
    apply in_map_iff in Ht as (i & <- & Hi). apply in_seq in Hi.
    rewrite date_days_later. split; [lia|].
    replace (timestampStart row + days (Z.of_nat i) - timestampStart row)
      with (Z.of_nat i * days 1) by (unfold days; lia).
    apply Z.mod_mul. unfold days. lia.
Qed.

(** ** The bounds of a query, as text *)

Section Bounds_as_text.

Lemma acc_limit_strings_length (lower_limit upper_limit : text) :
  length (fst (acc_limit_strings lower_limit upper_limit))
  = (Nat.max (length lower_limit) (length upper_limit) + 2)%nat /\
  length (snd (acc_limit_strings lower_limit upper_limit))
  = (Nat.max (length lower_limit) (length upper_limit) + 2)%nat.
Proof.
  unfold acc_limit_strings. cbn [fst snd length].
  rewrite !length_app. cbn [length].
  destruct (Nat.ltb_spec (Nat.min (length lower_limit) (length upper_limit))
              (length lower_limit));
    [|destruct (Nat.ltb_spec
                  (Nat.min (length lower_limit) (length upper_limit))
                  (length upper_limit))];
    rewrite ?length_skipn; cbn [length]; lia.
Qed.

End Bounds_as_text.

(** X15.  The two bound strings that [get_acc_data] sends to the data base
    have the same length, two more than the longer of the two printed bounds:
    each starts with a quote followed by its own bound in full, the shorter
    bound is followed by the tail of the longer one, and each ends with a
    quote. *)
Theorem acc_limit_strings_are_uniform (lower_limit upper_limit : text) :
  length (fst (acc_limit_strings lower_limit upper_limit))
  = length (snd (acc_limit_strings lower_limit upper_limit)) /\
  length (fst (acc_limit_strings lower_limit upper_limit))
  = (Nat.max (length lower_limit) (length upper_limit) + 2)%nat /\
  (exists tail,
     fst (acc_limit_strings lower_limit upper_limit)
     = quote_mark :: lower_limit ++ tail ++ [quote_mark] /\
     (tail = [] \/
      tail = skipn (length lower_limit) upper_limit)) /\
  (exists tail,
     snd (acc_limit_strings lower_limit upper_limit)
     = quote_mark :: upper_limit ++ tail ++ [quote_mark] /\
     (tail = [] \/
      tail = skipn (length upper_limit) lower_limit)).
Proof.
  destruct (acc_limit_strings_length lower_limit upper_limit) as [H1 H2].
  split; [now rewrite H1, H2|]. split; [exact H1|].
  unfold acc_limit_strings. cbn [fst snd].
  destruct (Nat.ltb_spec (Nat.min (length lower_limit) (length upper_limit))
              (length lower_limit)) as [Hl|Hl].
  - split; eexists; (split; [reflexivity|]); [now left|right].
    f_equal. lia.
  - destruct (Nat.ltb_spec
                (Nat.min (length lower_limit) (length upper_limit))
                (length upper_limit)) as [Hu|Hu].
    + split; eexists; (split; [reflexivity|]); [right|now left].
      f_equal. lia.
    + split; eexists; (split; [reflexivity|]); now left.
Qed.

(** X16.  The two bound strings that [get_HR_data] sends have the same
    length, two more than the shorter of the two printed bounds, and the
    longer bound loses what goes beyond that length: two lower bounds that
    agree on as many characters as the upper bound has give the same pair of
    strings, and the upper bound is sent in full. *)
Theorem hr_limit_strings_are_cut (lower_limit upper_limit : text) :
  length (fst (hr_limit_strings lower_limit upper_limit))
  = length (snd (hr_limit_strings lower_limit upper_limit)) /\
  length (fst (hr_limit_strings lower_limit upper_limit))
  = (Nat.min (length lower_limit) (length upper_limit) + 2)%nat /\
  forall tail tail' : text,
    (length upper_limit <= length lower_limit)%nat ->
    hr_limit_strings (lower_limit ++ tail) upper_limit
    = hr_limit_strings (lower_limit ++ tail') upper_limit /\
    snd (hr_limit_strings (lower_limit ++ tail) upper_limit)
    = quote_mark :: upper_limit ++ [quote_mark].
Proof.
  split; [|split].
  - unfold hr_limit_strings. cbn [fst snd length].
    rewrite !length_app, !length_firstn. cbn [length]. lia.
  - unfold hr_limit_strings. cbn [fst snd length].
    rewrite !length_app, !length_firstn. cbn [length]. lia.
  - intros tail tail' Hle. unfold hr_limit_strings. cbn [fst snd].
    rewrite !length_app.
    rewrite !Nat.min_r by lia.
    rewrite !firstn_app.
    replace (length upper_limit - length lower_limit)%nat with 0%nat by lia.
    cbn [firstn]. rewrite firstn_all. split; reflexivity.
Qed.

Lemma hr_limit_strings_are_cut_witness :
  hr_limit_strings (printed_lower ++ skipn 29 printed_upper) printed_lower
  = hr_limit_strings (printed_lower ++ []) printed_lower.
Proof.
  refine (proj1 (proj2 (proj2 (hr_limit_strings_are_cut printed_lower
                                 printed_lower))
                   (skipn 29 printed_upper) [] _)).
  apply le_n.
Defined.

Lemma week_days_of_a_participant_witness :
  days_of_row Z.eqb thursday_to_tuesday
  = Return ([days 19726 + hours 10; days 19727 + hours 10;
             days 19730 + hours 10], [19728; 19729]) /\
  date (days 19726 + hours 10) <= date (days 19730 + hours 10)
  < date (days 19731 + hours 9).
Proof.
  destruct (week_days_of_a_participant Z.eqb thursday_to_tuesday)
    as [Hdays Hrange].
  split; [exact Hdays|].
  refine (proj1 (Hrange (days 19730 + hours 10) _)).
  vm_compute. do 4 right. left. reflexivity.
Defined.

(** ** The heart rate series *)

Section HeartRateSeries.
Context {F : Type} {ops : FloatOps F}.
Variable query_HR_data : Timestamp -> Timestamp -> option (response F).

Lemma get_HR_data_not_empty (lower_limit upper_limit : Timestamp) :
  get_HR_data query_HR_data lower_limit upper_limit <> [].
Proof.
  unfold get_HR_data.
  destruct (query_HR_data lower_limit upper_limit) as [[|r rs]|];
    discriminate.
Qed.

Lemma hr_days_loop_app (date_end : Timestamp) (days : list Timestamp) :
  forall hr_serie : Series F,
    hr_days_loop query_HR_data date_end days hr_serie
    = hr_serie ++
      flat_map
        (fun day_beg =>
           get_HR_data query_HR_data day_beg (end_of_day date_end day_beg))
        days.
Proof.
  induction days as [|d days IH]; intros hr_serie; simpl.
  - now rewrite app_nil_r.
  - now rewrite IH, app_assoc.
Qed.

Lemma hr_days_loop_length (date_end : Timestamp) (days : list Timestamp) :
  forall hr_serie : Series F,
    (length hr_serie + length days
     <= length (hr_days_loop query_HR_data date_end days hr_serie))%nat.
Proof.
  induction days as [|d days IH]; intros hr_serie; simpl; [lia|].
  specialize (IH (hr_serie
                  ++ get_HR_data query_HR_data d (end_of_day date_end d))).
  rewrite length_app in IH.
  pose proof (get_HR_data_not_empty d (end_of_day date_end d)) as Hne.
  destruct (get_HR_data query_HR_data d (end_of_day date_end d));
    [contradiction|simpl in IH; lia].
Qed.

End HeartRateSeries.

(** X17.  [get_HR_serie] concatenates, in the order of the selected days,
    what [get_HR_data] gives for each day, and every day gives at least one
    row (the row without value at the start of the day when the query fails
    or has no record).  So with two selected days or more the result is a
    series with at least one entry per day; with a single selected day it is
    a bare number, not a series, exactly when that day gives a single row, as
    it does when the query of the day fails or has no record. *)
Theorem get_HR_serie_shape {F : Type} {ops : FloatOps F}
    (query_HR_data : Timestamp -> Timestamp -> option (response F))
    (date_end day_beg : Timestamp) :
  (forall (second_day : Timestamp) (days : list Timestamp),
     get_HR_serie query_HR_data date_end (day_beg :: second_day :: days)
     = Some (AsSeries
               (flat_map
                  (fun d =>
                     get_HR_data query_HR_data d (end_of_day date_end d))
                  (day_beg :: second_day :: days))) /\
     (length (day_beg :: second_day :: days)
      <= length
           (flat_map
              (fun d => get_HR_data query_HR_data d (end_of_day date_end d))
              (day_beg :: second_day :: days)))%nat) /\
  (forall x,
     get_HR_serie query_HR_data date_end [day_beg] = Some (Scalar x) <->
     exists t,
       get_HR_data query_HR_data day_beg (end_of_day date_end day_beg)
       = [(t, x)]) /\
  (query_HR_data day_beg (end_of_day date_end day_beg) = None \/
   query_HR_data day_beg (end_of_day date_end day_beg) = Some [] ->
   get_HR_serie query_HR_data date_end [day_beg] = Some (Scalar fnan)).
Proof.
  split; [|split].
  - intros second_day days.
    pose proof (hr_days_loop_length query_HR_data date_end
                  (day_beg :: second_day :: days) []) as Hlen.
    unfold get_HR_serie. rewrite hr_days_loop_app in *. cbn [app] in *.
    split; [|exact Hlen]. f_equal. unfold squeeze.
    destruct (flat_map _ _) as [|[t x] [|q rest]]; try reflexivity.
    simpl in Hlen. lia.
  - intros x. unfold get_HR_serie. rewrite hr_days_loop_app.
    cbn [app flat_map]. rewrite app_nil_r. unfold squeeze.
    destruct (get_HR_data query_HR_data day_beg (end_of_day date_end day_beg))
      as [|[t y] [|q rest]]; split;
      try (intros H; discriminate H); try (intros [t' H]; discriminate H).
    + intros H. injection H as <-. now exists t.
    + intros [t' H]. injection H as _ <-. reflexivity.
  - intros Hq. unfold get_HR_serie. cbn [hr_days_loop app].
    unfold get_HR_data. destruct Hq as [Hq|Hq]; rewrite Hq; reflexivity.
Qed.

Lemma get_HR_serie_shape_witness :
  get_HR_serie failing_hr_query (new_year_2024 + days 2) [new_year_2024]
  = Some (Scalar PrimFloat.nan) /\
  get_HR_serie one_record_query (new_year_2024 + days 2) [new_year_2024]
  = Some (Scalar 60%float).
Proof.
  destruct (get_HR_serie_shape failing_hr_query (new_year_2024 + days 2)
              new_year_2024) as (_ & _ & Hfail).
  destruct (get_HR_serie_shape one_record_query (new_year_2024 + days 2)
              new_year_2024) as (_ & Hone & _).
  split.
  - apply Hfail. left. reflexivity.
  - apply (proj2 (Hone 60%float)).
    exists (new_year_2024 + hours 1). reflexivity.
Defined.
